(** * Lifecycle of a petals [Server] and of its [ModuleAnnouncerThread]

    A shallow embedding of [src/server/server.py].  The Python methods are
    written as computations in a small monad that threads the object state,
    records every call made to an external collaborator (the hivemind DHT,
    the connection handlers, the Runtime) and propagates exceptions the way
    Python does.  What the collaborators answer is given by an environment
    record, so every definition can be evaluated on a concrete scenario. *)

From Stdlib Require Import List ZArith QArith Qminmax String Ascii Bool Lia.
From Stdlib Require Import DecimalString DecimalZ.
Import ListNotations.

Set Implicit Arguments.

(* ================================================================= *)
(** * Part I: definitions *)
(* ================================================================= *)

(** ** Python values, exceptions and the effect monad *)

Module Py.

(** The exceptions that occur in [server.py]; [Foreign] stands for any
    exception raised inside an external collaborator. *)
Inductive exn : Type :=
| AssertionError
| ValueError
| KeyError
| RuntimeError
| TimeoutError
| Foreign (name : string).

(** What a call into an external collaborator does: it returns a value,
    raises, or never returns (a blocking call that stays blocked). *)
Inductive outcome (A : Type) : Type :=
| Returns (a : A)
| Raises (e : exn)
| Hangs.
Arguments Raises {A} e.
Arguments Hangs {A}.

(** How a Python computation ends.  [OutOfFuel] only arises from loops
    that the model unrolls a bounded number of times: the computation is
    still running. *)
Inductive result (A : Type) : Type :=
| Done (a : A)
| Raised (e : exn)
| Blocked
| OutOfFuel.
Arguments Raised {A} e.
Arguments Blocked {A}.
Arguments OutOfFuel {A}.

Section Monad.
(** [S] is the state of the object, [E] the type of recorded calls. *)
Variables S E : Type.

Definition M (A : Type) : Type := S -> result A * S * list E.

Definition ret {A} (a : A) : M A := fun s => (Done a, s, []).

Definition bind {A B} (m : M A) (f : A -> M B) : M B :=
  fun s =>
    match m s with
    | (Done a, s1, t1) =>
        match f a s1 with (r, s2, t2) => (r, s2, t1 ++ t2) end
    | (Raised e, s1, t1) => (Raised e, s1, t1)
    | (Blocked, s1, t1) => (Blocked, s1, t1)
    | (OutOfFuel, s1, t1) => (OutOfFuel, s1, t1)
    end.

Definition raise {A} (e : exn) : M A := fun s => (Raised e, s, []).

Definition get : M S := fun s => (Done s, s, []).

Definition modify (f : S -> S) : M unit := fun s => (Done tt, f s, []).

(** Recording a call, and ending the way a collaborator decides. *)
Definition emit (ev : E) : M unit := fun s => (Done tt, s, [ev]).

Definition of_outcome {A} (o : outcome A) : M A :=
  fun s =>
    (match o with
     | Returns a => Done a
     | Raises e => Raised e
     | Hangs => Blocked
     end, s, []).

(** A call to a collaborator: the call is recorded, then it returns,
    raises or blocks. *)
Definition call {A} (ev : E) (o : outcome A) : M A :=
  bind (emit ev) (fun _ => of_outcome o).

(** [assert cond]. *)
Definition assert (cond : bool) : M unit :=
  if cond then ret tt else raise AssertionError.

(** [if cond: body]. *)
Definition when (cond : bool) (body : M unit) : M unit :=
  if cond then body else ret tt.

(** [try: body finally: fin].  The [finally] suite runs whenever the
    body terminates, normally or not; when the suite itself raises,
    its exception replaces the pending one. *)
Definition try_finally {A} (body : M A) (fin : M unit) : M A :=
  fun s =>
    match body s with
    | (Blocked, s1, t1) => (Blocked, s1, t1)
    | (OutOfFuel, s1, t1) => (OutOfFuel, s1, t1)
    | (r, s1, t1) =>
        match fin s1 with
        | (Done _, s2, t2) => (r, s2, t1 ++ t2)
        | (Raised e, s2, t2) => (Raised e, s2, t1 ++ t2)
        | (Blocked, s2, t2) => (Blocked, s2, t1 ++ t2)
        | (OutOfFuel, s2, t2) => (OutOfFuel, s2, t1 ++ t2)
        end
    end.

(** [for x in xs: body x]. *)
Fixpoint for_each {X} (xs : list X) (body : X -> M unit) : M unit :=
  match xs with
  | [] => ret tt
  | x :: xs' => bind (body x) (fun _ => for_each xs' body)
  end.
End Monad.

Arguments ret {S E A} a.
Arguments bind {S E A B} m f.
Arguments raise {S E A} e.
Arguments get {S E}.
Arguments modify {S E} f.
Arguments emit {S E} ev.
Arguments of_outcome {S E A} o.
Arguments call {S E A} ev o.
Arguments assert {S E} cond.
Arguments when {S E} cond body.
Arguments try_finally {S E A} body fin.
Arguments for_each {S E X} xs body.

(** Running the methods of a freshly built object [s0] from inside a
    computation on another state; the object is handed back with the
    value. *)
Definition run_on {S S' E A} (s0 : S') (m : M S' E A) : M S E (A * S') :=
  fun s =>
    match m s0 with
    | (Done a, s1, t) => (Done (a, s1), s, t)
    | (Raised e, _, t) => (Raised e, s, t)
    | (Blocked, _, t) => (Blocked, s, t)
    | (OutOfFuel, _, t) => (OutOfFuel, s, t)
    end.

(** Projections of a finished computation. *)
Definition res {A S E} (x : result A * S * list E) : result A := fst (fst x).
Definition final {A S E} (x : result A * S * list E) : S := snd (fst x).
Definition trace {A S E} (x : result A * S * list E) : list E := snd x.

(** What can be seen of a computation from outside: how it ended and
    the calls it made. *)
Definition obs {A S E} (x : result A * S * list E) : result A * list E :=
  (res x, trace x).

(** The two-argument [max] of Python: the first argument is kept unless
    the second is strictly greater. *)
Definition max (a b : Q) : Q :=
  match a ?= b with
  | Lt => b
  | _ => a
  end.

(** [range(a, b)] and [range(n)]. *)
Definition range2 (a b : Z) : list Z :=
  map (fun k => (a + Z.of_nat k)%Z) (seq 0 (Z.to_nat (b - a))).
Definition range (n : Z) : list Z := range2 0 n.

(** [str(i)] for an [int]. *)
Definition str (i : Z) : string := NilZero.string_of_int (Z.to_int i).

(** *** Strings (ASCII) *)

(** The ASCII characters for which [str.isspace] holds. *)
Definition is_space (c : ascii) : bool :=
  let n := nat_of_ascii c in
  ((9 <=? n) && (n <=? 13) || (28 <=? n) && (n <=? 32))%nat.

Fixpoint lstrip (cs : list ascii) : list ascii :=
  match cs with
  | [] => []
  | c :: cs' => if is_space c then lstrip cs' else cs
  end.

(** [str.strip] without argument. *)
Definition strip (cs : list ascii) : list ascii :=
  rev (lstrip (rev (lstrip cs))).

(** [s.split(sep)] for a one-character separator; [cur] holds the
    characters of the current piece, last first. *)
Fixpoint split_from (sep : ascii) (cur cs : list ascii) : list (list ascii) :=
  match cs with
  | [] => [rev cur]
  | c :: cs' =>
      if Ascii.eqb c sep then rev cur :: split_from sep [] cs'
      else split_from sep (c :: cur) cs'
  end.
Definition split (sep : ascii) (cs : list ascii) : list (list ascii) :=
  split_from sep [] cs.

Definition digit_of (c : ascii) : option Z :=
  let n := nat_of_ascii c in
  if ((48 <=? n) && (n <=? 57))%nat then Some (Z.of_nat (n - 48)) else None.

(** The digits of a decimal literal; single underscores may separate
    digits.  [after_digit] tells whether the previous character was a
    digit. *)
Fixpoint digits (acc : Z) (after_digit : bool) (cs : list ascii) : option Z :=
  match cs with
  | [] => if after_digit then Some acc else None
  | c :: cs' =>
      match digit_of c with
      | Some d => digits (10 * acc + d)%Z true cs'
      | None =>
          if Ascii.eqb c "_" && after_digit then digits acc false cs'
          else None
      end
  end.

(** [int(s)] in base ten on an ASCII string; [None] is [ValueError]. *)
Definition int (cs : list ascii) : option Z :=
  match strip cs with
  | "-"%char :: ds => option_map Z.opp (digits 0 false ds)
  | "+"%char :: ds => digits 0 false ds
  | ds => digits 0 false ds
  end.

(** Whether a string holds ASCII characters only.  On other strings
    [str.strip] and [int] of Python also read the white space and the
    digits of Unicode, which [strip] and [int] above do not. *)
Definition is_ascii (cs : list ascii) : bool :=
  forallb (fun c => (nat_of_ascii c <? 128)%nat) cs.

(** *** Dictionaries with string keys, in insertion order *)

Definition dict (V : Type) : Type := list (string * V).

(** [d[k] = v]. *)
Fixpoint dict_set {V} (k : string) (v : V) (d : dict V) : dict V :=
  match d with
  | [] => [(k, v)]
  | (k', v') :: d' =>
      if String.eqb k' k then (k', v) :: d' else (k', v') :: dict_set k v d'
  end.

Fixpoint dict_get {V} (k : string) (d : dict V) : option V :=
  match d with
  | [] => None
  | (k', v') :: d' => if String.eqb k' k then Some v' else dict_get k d'
  end.

Definition keys {V} (d : dict V) : list string := map fst d.
Definition values {V} (d : dict V) : list V := map snd d.

(** Truth value of a container: it is not empty. *)
Definition truthy {X} (l : list X) : bool :=
  match l with
  | [] => false
  | _ :: _ => true
  end.

End Py.

Declare Scope py_scope.
Delimit Scope py_scope with py.
Notation "x <- m ;; k" := (Py.bind m (fun x => k))
  (at level 61, m at next level, right associativity) : py_scope.
Notation "m ;; k" := (Py.bind m (fun _ => k))
  (at level 61, right associativity) : py_scope.
Open Scope py_scope.

(** ** Calls recorded in a trace *)

(** The calls that [server.py] makes on other objects, each recorded when
    it is made.  Handlers are named by their slot index in
    [conn_handlers]; [AnnouncerStart] is [self.dht_handler_thread.start()]
    and [ThreadStart] is [self.start()]. *)
Inductive event : Type :=
| AddCustomModelsFromFile (path : string)
| DhtInit (start : bool)
| DhtGetVisibleMaddrs
| ConfigFromPretrained (name : string)
| LoadPretrainedBlock (name : string) (block_index : Z)
| DhtIsAlive (alive : bool)
| DhtRunInBackground
| AnnouncerStart
| CheckpointSaverStart
| HandlerIsAlive (slot : nat) (alive : bool)
| HandlerStart (slot : nat)
| HandlerReadyResult (slot : nat)
| RuntimeRun
| RuntimeReadySet
| ThreadStart
| ReadyWait (timeout : option Q)
| ReadyClear
| HandlerTerminate (slot : nat)
| HandlerJoin (slot : nat)
| AnnouncerStopSet
| AnnouncerJoin
| CheckpointSaverStopSet
| CheckpointSaverJoin
| DhtShutdown
| DhtJoin
| RuntimeShutdown
| DeclareActiveModules (uids : list string) (expiration_time : Q)
| StopWait (timeout : Q).

(** The calls that follow the moment the Runtime sets [ready], in the
    calls of a thread: [None] when [ready] is never set. *)
Fixpoint after_ready_set (calls : list event) : option (list event) :=
  match calls with
  | [] => None
  | RuntimeReadySet :: rest => Some rest
  | _ :: rest => after_ready_set rest
  end.

Definition is_ready_clear (ev : event) : bool :=
  match ev with
  | ReadyClear => true
  | _ => false
  end.

(** ** The collaborators, as far as the server looks into them *)

Module DHT.
Record t : Type := mk { alive : bool }.
End DHT.

Module Runtime.
(** [ready] is the [mp.Event] of the hivemind Runtime: clear when the
    Runtime is built, set by the Runtime inside [run]. *)
Record t : Type := mk { ready : bool }.
End Runtime.

Module TransformerConnectionHandler.
Record t : Type := mk { alive : bool }.
End TransformerConnectionHandler.

Module TransformerBackend.
Record t : Type := mk {
  name : string;
  block : string * Z;      (* the pretrained block: model name and index *)
  min_batch_size : Z;
  max_batch_size : Z
}.
End TransformerBackend.

(** ** [ModuleAnnouncerThread] *)

Module ModuleAnnouncerThread.

Record t : Type := mk {
  module_backends : Py.dict TransformerBackend.t;
  update_period : Q;
  expiration : Q;
  stop : bool;                     (* threading.Event *)
  started : bool                   (* threading.Thread: start() was called *)
}.

Section Init.
(** The constant imported from hivemind. *)
Variable MAX_DHT_TIME_DISCREPANCY_SECONDS : Q.

Definition __init__ (module_backends : Py.dict TransformerBackend.t)
           (update_period : Q) (expiration : option Q) : t :=
  let expiration :=
    match expiration with
    | None => Py.max (2 * update_period) MAX_DHT_TIME_DISCREPANCY_SECONDS
    | Some e => e
    end in
  {| module_backends := module_backends;
     update_period := update_period;
     expiration := expiration;
     stop := false;
     started := false |}.
End Init.

(** What the world answers to the thread: the value of
    [get_dht_time()] and the behaviour of [declare_active_modules] at its
    [k]-th call (the function returns the per-key store status), and
    whether another thread sets [stop] during the [k]-th wait. *)
Record env : Type := {
  get_dht_time : nat -> Q;
  declare_active_modules : nat -> Py.outcome (list (string * bool));
  stop_set_during_wait : nat -> bool
}.

Definition M := Py.M t event.

Definition set_stop (a : t) : t :=
  {| module_backends := module_backends a;
     update_period := update_period a;
     expiration := expiration a;
     stop := true;
     started := started a |}.

Definition set_started (a : t) : t :=
  {| module_backends := module_backends a;
     update_period := update_period a;
     expiration := expiration a;
     stop := stop a;
     started := true |}.

Section Run.
Variable w : env.

(** [declare_active_modules(self.dht, self.module_backends.keys(),
    get_dht_time() + self.expiration)], the [k]-th time. *)
Definition announce (k : nat) : M unit :=
  self <- Py.get ;;
  _ <- Py.call (DeclareActiveModules (Py.keys (module_backends self))
                  (get_dht_time w k + expiration self))
               (declare_active_modules w k) ;;
  Py.ret tt.

(** [self.stop.wait(self.update_period)]: true when the event is set
    on entry or becomes set before the timeout. *)
Definition stop_wait (k : nat) : M bool :=
  self <- Py.get ;;
  Py.emit (StopWait (update_period self)) ;;
  if stop self then Py.ret true
  else if stop_set_during_wait w k then Py.modify set_stop ;; Py.ret true
  else Py.ret false.

(** [while not self.stop.wait(self.update_period): announce]; [k]
    counts the iterations made so far, [fuel] bounds those still
    unrolled. *)
Fixpoint loop (fuel : nat) (k : nat) : M unit :=
  match fuel with
  | O => fun s => (Py.OutOfFuel, s, [])
  | S fuel' =>
      stopped <- stop_wait k ;;
      if stopped then Py.ret tt
      else announce (S k) ;; loop fuel' (S k)
  end.

Definition run (fuel : nat) : M unit :=
  announce 0 ;; loop fuel 0.
End Run.

End ModuleAnnouncerThread.

(** ** [Server] *)

Module Server.

Record t : Type := mk {
  dht : DHT.t;
  module_backends : Py.dict TransformerBackend.t;
  update_period : Q;
  conn_handlers : list TransformerConnectionHandler.t;
  runtime : Runtime.t;
  dht_handler_thread : ModuleAnnouncerThread.t;
  checkpoint_saver : option unit;
  started : bool                   (* threading.Thread: start() was called *)
}.

Definition with_dht (d : DHT.t) (s : t) : t :=
  mk d (module_backends s) (update_period s) (conn_handlers s) (runtime s)
     (dht_handler_thread s) (checkpoint_saver s) (started s).

Definition with_conn_handlers (hs : list TransformerConnectionHandler.t)
           (s : t) : t :=
  mk (dht s) (module_backends s) (update_period s) hs (runtime s)
     (dht_handler_thread s) (checkpoint_saver s) (started s).

Definition with_runtime (r : Runtime.t) (s : t) : t :=
  mk (dht s) (module_backends s) (update_period s) (conn_handlers s) r
     (dht_handler_thread s) (checkpoint_saver s) (started s).

Definition with_dht_handler_thread (a : ModuleAnnouncerThread.t) (s : t) : t :=
  mk (dht s) (module_backends s) (update_period s) (conn_handlers s)
     (runtime s) a (checkpoint_saver s) (started s).

Definition with_started (b : bool) (s : t) : t :=
  mk (dht s) (module_backends s) (update_period s) (conn_handlers s)
     (runtime s) (dht_handler_thread s) (checkpoint_saver s) b.

(** Replacing the element in slot [i] of a list. *)
Fixpoint set_nth {X} (i : nat) (x : X) (l : list X) : list X :=
  match l, i with
  | [], _ => []
  | _ :: l', O => x :: l'
  | y :: l', S i' => y :: set_nth i' x l'
  end.

Definition handler_alive (s : t) (i : nat) : bool :=
  TransformerConnectionHandler.alive
    (nth i (conn_handlers s) (TransformerConnectionHandler.mk false)).

Definition set_handler_alive (i : nat) (b : bool) (s : t) : t :=
  with_conn_handlers
    (set_nth i (TransformerConnectionHandler.mk b) (conn_handlers s)) s.

(** What the collaborators answer during the life of one server.  A
    handler is named by its slot; [runtime_sets_ready] tells whether the
    Runtime gets as far as setting its [ready] event inside [run].  The
    last two fields are the timing of the server's thread against a caller
    that waits on [ready]: [ready_set_after] is how long after the
    beginning of the wait the Runtime sets the event, when the thread gets
    that far ([None]: not while the caller waits), and
    [ready_cleared_before_seen] tells whether, when the thread clears the
    event again, it does so before the woken caller has read it. *)
Record env : Type := {
  dht_run_in_background : Py.outcome unit;
  checkpoint_saver_start : Py.outcome unit;
  handler_start : nat -> Py.outcome unit;
  handler_ready_result : nat -> Py.outcome unit;
  runtime_sets_ready : bool;
  runtime_run : Py.outcome unit;
  ready_set_after : option Q;
  handler_terminate : nat -> Py.outcome unit;
  handler_join : nat -> Py.outcome unit;
  announcer_join : Py.outcome unit;
  checkpoint_saver_join : Py.outcome unit;
  dht_shutdown : Py.outcome unit;
  dht_join : Py.outcome unit;
  runtime_shutdown : Py.outcome unit;
  ready_cleared_before_seen : bool
}.

Definition M := Py.M t event.

(** The [ready] property: [return self.runtime.ready]. *)
Definition ready (self : t) : bool := Runtime.ready (runtime self).

Section Methods.
Variable w : env.

(** [self.ready.clear()]. *)
Definition ready_clear : M unit :=
  Py.emit ReadyClear ;;
  Py.modify (with_runtime (Runtime.mk false)).

(** [self.dht_handler_thread.join()]: joining a thread that was never
    started raises [RuntimeError]. *)
Definition announcer_join_call : M unit :=
  self <- Py.get ;;
  Py.emit AnnouncerJoin ;;
  if ModuleAnnouncerThread.started (dht_handler_thread self)
  then Py.of_outcome (announcer_join w)
  else Py.raise Py.RuntimeError.

(** The body of [for process in self.conn_handlers] in [shutdown];
    a process that was joined has exited. *)
Definition terminate_handler (process : nat) : M unit :=
  Py.call (HandlerTerminate process) (handler_terminate w process) ;;
  Py.call (HandlerJoin process) (handler_join w process) ;;
  Py.modify (set_handler_alive process false).

Definition shutdown : M unit :=
  ready_clear ;;
  self <- Py.get ;;
  Py.for_each (seq 0 (List.length (conn_handlers self))) terminate_handler ;;
  Py.when (Py.truthy (module_backends self))
    (Py.modify (fun s => with_dht_handler_thread
                  (ModuleAnnouncerThread.set_stop (dht_handler_thread s)) s) ;;
     Py.emit AnnouncerStopSet ;;
     announcer_join_call) ;;
  match checkpoint_saver self with
  | Some _ =>
      Py.emit CheckpointSaverStopSet ;;
      Py.call CheckpointSaverJoin (checkpoint_saver_join w)
  | None => Py.ret tt
  end ;;
  Py.call DhtShutdown (dht_shutdown w) ;;
  Py.call DhtJoin (dht_join w) ;;
  Py.modify (with_dht (DHT.mk false)) ;;
  Py.call RuntimeShutdown (runtime_shutdown w).

(** [if not self.dht.is_alive(): self.dht.run_in_background(await_ready=True)]. *)
Definition start_dht : M unit :=
  self <- Py.get ;;
  Py.emit (DhtIsAlive (DHT.alive (dht self))) ;;
  Py.when (negb (DHT.alive (dht self)))
    (Py.call DhtRunInBackground (dht_run_in_background w) ;;
     Py.modify (with_dht (DHT.mk true))).

(** [self.dht_handler_thread.start()]: a thread can be started once. *)
Definition announcer_start : M unit :=
  self <- Py.get ;;
  Py.emit AnnouncerStart ;;
  if ModuleAnnouncerThread.started (dht_handler_thread self)
  then Py.raise Py.RuntimeError
  else
    Py.modify (with_dht_handler_thread
                 (ModuleAnnouncerThread.set_started (dht_handler_thread self))).

(** The body of [for process in self.conn_handlers]. *)
Definition start_handler (process : nat) : M unit :=
  self <- Py.get ;;
  Py.emit (HandlerIsAlive process (handler_alive self process)) ;;
  Py.when (negb (handler_alive self process))
    (Py.call (HandlerStart process) (handler_start w process) ;;
     Py.modify (set_handler_alive process true)) ;;
  Py.call (HandlerReadyResult process) (handler_ready_result w process).

(** The statements of [run] that precede the [try]; the logging at
    the top of the method is left out. *)
Definition startup : M unit :=
  start_dht ;;
  self <- Py.get ;;
  Py.when (Py.truthy (module_backends self)) announcer_start ;;
  match checkpoint_saver self with
  | Some _ => Py.call CheckpointSaverStart (checkpoint_saver_start w)
  | None => Py.ret tt
  end ;;
  Py.for_each (seq 0 (List.length (conn_handlers self))) start_handler.

(** [self.runtime.run()]: the Runtime may set [ready], then it serves
    until it returns, raises, or for ever. *)
Definition runtime_run_call : M unit :=
  Py.emit RuntimeRun ;;
  Py.when (runtime_sets_ready w)
    (Py.modify (with_runtime (Runtime.mk true)) ;;
     Py.emit RuntimeReadySet) ;;
  Py.of_outcome (runtime_run w).

Definition run : M unit :=
  startup ;;
  Py.try_finally runtime_run_call shutdown.

(** [self.start()] of [threading.Thread]: a thread can be started
    once; from then on [run] executes in the new thread. *)
Definition start : M unit :=
  self <- Py.get ;;
  Py.emit ThreadStart ;;
  if started self then Py.raise Py.RuntimeError
  else Py.modify (with_started true).

(** The thread that [self.start()] has launched on the object [self]:
    it executes [run].  Its calls are its own; the caller of [start] goes
    on with the next statement. *)
Definition thread (self : t) : Py.result unit * t * list event := run self.

(** Whether the thread gets as far as having [ready] set by the Runtime,
    and whether it clears [ready] again afterwards (the engine has
    ended and [shutdown] has begun). *)
Definition thread_sets_ready (self : t) : bool :=
  match after_ready_set (Py.trace (thread self)) with
  | Some _ => true
  | None => false
  end.

Definition thread_clears_ready (self : t) : bool :=
  match after_ready_set (Py.trace (thread self)) with
  | Some rest => existsb is_ready_clear rest
  | None => false
  end.

(** The object as the thread has it when the Runtime has just set
    [ready]: the statements of [run] before the [try] have been carried
    out. *)
Definition when_ready (self : t) : t :=
  with_runtime (Runtime.mk true) (Py.final (startup self)).

(** What [self.ready.wait(timeout)] answers, [None] when it never
    returns.  [mp.Event.wait]: true at once when the event is set;
    otherwise the caller sleeps until the event is set by the thread or the
    timeout elapses, then reads the event again and returns what it reads:
    false when the timeout elapsed first, and false too when the thread has
    cleared the event in between.  Without timeout the caller sleeps until
    the event is set, for ever if it never is. *)
Definition wait_result (self : t) (timeout : option Q) : option bool :=
  if ready self then Some true
  else
    let seen :=
      negb (thread_clears_ready self && ready_cleared_before_seen w)%bool in
    match (if (started self && thread_sets_ready self)%bool
           then ready_set_after w else None), timeout with
    | Some d, Some tmo => if Qle_bool d tmo then Some seen else Some false
    | Some d, None => Some seen
    | None, Some tmo => Some false
    | None, None => None
    end.

(** [self.ready.wait(timeout=timeout)]; a caller that has seen the event
    set goes on with the object as the thread then has it.  When the wait
    fails the state keeps what the caller itself has written: how far the
    thread has come by then is told by [thread], not by this state. *)
Definition ready_wait (timeout : option Q) : M bool :=
  self <- Py.get ;;
  Py.emit (ReadyWait timeout) ;;
  match wait_result self timeout with
  | Some true =>
      Py.when (negb (ready self)) (Py.modify (fun _ => when_ready self)) ;;
      Py.ret true
  | Some false => Py.ret false
  | None => Py.of_outcome Py.Hangs
  end.

Definition run_in_background (await_ready : bool) (timeout : option Q)
  : M unit :=
  start ;;
  if await_ready then
    fired <- ready_wait timeout ;;
    if negb fired then Py.raise Py.TimeoutError else Py.ret tt
  else Py.ret tt.

Section Init.
Variable MAX_DHT_TIME_DISCREPANCY_SECONDS : Q.

(** The object as the assignments of [__init__] leave it. *)
Definition fresh (dht : DHT.t)
           (module_backends : Py.dict TransformerBackend.t)
           (num_connection_handlers : Z) (update_period : Q)
           (expiration : option Q) : t :=
  {| dht := dht;
     module_backends := module_backends;
     update_period := update_period;
     conn_handlers :=
       map (fun _ => TransformerConnectionHandler.mk false)
           (Py.range num_connection_handlers);
     runtime := Runtime.mk false;
     dht_handler_thread :=
       ModuleAnnouncerThread.__init__ MAX_DHT_TIME_DISCREPANCY_SECONDS
         module_backends update_period expiration;
     checkpoint_saver := None;
     started := false |}.

(** [Server(...)]: the new object, after [__init__] has run on it. *)
Definition __init__ {S} (dht : DHT.t)
           (module_backends : Py.dict TransformerBackend.t)
           (num_connection_handlers : Z) (update_period : Q)
           (expiration : option Q) (start : bool) : Py.M S event t :=
  x <- Py.run_on
         (fresh dht module_backends num_connection_handlers
                update_period expiration)
         (Py.when start (run_in_background true None)) ;;
  Py.ret (snd x).
End Init.
End Methods.

(** *** The class method [create] *)

(** The arguments of [create] that reach the code modelled here. *)
Record create_args : Type := {
  prefix : string;
  converted_model_name_or_path : string;
  num_blocks : option Z;
  block_indices : option string;
  num_handlers : option Z;
  min_batch_size : Z;
  max_batch_size : Z;
  torch_dtype : string + string;   (* a [str], or a dtype object *)
  custom_module_path : option string;
  create_update_period : Q;
  create_expiration : option Q;
  create_start : bool
}.

(** What the functions called by [create] answer. *)
Record create_env : Type := {
  add_custom_models_from_file : Py.outcome unit;
  dht_init : Py.outcome unit;
  config_from_pretrained : Py.outcome unit;
  load_pretrained_block : Z -> Py.outcome unit
}.

Section Create.
(** The constant imported from hivemind and the table imported from
    [src.bloom.from_pretrained]. *)
Variable MAX_DHT_TIME_DISCREPANCY_SECONDS : Q.
Variable DTYPE_MAP : Py.dict string.
Variable cw : create_env.
Variable w : env.

Definition is_none {X} (o : option X) : bool :=
  match o with
  | None => true
  | Some _ => false
  end.

(** [block_indices.split(":")], unpacked into two names, each
    stripped and converted by [int]; [None] is the [ValueError] of the
    unpacking or of [int].  The answer is that of Python on ASCII strings
    ([Py.is_ascii]). *)
Definition parse_block_indices (s : string) : option (Z * Z) :=
  match Py.split ":" (list_ascii_of_string s) with
  | [first_block_index; last_block_index] =>
      match Py.int (Py.strip first_block_index),
            Py.int (Py.strip last_block_index) with
      | Some first, Some last => Some (first, last)
      | _, _ => None
      end
  | _ => None
  end.

Definition module_uid_of (prefix : string) (block_index : Z) : string :=
  (prefix ++ "." ++ Py.str block_index)%string.

(** The backend built for a block, and the body of
    [for block_index in block_indices]. *)
Definition backend_of (a : create_args) (block_index : Z)
  : TransformerBackend.t :=
  {| TransformerBackend.name := module_uid_of (prefix a) block_index;
     TransformerBackend.block := (converted_model_name_or_path a, block_index);
     TransformerBackend.min_batch_size := min_batch_size a;
     TransformerBackend.max_batch_size := max_batch_size a |}.

Definition load_block (a : create_args) (block_index : Z)
  : Py.M (Py.dict TransformerBackend.t) event unit :=
  let module_uid := module_uid_of (prefix a) block_index in
  Py.call (LoadPretrainedBlock (converted_model_name_or_path a) block_index)
          (load_pretrained_block cw block_index) ;;
  Py.modify (Py.dict_set module_uid (backend_of a block_index)).

(** The state threaded through [create] is its local dict [blocks].
    The calls recorded are those of [add_custom_models_from_file], of
    [DHT(...)], of [get_visible_maddrs], of [from_pretrained] and of
    [load_pretrained_block]; [torch.cuda.is_available()], the constructors
    [MemoryCache(...)], [TransformerBackend(...)] and
    [BatchTensorDescriptor(...)] and the loop over [block.parameters()]
    are taken to return and leave no call in the trace, and
    [get_visible_maddrs], whose value only goes to the log, is taken to
    return. *)
Definition create (a : create_args)
  : Py.M (Py.dict TransformerBackend.t) event t :=
  match custom_module_path a with
  | Some path =>
      Py.call (AddCustomModelsFromFile path) (add_custom_models_from_file cw)
  | None => Py.ret tt
  end ;;
  Py.assert (negb (Bool.eqb (is_none (block_indices a))
                            (is_none (num_blocks a)))) ;;
  Py.call (DhtInit true) (dht_init cw) ;;
  Py.emit DhtGetVisibleMaddrs ;;
  torch_dtype <-
    match torch_dtype a with
    | inl name =>
        match Py.dict_get name DTYPE_MAP with
        | Some d => Py.ret d
        | None => Py.raise Py.KeyError
        end
    | inr d => Py.ret d
    end ;;
  Py.assert (existsb (String.eqb torch_dtype) (Py.values DTYPE_MAP)) ;;
  block_indices <-
    match block_indices a with
    | Some s =>
        match parse_block_indices s with
        | Some (first_block_index, last_block_index) =>
            Py.ret (Py.range2 first_block_index last_block_index)
        | None => Py.raise Py.ValueError
        end
    | None =>
        match num_blocks a with
        | Some n => Py.ret (Py.range n)
        | None => Py.raise Py.AssertionError
        end
    end ;;
  Py.call (ConfigFromPretrained (converted_model_name_or_path a))
          (config_from_pretrained cw) ;;
  Py.for_each block_indices (load_block a) ;;
  blocks <- Py.get ;;
  let num_handlers :=
    match num_handlers a with
    | Some n => n
    | None => (Z.of_nat (List.length blocks) * 4)%Z
    end in
  __init__ w MAX_DHT_TIME_DISCREPANCY_SECONDS (DHT.mk true) blocks
           num_handlers (create_update_period a) (create_expiration a)
           (create_start a).

(** A call of [create]: [blocks = {}] at entry. *)
Definition create_call (a : create_args) := create a [].
End Create.

End Server.

(** ** Descriptions used to state the properties *)

(** Carrying out a fixed list of calls in order, up to the first one that
    does not return. *)
Fixpoint play (answer : event -> Py.outcome unit) (steps : list event)
  : Py.result unit * list event :=
  match steps with
  | [] => (Py.Done tt, [])
  | ev :: rest =>
      match answer ev with
      | Py.Returns _ =>
          match play answer rest with (r, t) => (r, ev :: t) end
      | Py.Raises e => (Py.Raised e, [ev])
      | Py.Hangs => (Py.Blocked, [ev])
      end
  end.

(** The calls of the statements of [run] that precede the [try], when
    none of them fails: a handler that is alive is not started. *)
Definition handler_calls (alive : nat -> bool) (i : nat) : list event :=
  if alive i then [HandlerIsAlive i true; HandlerReadyResult i]
  else [HandlerIsAlive i false; HandlerStart i; HandlerReadyResult i].

Definition startup_calls (s : Server.t) : list event :=
  [DhtIsAlive (DHT.alive (Server.dht s))]
  ++ (if DHT.alive (Server.dht s) then [] else [DhtRunInBackground])
  ++ (if Py.truthy (Server.module_backends s) then [AnnouncerStart] else [])
  ++ (match Server.checkpoint_saver s with
      | Some _ => [CheckpointSaverStart]
      | None => []
      end)
  ++ flat_map (handler_calls (Server.handler_alive s))
              (seq 0 (List.length (Server.conn_handlers s))).

(** The calls of a complete [shutdown], in order. *)
Definition shutdown_calls (s : Server.t) : list event :=
  [ReadyClear]
  ++ flat_map (fun i => [HandlerTerminate i; HandlerJoin i])
              (seq 0 (List.length (Server.conn_handlers s)))
  ++ (if Py.truthy (Server.module_backends s)
      then [AnnouncerStopSet; AnnouncerJoin] else [])
  ++ (match Server.checkpoint_saver s with
      | Some _ => [CheckpointSaverStopSet; CheckpointSaverJoin]
      | None => []
      end)
  ++ [DhtShutdown; DhtJoin; RuntimeShutdown].

(** What each call of [run] and [shutdown] meets in the environment [w],
    for a server that is in state [s] when the method is entered. *)
Definition answer (w : Server.env) (s : Server.t) (ev : event)
  : Py.outcome unit :=
  match ev with
  | DhtRunInBackground => Server.dht_run_in_background w
  | AnnouncerStart =>
      if ModuleAnnouncerThread.started (Server.dht_handler_thread s)
      then Py.Raises Py.RuntimeError
      else Py.Returns tt
  | CheckpointSaverStart => Server.checkpoint_saver_start w
  | HandlerStart i => Server.handler_start w i
  | HandlerReadyResult i => Server.handler_ready_result w i
  | HandlerTerminate i => Server.handler_terminate w i
  | HandlerJoin i => Server.handler_join w i
  | AnnouncerJoin =>
      if ModuleAnnouncerThread.started (Server.dht_handler_thread s)
      then Server.announcer_join w
      else Py.Raises Py.RuntimeError
  | CheckpointSaverJoin => Server.checkpoint_saver_join w
  | DhtShutdown => Server.dht_shutdown w
  | DhtJoin => Server.dht_join w
  | RuntimeShutdown => Server.runtime_shutdown w
  | _ => Py.Returns tt
  end.

(** The ways two threads can take turns: [interleave l r m] when [m]
    merges [l] and [r], keeping the order inside each. *)
Inductive interleave {A : Type} : list A -> list A -> list A -> Prop :=
| interleave_nil : interleave [] [] []
| interleave_left a l r m :
    interleave l r m -> interleave (a :: l) r (a :: m)
| interleave_right a l r m :
    interleave l r m -> interleave l (a :: r) (a :: m).

(** A joint execution of the server thread and of the announcer thread:
    the announcer runs from the moment [Thread.start] has launched it, and
    the scheduler orders its calls against those of the server freely. *)
Definition joint_execution (server announcer g : list event) : Prop :=
  exists pre post m,
    server = pre ++ AnnouncerStart :: post
    /\ interleave post announcer m
    /\ g = pre ++ AnnouncerStart :: m.

(** The calls made by the announcer thread. *)
Definition is_announcer_call (ev : event) : bool :=
  match ev with
  | DeclareActiveModules _ _ | StopWait _ => true
  | _ => false
  end.




(** ** Predicates used in the proofs *)

(** [plays ans P m l Q]: started in a state that satisfies [P], the
    computation [m] makes the calls of the script [l] up to the first one
    that does not return, and when it completes it leaves a state that
    satisfies [Q]. *)
Definition plays {S} (ans : event -> Py.outcome unit) (P : S -> Prop)
           (m : Py.M S event unit) (l : list event) (Q : S -> Prop) : Prop :=
  forall s, P s ->
    Py.obs (m s) = play ans l
    /\ (Py.res (m s) = Py.Done tt -> Q (Py.final (m s))).


(** What checking the DHT keeps of the server. *)
Definition booted (s0 s : Server.t) : Prop :=
  Server.ready s = Server.ready s0
  /\ Server.module_backends s = Server.module_backends s0
  /\ Server.checkpoint_saver s = Server.checkpoint_saver s0
  /\ Server.conn_handlers s = Server.conn_handlers s0
  /\ Server.dht_handler_thread s = Server.dht_handler_thread s0.


(** What the statements of [run] before the [try] keep of the server:
    nothing but the DHT, the announcer thread and the liveness of the
    handlers in the slots below [k] has changed. *)
Definition starting (s0 : Server.t) (k : nat) (s : Server.t) : Prop :=
  Server.ready s = Server.ready s0
  /\ Server.module_backends s = Server.module_backends s0
  /\ Server.checkpoint_saver s = Server.checkpoint_saver s0
  /\ List.length (Server.conn_handlers s) = List.length (Server.conn_handlers s0)
  /\ ModuleAnnouncerThread.started (Server.dht_handler_thread s)
     = (Py.truthy (Server.module_backends s0)
        || ModuleAnnouncerThread.started (Server.dht_handler_thread s0))%bool
  /\ forall j, (k <= j)%nat -> Server.handler_alive s j = Server.handler_alive s0 j.


(** What [shutdown] keeps of the server once [ready] is cleared. *)
Definition torn (s0 s : Server.t) : Prop :=
  Server.ready s = false
  /\ ModuleAnnouncerThread.started (Server.dht_handler_thread s)
     = ModuleAnnouncerThread.started (Server.dht_handler_thread s0).

(** [always P m Q]: started in a state that satisfies [P], the computation
    [m] ends, however it ends, in a state that satisfies [Q]. *)
Definition always {S E A} (P : S -> Prop) (m : Py.M S E A) (Q : S -> Prop)
  : Prop :=
  forall s, P s -> Q (Py.final (m s)).

(** The calls made inside [self.runtime.run()] and the state it leaves. *)
Definition engine_calls (w : Server.env) : list event :=
  RuntimeRun :: (if Server.runtime_sets_ready w then [RuntimeReadySet] else []).

Definition engine_state (w : Server.env) (s : Server.t) : Server.t :=
  if Server.runtime_sets_ready w
  then Server.with_runtime (Runtime.mk true) s
  else s.

(** How a [try] whose body ended with [r] ends once its [finally] suite
    has ended with [fin]. *)
Definition after_finally (r fin : Py.result unit) : Py.result unit :=
  match fin with
  | Py.Done _ => r
  | other => other
  end.

Definition result_of (o : Py.outcome unit) : Py.result unit :=
  match o with
  | Py.Returns a => Py.Done a
  | Py.Raises e => Py.Raised e
  | Py.Hangs => Py.Blocked
  end.

(** The calls of the statements of [run] that precede the [try]. *)
Definition is_startup_call (ev : event) : bool :=
  match ev with
  | DhtIsAlive _ | DhtRunInBackground | AnnouncerStart | CheckpointSaverStart
  | HandlerIsAlive _ _ | HandlerStart _ | HandlerReadyResult _ => true
  | _ => false
  end.

(** The calls of [shutdown]. *)
Definition is_shutdown_call (ev : event) : bool :=
  match ev with
  | ReadyClear | HandlerTerminate _ | HandlerJoin _ | AnnouncerStopSet
  | AnnouncerJoin | CheckpointSaverStopSet | CheckpointSaverJoin
  | DhtShutdown | DhtJoin | RuntimeShutdown => true
  | _ => false
  end.

(** The calls [process.start()] and [process.ready.result()]. *)
Definition is_start (ev : event) : bool :=
  match ev with
  | HandlerStart _ => true
  | _ => false
  end.

Definition is_ready_result (ev : event) : bool :=
  match ev with
  | HandlerReadyResult _ => true
  | _ => false
  end.

(** ** Sample scenarios *)

Module Sample.
Definition ok : Py.outcome unit := Py.Returns tt.

(** Every collaborator does its job; the Runtime sets [ready] and then
    returns from [run] on an external shutdown request. *)
Definition calm : Server.env :=
  {| Server.dht_run_in_background := ok;
     Server.checkpoint_saver_start := ok;
     Server.handler_start := fun _ => ok;
     Server.handler_ready_result := fun _ => ok;
     Server.runtime_sets_ready := true;
     Server.runtime_run := ok;
     Server.ready_set_after := Some 1%Q;
     Server.handler_terminate := fun _ => ok;
     Server.handler_join := fun _ => ok;
     Server.announcer_join := ok;
     Server.checkpoint_saver_join := ok;
     Server.dht_shutdown := ok;
     Server.dht_join := ok;
     Server.runtime_shutdown := ok;
     Server.ready_cleared_before_seen := false |}.

(** As [calm], but starting the handler in slot 0 raises. *)
Definition handler_start_fails : Server.env :=
  {| Server.dht_run_in_background := ok;
     Server.checkpoint_saver_start := ok;
     Server.handler_start :=
       fun i => if i =? 0 then Py.Raises (Py.Foreign "OSError") else ok;
     Server.handler_ready_result := fun _ => ok;
     Server.runtime_sets_ready := true;
     Server.runtime_run := ok;
     Server.ready_set_after := None;
     Server.handler_terminate := fun _ => ok;
     Server.handler_join := fun _ => ok;
     Server.announcer_join := ok;
     Server.checkpoint_saver_join := ok;
     Server.dht_shutdown := ok;
     Server.dht_join := ok;
     Server.runtime_shutdown := ok;
     Server.ready_cleared_before_seen := false |}.

(** As [calm], but the Runtime raises out of [run] after it was ready. *)
Definition engine_faults : Server.env :=
  {| Server.dht_run_in_background := ok;
     Server.checkpoint_saver_start := ok;
     Server.handler_start := fun _ => ok;
     Server.handler_ready_result := fun _ => ok;
     Server.runtime_sets_ready := true;
     Server.runtime_run := Py.Raises (Py.Foreign "EngineFault");
     Server.ready_set_after := Some 1%Q;
     Server.handler_terminate := fun _ => ok;
     Server.handler_join := fun _ => ok;
     Server.announcer_join := ok;
     Server.checkpoint_saver_join := ok;
     Server.dht_shutdown := ok;
     Server.dht_join := ok;
     Server.runtime_shutdown := ok;
     Server.ready_cleared_before_seen := false |}.

(** As [calm], but terminating the handler in slot 0 raises. *)
Definition terminate_fails : Server.env :=
  {| Server.dht_run_in_background := ok;
     Server.checkpoint_saver_start := ok;
     Server.handler_start := fun _ => ok;
     Server.handler_ready_result := fun _ => ok;
     Server.runtime_sets_ready := true;
     Server.runtime_run := ok;
     Server.ready_set_after := Some 1%Q;
     Server.handler_terminate :=
       fun i => if i =? 0 then Py.Raises (Py.Foreign "OSError") else ok;
     Server.handler_join := fun _ => ok;
     Server.announcer_join := ok;
     Server.checkpoint_saver_join := ok;
     Server.dht_shutdown := ok;
     Server.dht_join := ok;
     Server.runtime_shutdown := ok;
     Server.ready_cleared_before_seen := false |}.

(** As [calm], but the handler in slot 1 never becomes ready. *)
Definition handler_never_ready : Server.env :=
  {| Server.dht_run_in_background := ok;
     Server.checkpoint_saver_start := ok;
     Server.handler_start := fun _ => ok;
     Server.handler_ready_result := fun i => if i =? 1 then Py.Hangs else ok;
     Server.runtime_sets_ready := true;
     Server.runtime_run := ok;
     Server.ready_set_after := None;
     Server.handler_terminate := fun _ => ok;
     Server.handler_join := fun _ => ok;
     Server.announcer_join := ok;
     Server.checkpoint_saver_join := ok;
     Server.dht_shutdown := ok;
     Server.dht_join := ok;
     Server.runtime_shutdown := ok;
     Server.ready_cleared_before_seen := false |}.

(** As [calm]; the engine ends so soon that the thread has cleared [ready]
    again before a caller woken by it has read the event. *)
Definition ready_missed : Server.env :=
  {| Server.dht_run_in_background := ok;
     Server.checkpoint_saver_start := ok;
     Server.handler_start := fun _ => ok;
     Server.handler_ready_result := fun _ => ok;
     Server.runtime_sets_ready := true;
     Server.runtime_run := ok;
     Server.ready_set_after := Some 1%Q;
     Server.handler_terminate := fun _ => ok;
     Server.handler_join := fun _ => ok;
     Server.announcer_join := ok;
     Server.checkpoint_saver_join := ok;
     Server.dht_shutdown := ok;
     Server.dht_join := ok;
     Server.runtime_shutdown := ok;
     Server.ready_cleared_before_seen := true |}.


Definition backend (uid : string) (i : Z) : TransformerBackend.t :=
  {| TransformerBackend.name := uid;
     TransformerBackend.block := ("bloom"%string, i);
     TransformerBackend.min_batch_size := 1;
     TransformerBackend.max_batch_size := 4096 |}.

Definition blocks : Py.dict TransformerBackend.t :=
  [("m.0"%string, backend "m.0" 0); ("m.1"%string, backend "m.1" 1)].

(** A server hosting two blocks with two handlers, lease period 1, on a
    DHT that is already running; hivemind's clock discrepancy is 3. *)
Definition server : Server.t :=
  Server.fresh 3 (DHT.mk true) blocks 2 1 None.

(** The same server once its thread runs and the engine is ready. *)
Definition serving : Server.t :=
  Py.final (Server.runtime_run_call calm
              (Py.final (Server.startup calm server))).
End Sample.

(** The [k]-th announcement of the announcer [a], and the calls of [n]
    rounds of its loop after [k] rounds: a wait, then an announcement. *)
Definition announcement (w : ModuleAnnouncerThread.env)
           (a : ModuleAnnouncerThread.t) (k : nat) : event :=
  DeclareActiveModules
    (Py.keys (ModuleAnnouncerThread.module_backends a))
    (ModuleAnnouncerThread.get_dht_time w k
     + ModuleAnnouncerThread.expiration a)%Q.

Definition renewals (w : ModuleAnnouncerThread.env)
           (a : ModuleAnnouncerThread.t) (k n : nat) : list event :=
  flat_map (fun j => [StopWait (ModuleAnnouncerThread.update_period a);
                      announcement w a (S j)])
           (seq k n).

(** The calls of the announcer up to its announcement number [n]. *)
Definition attempts (w : ModuleAnnouncerThread.env)
           (a : ModuleAnnouncerThread.t) (n : nat) : list event :=
  announcement w a 0 :: renewals w a 0 n.

Module SampleAnnouncer.
(** The registry stores every record; the clock shows [k] at call [k]. *)
Definition steady : ModuleAnnouncerThread.env :=
  {| ModuleAnnouncerThread.get_dht_time := fun k => inject_Z (Z.of_nat k);
     ModuleAnnouncerThread.declare_active_modules :=
       fun _ => Py.Returns [("m.0"%string, true); ("m.1"%string, true)];
     ModuleAnnouncerThread.stop_set_during_wait := fun _ => false |}.

(** The registry rejects every record and says so in the store status. *)
Definition rejecting : ModuleAnnouncerThread.env :=
  {| ModuleAnnouncerThread.get_dht_time := fun k => inject_Z (Z.of_nat k);
     ModuleAnnouncerThread.declare_active_modules :=
       fun _ => Py.Returns [("m.0"%string, false); ("m.1"%string, false)];
     ModuleAnnouncerThread.stop_set_during_wait := fun _ => false |}.

(** Every [declare_active_modules] raises. *)
Definition registry_down : ModuleAnnouncerThread.env :=
  {| ModuleAnnouncerThread.get_dht_time := fun k => inject_Z (Z.of_nat k);
     ModuleAnnouncerThread.declare_active_modules :=
       fun _ => Py.Raises (Py.Foreign "RegistryError");
     ModuleAnnouncerThread.stop_set_during_wait := fun _ => false |}.

(** The announcer of the sample server. *)
Definition announcer : ModuleAnnouncerThread.t :=
  Server.dht_handler_thread Sample.server.
End SampleAnnouncer.

(** ** What [create] computes *)

(** The block indices that the arguments designate, when exactly one of
    the two forms is given and it is well formed. *)
Definition designated (a : Server.create_args) (lo hi : Z) : Prop :=
  (exists str, Server.block_indices a = Some str
               /\ Server.num_blocks a = None
               /\ Server.parse_block_indices str = Some (lo, hi))
  \/ (Server.block_indices a = None /\ Server.num_blocks a = Some hi
      /\ lo = 0%Z).

(** The dict and the number of handlers that [create] computes for them. *)
Definition blocks_of (a : Server.create_args) (lo hi : Z)
  : Py.dict TransformerBackend.t :=
  map (fun i => (Server.module_uid_of (Server.prefix a) i, Server.backend_of a i))
      (Py.range2 lo hi).

Definition handlers_of (a : Server.create_args) (lo hi : Z) : Z :=
  match Server.num_handlers a with
  | Some n => n
  | None => (Z.of_nat (List.length (blocks_of a lo hi)) * 4)%Z
  end.


(** The calls that [create] makes before it builds the DHT. *)
Definition preamble (a : Server.create_args) : list event :=
  match Server.custom_module_path a with
  | Some path => [AddCustomModelsFromFile path]
  | None => []
  end.

(** The two checks of [create] on [torch_dtype] pass. *)
Definition dtype_ok (DTYPE_MAP : Py.dict string) (a : Server.create_args)
  : bool :=
  match Server.torch_dtype a with
  | inl name =>
      match Py.dict_get name DTYPE_MAP with
      | Some d => existsb (String.eqb d) (Py.values DTYPE_MAP)
      | None => false
      end
  | inr d => existsb (String.eqb d) (Py.values DTYPE_MAP)
  end.

(** The calls of [create] up to the last block, when the blocks
    [range(lo, hi)] are loaded. *)
Definition create_calls (a : Server.create_args) (lo hi : Z) : list event :=
  preamble a
  ++ [DhtInit true; DhtGetVisibleMaddrs;
      ConfigFromPretrained (Server.converted_model_name_or_path a)]
  ++ map (LoadPretrainedBlock (Server.converted_model_name_or_path a))
         (Py.range2 lo hi).

(** Nothing fails in [create] before the [Server] object is built: the
    custom modules load, exactly one well-formed shard form designates
    [range(lo, hi)], the DHT comes up, the dtype is known, and the
    configuration and every block of the range load. *)
Definition goes_well (DTYPE_MAP : Py.dict string) (cw : Server.create_env)
           (a : Server.create_args) (lo hi : Z) : Prop :=
  (Server.custom_module_path a = None
   \/ Server.add_custom_models_from_file cw = Py.Returns tt)
  /\ designated a lo hi
  /\ Server.dht_init cw = Py.Returns tt
  /\ dtype_ok DTYPE_MAP a = true
  /\ Server.config_from_pretrained cw = Py.Returns tt
  /\ forall i, (lo <= i < hi)%Z ->
                Server.load_pretrained_block cw i = Py.Returns tt.


Module SampleCreate.
(** The table of [src.bloom.from_pretrained]. *)
Definition dtype_map : Py.dict string :=
  [("bfloat16", "torch.bfloat16"); ("float16", "torch.float16");
   ("float32", "torch.float32"); ("auto", "auto")]%string.

(** The DHT comes up and every block loads. *)
Definition loaders : Server.create_env :=
  {| Server.add_custom_models_from_file := Py.Returns tt;
     Server.dht_init := Py.Returns tt;
     Server.config_from_pretrained := Py.Returns tt;
     Server.load_pretrained_block := fun _ => Py.Returns tt |}.

(** [create("m", "bloom", num_blocks=n, block_indices=s, start=start)]. *)
Definition args (num_blocks : option Z) (block_indices : option string)
           (start : bool) : Server.create_args :=
  {| Server.prefix := "m";
     Server.converted_model_name_or_path := "bloom";
     Server.num_blocks := num_blocks;
     Server.block_indices := block_indices;
     Server.num_handlers := None;
     Server.min_batch_size := 1;
     Server.max_batch_size := 4096;
     Server.torch_dtype := inl "auto"%string;
     Server.custom_module_path := None;
     Server.create_update_period := 30;
     Server.create_expiration := None;
     Server.create_start := start |}.
End SampleCreate.

(** ** Descriptions used for [create], [shutdown] and the announcer *)

(** [emits P m]: every call that the computation [m] makes satisfies [P],
    however [m] ends. *)
Definition emits {S E A} (P : E -> Prop) (m : Py.M S E A) : Prop :=
  forall s, Forall P (Py.trace (m s)).

(** The calls that [create] makes itself. *)
Definition is_create_call (ev : event) : bool :=
  match ev with
  | AddCustomModelsFromFile _ | DhtInit _ | DhtGetVisibleMaddrs
  | ConfigFromPretrained _ | LoadPretrainedBlock _ _ => true
  | _ => false
  end.

Module SampleFailing.

(** As [SampleCreate.loaders], but block 1 cannot be loaded. *)
Definition block_1_missing : Server.create_env :=
  {| Server.add_custom_models_from_file := Py.Returns tt;
     Server.dht_init := Py.Returns tt;
     Server.config_from_pretrained := Py.Returns tt;
     Server.load_pretrained_block :=
       fun i => if (i =? 1)%Z then Py.Raises (Py.Foreign "OSError")
                else Py.Returns tt |}.

(** [create("m", "bloom", num_blocks=3, torch_dtype=dtype, start=False)]. *)
Definition with_dtype (dtype : string + string) : Server.create_args :=
  {| Server.prefix := "m";
     Server.converted_model_name_or_path := "bloom";
     Server.num_blocks := Some 3%Z;
     Server.block_indices := None;
     Server.num_handlers := None;
     Server.min_batch_size := 1;
     Server.max_batch_size := 4096;
     Server.torch_dtype := dtype;
     Server.custom_module_path := None;
     Server.create_update_period := 30;
     Server.create_expiration := None;
     Server.create_start := false |}.
End SampleFailing.

(** The number that the digits of [d] denote after the digits already read
    gave [acc]. *)
Fixpoint uint_value (acc : Z) (d : Decimal.uint) : Z :=
  match d with
  | Decimal.Nil => acc
  | Decimal.D0 l => uint_value (10 * acc + 0)%Z l
  | Decimal.D1 l => uint_value (10 * acc + 1)%Z l
  | Decimal.D2 l => uint_value (10 * acc + 2)%Z l
  | Decimal.D3 l => uint_value (10 * acc + 3)%Z l
  | Decimal.D4 l => uint_value (10 * acc + 4)%Z l
  | Decimal.D5 l => uint_value (10 * acc + 5)%Z l
  | Decimal.D6 l => uint_value (10 * acc + 6)%Z l
  | Decimal.D7 l => uint_value (10 * acc + 7)%Z l
  | Decimal.D8 l => uint_value (10 * acc + 8)%Z l
  | Decimal.D9 l => uint_value (10 * acc + 9)%Z l
  end.

(** A character that is neither white space nor the separator of
    [block_indices]. *)
Definition plain (c : ascii) : Prop :=
  Py.is_space c = false /\ c <> ":"%char.

(** The arguments [a] with another shard specification. *)
Definition with_shard (num_blocks : option Z) (block_indices : option string)
           (a : Server.create_args) : Server.create_args :=
  {| Server.prefix := Server.prefix a;
     Server.converted_model_name_or_path :=
       Server.converted_model_name_or_path a;
     Server.num_blocks := num_blocks;
     Server.block_indices := block_indices;
     Server.num_handlers := Server.num_handlers a;
     Server.min_batch_size := Server.min_batch_size a;
     Server.max_batch_size := Server.max_batch_size a;
     Server.torch_dtype := Server.torch_dtype a;
     Server.custom_module_path := Server.custom_module_path a;
     Server.create_update_period := Server.create_update_period a;
     Server.create_expiration := Server.create_expiration a;
     Server.create_start := Server.create_start a |}.

(** The calls on the announcer thread made by [run] and [shutdown]. *)
Definition on_announcer (ev : event) : bool :=
  match ev with
  | AnnouncerStart | AnnouncerStopSet | AnnouncerJoin => true
  | _ => false
  end.

(** The calls of [shutdown] that precede the join of the announcer. *)
Definition before_announcer_join (s : Server.t) : list event :=
  [ReadyClear]
  ++ flat_map (fun i => [HandlerTerminate i; HandlerJoin i])
              (seq 0 (List.length (Server.conn_handlers s)))
  ++ [AnnouncerStopSet].

Module SampleStop.
(** As [SampleAnnouncer.steady], but another thread sets [stop] during
    the wait that follows the announcement number 2. *)
Definition stopped_in_third_wait : ModuleAnnouncerThread.env :=
  {| ModuleAnnouncerThread.get_dht_time := fun k => inject_Z (Z.of_nat k);
     ModuleAnnouncerThread.declare_active_modules :=
       fun _ => Py.Returns [("m.0"%string, true); ("m.1"%string, true)];
     ModuleAnnouncerThread.stop_set_during_wait := fun k => Nat.eqb k 2 |}.
End SampleStop.

(** The announcer [s] announces and waits as the announcer [a] does. *)
Definition same_lease (a s : ModuleAnnouncerThread.t) : Prop :=
  ModuleAnnouncerThread.module_backends s
  = ModuleAnnouncerThread.module_backends a
  /\ ModuleAnnouncerThread.update_period s
     = ModuleAnnouncerThread.update_period a
  /\ ModuleAnnouncerThread.expiration s = ModuleAnnouncerThread.expiration a.

(** A call of the announcer [a]: an announcement of its blocks, expiring
    [expiration] after the DHT time read for it, or a wait of one period. *)
Definition is_lease_call (w : ModuleAnnouncerThread.env)
           (a : ModuleAnnouncerThread.t) (ev : event) : Prop :=
  (exists k, ev = announcement w a k)
  \/ ev = StopWait (ModuleAnnouncerThread.update_period a).

(** The calls on the checkpoint saver. *)
Definition on_checkpoint_saver (ev : event) : bool :=
  match ev with
  | CheckpointSaverStart | CheckpointSaverStopSet | CheckpointSaverJoin => true
  | _ => false
  end.

(* ================================================================= *)
(** * Part II: properties *)
(* ================================================================= *)

Unset Implicit Arguments.
Local Open Scope nat_scope.

(** ** Facts about the monad and about scripts *)

Section MonadFacts.
Context {S E : Type}.

Lemma bind_done {A B} (m : Py.M S E A) (f : A -> Py.M S E B) s a s1 t1 :
  m s = (Py.Done a, s1, t1) ->
  Py.bind m f s
  = (Py.res (f a s1), Py.final (f a s1), t1 ++ Py.trace (f a s1)).
Proof.
  intros H. unfold Py.bind. rewrite H.
  destruct (f a s1) as [[r s2] t2]. reflexivity.
Qed.

Lemma trace_bind_prefix {A B} (m : Py.M S E A) (f : A -> Py.M S E B) s :
  exists t2, Py.trace (Py.bind m f s) = Py.trace (m s) ++ t2.
Proof.
  unfold Py.bind. destruct (m s) as [[r s1] t1]. destruct r; cbn.
  - destruct (f a s1) as [[r2 s2] t2]. now exists t2.
  - exists []. now rewrite app_nil_r.
  - exists []. now rewrite app_nil_r.
  - exists []. now rewrite app_nil_r.
Qed.
End MonadFacts.

(** After the part of a script that was carried out completely, the rest
    is carried out. *)
Lemma play_app (answer : event -> Py.outcome unit) (l1 l2 : list event) :
  play answer (l1 ++ l2)
  = match play answer l1 with
    | (Py.Done _, t1) =>
        match play answer l2 with (r, t2) => (r, t1 ++ t2) end
    | other => other
    end.
Proof.
  induction l1 as [|ev l1 IH]; cbn.
  - now destruct (play answer l2).
  - destruct (answer ev); try reflexivity.
    rewrite IH. destruct (play answer l1) as [[u| | |] t1]; try reflexivity.
    now destruct (play answer l2).
Qed.

(** A script never makes a call that is not written in it, and makes
    them in the order written. *)
Lemma play_prefix (answer : event -> Py.outcome unit) (l : list event) :
  exists rest, l = snd (play answer l) ++ rest.
Proof.
  induction l as [|ev l [rest IH]]; cbn.
  - now exists [].
  - destruct (answer ev).
    + destruct (play answer l) as [r t]. cbn in *. exists rest. now rewrite <- IH.
    + now exists l.
    + now exists l.
Qed.

(** A script that was carried out to its end made all its calls, and all
    of them returned. *)
Lemma play_done (answer : event -> Py.outcome unit) (l : list event) u :
  fst (play answer l) = Py.Done u ->
  snd (play answer l) = l /\ Forall (fun ev => answer ev = Py.Returns tt) l.
Proof.
  induction l as [|ev l IH]; cbn.
  - now split.
  - destruct (answer ev) as [[]| |] eqn:Hev; try discriminate.
    destruct (play answer l) as [r t]. cbn in *. intros Hr.
    destruct (IH Hr) as [-> Hall]. split; [reflexivity|].
    now constructor.
Qed.

(** ** Scripts of computations *)

Section Plays.
Context {S : Type}.
Variable ans : event -> Py.outcome unit.
Implicit Types (P Q R : S -> Prop) (m k : Py.M S event unit).

Lemma plays_seq P Q R m k l1 l2 :
  plays ans P m l1 Q -> plays ans Q k l2 R ->
  plays ans P (Py.bind m (fun _ => k)) (l1 ++ l2) R.
Proof.
  intros Hm Hk s Hs. destruct (Hm s Hs) as [Hobs HQ].
  rewrite play_app. unfold Py.bind.
  destruct (m s) as [[r s1] t1]. unfold Py.obs, Py.res, Py.final, Py.trace in *.
  cbn [fst snd] in *. rewrite <- Hobs.
  destruct r as [[]| | |]; try (split; [reflexivity|discriminate]).
  destruct (Hk s1 (HQ eq_refl)) as [Hobs2 HR].
  rewrite <- Hobs2. destruct (k s1) as [[r2 s2] t2]. cbn [fst snd] in *.
  split; [reflexivity|exact HR].
Qed.

Lemma plays_get P Q (f : S -> Py.M S event unit) l :
  (forall self, plays ans (fun s => P s /\ s = self) (f self) l Q) ->
  plays ans P (Py.bind Py.get f) l Q.
Proof.
  intros H s Hs. destruct (H s s (conj Hs eq_refl)) as [Hobs HQ].
  unfold Py.bind, Py.get. cbn.
  destruct (f s s) as [[r s2] t2]. split; assumption.
Qed.

Lemma plays_call P ev o :
  ans ev = o -> plays ans P (Py.call ev o) [ev] P.
Proof.
  intros <- s Hs. unfold Py.call, Py.bind, Py.emit, Py.of_outcome, Py.obs. cbn.
  destruct (ans ev) as [[]| |]; cbn; (split; [reflexivity|]);
    first [ intros _; exact Hs | discriminate ].
Qed.

Lemma plays_emit P ev :
  ans ev = Py.Returns tt -> plays ans P (Py.emit ev) [ev] P.
Proof.
  intros H s Hs. unfold Py.emit, Py.obs. cbn. rewrite H. split; [reflexivity|].
  intros _; exact Hs.
Qed.

Lemma plays_modify P Q (g : S -> S) :
  (forall s, P s -> Q (g s)) -> plays ans P (Py.modify g) [] Q.
Proof.
  intros H s Hs. unfold Py.modify, Py.obs. cbn. split; [reflexivity|].
  intros _. now apply H.
Qed.

Lemma plays_ret P : plays ans P (Py.ret tt) [] P.
Proof. intros s Hs. unfold Py.ret, Py.obs. cbn. now split. Qed.

Lemma plays_weaken P P' Q Q' m l :
  plays ans P m l Q -> (forall s, P' s -> P s) -> (forall s, Q s -> Q' s) ->
  plays ans P' m l Q'.
Proof.
  intros H HP HQ s Hs. destruct (H s (HP s Hs)) as [Hobs HQ0].
  split; [exact Hobs|]. intros Hr. apply HQ, HQ0, Hr.
Qed.

Lemma plays_for_each {X} (I : S -> Prop) (xs : list X)
      (body : X -> Py.M S event unit) (calls : X -> list event) :
  (forall x, In x xs -> plays ans I (body x) (calls x) I) ->
  plays ans I (Py.for_each xs body) (flat_map calls xs) I.
Proof.
  induction xs as [|x xs IH]; intros H; cbn [Py.for_each flat_map].
  - apply plays_ret.
  - apply plays_seq with (Q := I).
    + apply H. now left.
    + apply IH. intros y Hy. apply H. now right.
Qed.
End Plays.

Section Plays2.
Context {S : Type}.
Variable ans : event -> Py.outcome unit.

Lemma plays_script (P Q : S -> Prop) m l l' :
  plays ans P m l Q -> l = l' -> plays ans P m l' Q.
Proof. now intros H <-. Qed.

Lemma plays_fix (P Q : S -> Prop) m l :
  (forall s0, P s0 -> plays ans (fun s => s = s0) m l Q) -> plays ans P m l Q.
Proof. intros H s Hs. now apply (H s Hs s). Qed.

Lemma plays_get_eq (s0 : S) (Q : S -> Prop) (f : S -> Py.M S event unit) l :
  plays ans (fun s => s = s0) (f s0) l Q ->
  plays ans (fun s => s = s0) (Py.bind Py.get f) l Q.
Proof.
  intros H s ->. destruct (H s0 eq_refl) as [Hobs HQ].
  unfold Py.bind, Py.get. cbn.
  destruct (f s0 s0) as [[r s2] t2]. split; assumption.
Qed.
End Plays2.

Lemma set_nth_length {X} (x : X) (l : list X) : forall i,
  List.length (Server.set_nth i x l) = List.length l.
Proof.
  induction l as [|y l IH]; intros [|i]; cbn; try reflexivity.
  now rewrite IH.
Qed.

Lemma announcer_join_plays w s0 :
  plays (answer w s0) (torn s0) (Server.announcer_join_call w)
        [AnnouncerJoin] (torn s0).
Proof.
  intros s [Hr Hs]. unfold Server.announcer_join_call.
  unfold Py.bind, Py.get, Py.emit, Py.obs, Py.res, Py.final, Py.trace.
  cbn [fst snd app play answer]. rewrite Hs.
  destruct (ModuleAnnouncerThread.started (Server.dht_handler_thread s0)) eqn:E.
  - unfold Py.of_outcome.
    destruct (Server.announcer_join w) as [[]| |]; cbn;
      (split; [reflexivity|]); try discriminate.
    intros _. split; [assumption|congruence].
  - cbn. split; [reflexivity|discriminate].
Qed.

Lemma shutdown_plays w s0 :
  plays (answer w s0) (fun s => s = s0) (Server.shutdown w)
        (shutdown_calls s0) (torn s0).
Proof.
  unfold Server.shutdown, shutdown_calls.
  apply plays_seq with (Q := fun s => s = Server.with_runtime (Runtime.mk false) s0).
  { unfold Server.ready_clear.
    eapply plays_script.
    - eapply plays_seq; [apply plays_emit; reflexivity|].
      apply plays_modify. now intros s ->.
    - reflexivity. }
  apply plays_get_eq.
  cbn [Server.conn_handlers Server.with_runtime Server.module_backends
       Server.checkpoint_saver].
  apply plays_seq with (Q := torn s0).
  { eapply plays_weaken with (P := torn s0) (Q := torn s0).
    - apply plays_for_each. intros i _. unfold Server.terminate_handler.
      eapply plays_script.
      + eapply plays_seq; [apply plays_call; reflexivity|].
        eapply plays_seq; [apply plays_call; reflexivity|].
        apply plays_modify. intros s Hs. exact Hs.
      + reflexivity.
    - intros s ->. now split.
    - auto. }
  apply plays_seq with (Q := torn s0).
  { destruct (Py.truthy (Server.module_backends s0)); cbn [Py.when].
    - eapply plays_script.
      + eapply plays_seq; [apply plays_modify with (Q := torn s0)|].
        * intros s Hs. exact Hs.
        * eapply plays_seq; [apply plays_emit; reflexivity|].
          apply announcer_join_plays.
      + reflexivity.
    - apply plays_ret. }
  apply plays_seq with (Q := torn s0).
  { destruct (Server.checkpoint_saver s0).
    - eapply plays_script.
      + eapply plays_seq; [apply plays_emit; reflexivity|].
        apply plays_call. reflexivity.
      + reflexivity.
    - apply plays_ret. }
  eapply plays_script.
  - eapply plays_seq; [apply plays_call; reflexivity|].
    eapply plays_seq; [apply plays_call; reflexivity|].
    eapply plays_seq; [apply plays_modify with (Q := torn s0)|].
    + intros s Hs. exact Hs.
    + apply plays_call. reflexivity.
  - reflexivity.
Qed.

Lemma nth_set_nth_other {X} (x d : X) (l : list X) : forall i j,
  i <> j -> nth j (Server.set_nth i x l) d = nth j l d.
Proof.
  induction l as [|y l IH]; intros [|i] [|j] H; cbn; try reflexivity.
  - now destruct H.
  - apply IH. intros ->. now apply H.
Qed.

Lemma handler_alive_set_other i j b s :
  i <> j ->
  Server.handler_alive (Server.set_handler_alive i b s) j
  = Server.handler_alive s j.
Proof.
  intros H. unfold Server.handler_alive, Server.set_handler_alive. cbn.
  now rewrite nth_set_nth_other.
Qed.

Lemma start_handler_plays w s0 k :
  plays (answer w s0) (starting s0 k) (Server.start_handler w k)
        (handler_calls (Server.handler_alive s0) k) (starting s0 (S k)).
Proof.
  apply plays_fix. intros s1 H1. unfold Server.start_handler.
  apply plays_get_eq.
  destruct H1 as (Hr & Hm & Hc & Hl & Ha & Hh).
  unfold handler_calls. rewrite (Hh k (le_n k)).
  assert (Hkeep : starting s0 (S k) s1).
  { repeat split; try assumption. intros j Hj. apply Hh. lia. }
  destruct (Server.handler_alive s0 k); cbn [negb Py.when].
  - eapply plays_script.
    + eapply plays_seq; [apply plays_emit; reflexivity|].
      eapply plays_seq; [apply plays_ret|].
      eapply plays_weaken; [apply plays_call with (P := starting s0 (S k)); reflexivity| |auto].
      now intros s ->.
    + reflexivity.
  - eapply plays_script.
    + eapply plays_seq; [apply plays_emit; reflexivity|].
      eapply plays_seq with (Q := starting s0 (S k)).
      * eapply plays_seq; [apply plays_call; reflexivity|].
        apply plays_modify. intros s ->.
        destruct Hkeep as (Hr' & Hm' & Hc' & Hl' & Ha' & Hh').
        repeat split; try assumption.
        -- unfold Server.set_handler_alive. cbn. now rewrite set_nth_length.
        -- intros j Hj. rewrite handler_alive_set_other by lia. apply Hh'. exact Hj.
      * apply plays_call. reflexivity.
    + reflexivity.
Qed.

Lemma start_handlers_plays w s0 n : forall k,
  plays (answer w s0) (starting s0 k)
        (Py.for_each (seq k n) (Server.start_handler w))
        (flat_map (handler_calls (Server.handler_alive s0)) (seq k n))
        (starting s0 (k + n)).
Proof.
  induction n as [|n IH]; intros k; cbn [seq Py.for_each flat_map].
  - rewrite Nat.add_0_r. apply plays_ret.
  - replace (k + S n) with (S k + n) by lia.
    eapply plays_seq; [apply start_handler_plays|apply IH].
Qed.

Lemma booted_starting s0 s :
  booted s0 s -> Py.truthy (Server.module_backends s0) = false ->
  starting s0 0 s.
Proof.
  intros (Hr & Hm & Hc & Hh & Ha) Ht. unfold starting, Server.handler_alive.
  rewrite Hr, Hm, Hc, Hh, Ha, Ht. cbn. repeat split; reflexivity.
Qed.

Lemma start_dht_plays w s0 :
  plays (answer w s0) (fun s => s = s0) (Server.start_dht w)
        (DhtIsAlive (DHT.alive (Server.dht s0))
         :: (if DHT.alive (Server.dht s0) then [] else [DhtRunInBackground]))
        (booted s0).
Proof.
  unfold Server.start_dht. apply plays_get_eq.
  destruct (DHT.alive (Server.dht s0)); cbn [negb Py.when].
  - eapply plays_script.
    + eapply plays_seq; [apply plays_emit; reflexivity|].
      eapply plays_weaken; [apply plays_ret| |]; [intros s Hs; exact Hs|].
      intros s ->. now repeat split.
    + reflexivity.
  - eapply plays_script.
    + eapply plays_seq; [apply plays_emit; reflexivity|].
      eapply plays_seq; [apply plays_call; reflexivity|].
      apply plays_modify. intros s ->. now repeat split.
    + reflexivity.
Qed.

Lemma announcer_start_plays w s0 :
  Py.truthy (Server.module_backends s0) = true ->
  plays (answer w s0) (booted s0) Server.announcer_start
        [AnnouncerStart] (starting s0 0).
Proof.
  intros Ht s (Hr & Hm & Hc & Hh & Ha). unfold Server.announcer_start.
  unfold Py.bind, Py.get, Py.emit, Py.raise, Py.modify,
    Py.obs, Py.res, Py.final, Py.trace.
  cbn [fst snd app play answer]. rewrite Ha.
  destruct (ModuleAnnouncerThread.started (Server.dht_handler_thread s0)) eqn:E;
    cbn.
  - split; [reflexivity|discriminate].
  - split; [reflexivity|]. intros _.
    unfold starting. rewrite Ht.
    split; [exact Hr|]. split; [exact Hm|]. split; [exact Hc|].
    split; [now rewrite <- Hh|]. split; [reflexivity|].
    intros j _. unfold Server.handler_alive. cbn. now rewrite Hh.
Qed.

Lemma startup_plays w s0 :
  plays (answer w s0) (fun s => s = s0) (Server.startup w) (startup_calls s0)
        (starting s0 (List.length (Server.conn_handlers s0))).
Proof.
  unfold Server.startup, startup_calls.
  change ([DhtIsAlive (DHT.alive (Server.dht s0))] ++ ?l)
    with (DhtIsAlive (DHT.alive (Server.dht s0)) :: l).
  eapply plays_script with
    (l := (DhtIsAlive (DHT.alive (Server.dht s0))
           :: (if DHT.alive (Server.dht s0) then [] else [DhtRunInBackground]))
          ++ _).
  2: { cbn [app]. reflexivity. }
  eapply plays_seq; [apply start_dht_plays|].
  apply plays_fix. intros s1 H1. apply plays_get_eq.
  destruct H1 as (Hr & Hm & Hc & Hh & Ha). rewrite Hm, Hc, Hh.
  assert (Hb : booted s0 s1) by (repeat split; assumption).
  apply plays_seq with (Q := starting s0 0).
  { destruct (Py.truthy (Server.module_backends s0)) eqn:Ht; cbn [Py.when].
    - eapply plays_weaken; [apply announcer_start_plays; exact Ht| |auto].
      now intros s ->.
    - eapply plays_weaken; [apply plays_ret| |]; [intros s Hs; exact Hs|].
      intros s ->. now apply booted_starting. }
  apply plays_seq with (Q := starting s0 0).
  { destruct (Server.checkpoint_saver s0).
    - apply plays_call. reflexivity.
    - apply plays_ret. }
  apply (start_handlers_plays w s0 (List.length (Server.conn_handlers s0)) 0).
Qed.

(** ** Invariants of computations *)

Section Always.
Context {S E : Type}.
Implicit Types (P Q R : S -> Prop).

Lemma always_bind {A B} P Q R (m : Py.M S E A) (f : A -> Py.M S E B) :
  always P m Q -> (forall a, always Q (f a) R) -> (forall s, Q s -> R s) ->
  always P (Py.bind m f) R.
Proof.
  intros Hm Hf HQR s Hs. specialize (Hm s Hs). unfold Py.bind.
  destruct (m s) as [[r s1] t1]. unfold Py.final in *. cbn [fst snd] in *.
  destruct r; cbn; try (now apply HQR).
  specialize (Hf a s1 Hm). destruct (f a s1) as [[r2 s2] t2]. exact Hf.
Qed.

Lemma always_keep {A} P (m : Py.M S E A) :
  (forall s, Py.final (m s) = s) -> always P m P.
Proof. intros H s Hs. now rewrite H. Qed.

Lemma always_emit P (ev : E) : always P (Py.emit ev) P.
Proof. now apply always_keep. Qed.

Lemma always_call {A} P (ev : E) (o : Py.outcome A) : always P (Py.call ev o) P.
Proof. apply always_keep. intros s. now destruct o. Qed.

Lemma always_of_outcome {A} P (o : Py.outcome A) :
  always P (@Py.of_outcome S E A o) P.
Proof. now apply always_keep. Qed.

Lemma always_ret {A} P (a : A) : always P (@Py.ret S E A a) P.
Proof. now apply always_keep. Qed.

Lemma always_raise {A} P e : always P (@Py.raise S E A e) P.
Proof. now apply always_keep. Qed.

Lemma always_get P : always P (@Py.get S E) P.
Proof. now apply always_keep. Qed.

Lemma always_modify P Q (g : S -> S) :
  (forall s, P s -> Q (g s)) -> always P (@Py.modify S E g) Q.
Proof. intros H s Hs. now apply H. Qed.

Lemma always_when P (b : bool) (m : Py.M S E unit) :
  always P m P -> always P (Py.when b m) P.
Proof. destruct b; [trivial|]. intros _. apply always_ret. Qed.

Lemma always_for_each {X} P (xs : list X) (body : X -> Py.M S E unit) :
  (forall x, always P (body x) P) -> always P (Py.for_each xs body) P.
Proof.
  intros H. induction xs as [|x xs IH]; cbn [Py.for_each].
  - apply always_ret.
  - apply always_bind with (Q := P); auto.
Qed.

Lemma always_try_finally {A} P (body : Py.M S E A) (fin : Py.M S E unit) :
  always P body P -> always P fin P -> always P (Py.try_finally body fin) P.
Proof.
  intros Hb Hf s Hs. specialize (Hb s Hs). unfold Py.try_finally.
  destruct (body s) as [[r s1] t1]. unfold Py.final in *. cbn [fst snd] in *.
  specialize (Hf s1 Hb).
  destruct r; try exact Hb;
    destruct (fin s1) as [[[[]| | |] s2] t2]; exact Hf.
Qed.
End Always.

(** Showing that a computation keeps an invariant [I] that no assignment
    in it touches. *)
Ltac keep I :=
  repeat first
    [ apply always_emit | apply always_call | apply always_of_outcome
    | apply always_ret | apply always_raise | apply always_get
    | apply always_when
    | apply always_for_each; intros ?
    | apply always_modify; let s := fresh in let H := fresh in
                           intros s H; exact H
    | (apply always_bind with (Q := I); [ | intros ? | auto ])
    | match goal with
      | |- always _ (match ?x with _ => _ end) _ => destruct x
      end ].


Lemma shutdown_clears_ready w :
  always (fun _ => True) (Server.shutdown w) (fun s => Server.ready s = false).
Proof.
  unfold Server.shutdown.
  apply always_bind with (Q := fun s => Server.ready s = false); [| |auto].
  - intros s _. reflexivity.
  - intros _. unfold Server.terminate_handler, Server.announcer_join_call.
    keep (fun s => Server.ready s = false).
Qed.

Lemma runtime_run_call_eq w s :
  Server.runtime_run_call w s
  = (result_of (Server.runtime_run w), engine_state w s, engine_calls w).
Proof.
  unfold Server.runtime_run_call, engine_state, engine_calls, result_of.
  unfold Py.bind, Py.emit, Py.when, Py.modify, Py.of_outcome, Py.ret.
  destruct (Server.runtime_sets_ready w), (Server.runtime_run w); reflexivity.
Qed.

Lemma run_startup_fails w s :
  (forall u, Py.res (Server.startup w s) <> Py.Done u) ->
  Server.run w s = Server.startup w s.
Proof.
  intros H. unfold Server.run, Py.bind.
  destruct (Server.startup w s) as [[[u| | |] s1] t1]; try reflexivity.
  now destruct (H u).
Qed.

Lemma run_engine_hangs w s s1 t1 :
  Server.startup w s = (Py.Done tt, s1, t1) ->
  Server.runtime_run w = Py.Hangs ->
  Server.run w s = (Py.Blocked, engine_state w s1, t1 ++ engine_calls w).
Proof.
  intros Hs Hr. unfold Server.run, Py.bind, Py.try_finally.
  rewrite Hs, runtime_run_call_eq, Hr. reflexivity.
Qed.

Lemma run_engine_ends w s s1 t1 :
  Server.startup w s = (Py.Done tt, s1, t1) ->
  Server.runtime_run w <> Py.Hangs ->
  let sd := Server.shutdown w (engine_state w s1) in
  Server.run w s
  = (after_finally (result_of (Server.runtime_run w)) (Py.res sd),
     Py.final sd,
     t1 ++ engine_calls w ++ Py.trace sd).
Proof.
  intros Hs Hr sd. unfold Server.run, Py.bind, Py.try_finally.
  rewrite Hs, runtime_run_call_eq. subst sd.
  destruct (Server.shutdown w (engine_state w s1)) as [[r2 s2] t2].
  unfold Py.res, Py.final, Py.trace. cbn [fst snd].
  destruct (Server.runtime_run w) as [[]| |]; [| |now destruct Hr];
    destruct r2 as [[]| | |]; reflexivity.
Qed.

(** ** Lists *)

Lemma split_left {X} (x : X) (l1 l2 pre post : list X) :
  l1 ++ l2 = pre ++ x :: post -> ~ In x l2 ->
  exists q, l1 = pre ++ x :: q /\ post = q ++ l2.
Proof.
  revert pre. induction l1 as [|a l1 IH]; intros pre H Hn.
  - cbn in H. subst l2. destruct Hn. apply in_elt.
  - destruct pre as [|b pre]; cbn in H; injection H as -> H.
    + exists l1. now split.
    + destruct (IH pre H Hn) as (q & -> & ->). now exists q.
Qed.

Lemma split_right {X} (x : X) (l1 l2 pre post : list X) :
  l1 ++ l2 = pre ++ x :: post -> ~ In x l1 ->
  exists q, pre = l1 ++ q /\ l2 = q ++ x :: post.
Proof.
  revert pre. induction l1 as [|a l1 IH]; intros pre H Hn.
  - exists pre. now split.
  - destruct pre as [|b pre]; cbn in H; injection H as -> H.
    + destruct Hn. now left.
    + destruct (IH pre H) as (q & -> & ->).
      * intros Hin. apply Hn. now right.
      * now exists q.
Qed.

Lemma filter_none {X} (f : X -> bool) (l : list X) :
  Forall (fun x => f x = false) l -> filter f l = [].
Proof.
  induction 1 as [|x l Hx _ IH]; cbn; [reflexivity|]. now rewrite Hx.
Qed.

Lemma Forall_prefix {X} (P : X -> Prop) (l1 l2 : list X) :
  Forall P (l1 ++ l2) -> Forall P l1.
Proof. intros H. now apply Forall_app in H. Qed.

(** ** Scripts *)

Lemma play_raised (ans : event -> Py.outcome unit) (l : list event) e :
  fst (play ans l) = Py.Raised e ->
  exists pre ev rest,
    l = pre ++ ev :: rest /\ snd (play ans l) = pre ++ [ev]
    /\ ans ev = Py.Raises e
    /\ Forall (fun ev' => ans ev' = Py.Returns tt) pre.
Proof.
  induction l as [|ev l IH]; cbn; [discriminate|].
  destruct (ans ev) as [[]| |] eqn:Hev.
  - destruct (play ans l) as [r t]. cbn in *. intros Hr.
    destruct (IH Hr) as (pre & ev' & rest & -> & -> & Hans & Hpre).
    exists (ev :: pre), ev', rest. repeat split; trivial. now constructor.
  - cbn. intros [= ->]. exists [], ev, l. now repeat split.
  - discriminate.
Qed.

Lemma play_all_return (ans : event -> Py.outcome unit) (l : list event) :
  Forall (fun ev => ans ev = Py.Returns tt) l -> play ans l = (Py.Done tt, l).
Proof.
  induction 1 as [|ev l Hev _ IH]; cbn; [reflexivity|]. now rewrite Hev, IH.
Qed.

(** ** What [startup] and [shutdown] do *)

Lemma shutdown_obs w s :
  Py.obs (Server.shutdown w s) = play (answer w s) (shutdown_calls s).
Proof. now apply (shutdown_plays w s s). Qed.

Lemma startup_obs w s :
  Py.obs (Server.startup w s) = play (answer w s) (startup_calls s).
Proof. now apply (startup_plays w s s). Qed.

Lemma startup_done w s u :
  Py.res (Server.startup w s) = Py.Done u ->
  Py.trace (Server.startup w s) = startup_calls s
  /\ Forall (fun ev => answer w s ev = Py.Returns tt) (startup_calls s)
  /\ starting s (List.length (Server.conn_handlers s))
              (Py.final (Server.startup w s)).
Proof.
  intros H. destruct u.
  destruct (startup_plays w s s eq_refl) as [Hobs Hpost].
  unfold Py.obs in Hobs.
  assert (Hf : fst (play (answer w s) (startup_calls s)) = Py.Done tt)
    by now rewrite <- Hobs.
  destruct (play_done _ _ _ Hf) as [Ht Hall].
  split; [|split].
  - rewrite <- Ht, <- Hobs. reflexivity.
  - exact Hall.
  - now apply Hpost.
Qed.

Lemma startup_trace_prefix w s :
  exists rest, startup_calls s = Py.trace (Server.startup w s) ++ rest.
Proof.
  destruct (play_prefix (answer w s) (startup_calls s)) as [rest H].
  exists rest. rewrite <- startup_obs in H. exact H.
Qed.

Lemma shutdown_trace_prefix w s :
  exists rest, shutdown_calls s = Py.trace (Server.shutdown w s) ++ rest.
Proof.
  destruct (play_prefix (answer w s) (shutdown_calls s)) as [rest H].
  exists rest. rewrite <- shutdown_obs in H. exact H.
Qed.

Lemma startup_calls_kind s :
  Forall (fun ev => is_startup_call ev = true) (startup_calls s).
Proof.
  unfold startup_calls.
  apply Forall_app; split; [|apply Forall_app; split;
                             [|apply Forall_app; split;
                               [|apply Forall_app; split]]].
  - now repeat constructor.
  - destruct (DHT.alive (Server.dht s)); now repeat constructor.
  - destruct (Py.truthy (Server.module_backends s)); now repeat constructor.
  - destruct (Server.checkpoint_saver s); now repeat constructor.
  - apply Forall_flat_map, Forall_forall. intros i _. unfold handler_calls.
    destruct (Server.handler_alive s i); now repeat constructor.
Qed.

Lemma shutdown_calls_kind s :
  Forall (fun ev => is_shutdown_call ev = true) (shutdown_calls s).
Proof.
  unfold shutdown_calls.
  apply Forall_app; split; [|apply Forall_app; split;
                             [|apply Forall_app; split;
                               [|apply Forall_app; split]]].
  - now repeat constructor.
  - apply Forall_flat_map, Forall_forall. intros i _. now repeat constructor.
  - destruct (Py.truthy (Server.module_backends s)); now repeat constructor.
  - destruct (Server.checkpoint_saver s); now repeat constructor.
  - now repeat constructor.
Qed.

Lemma startup_trace_kind w s :
  Forall (fun ev => is_startup_call ev = true) (Py.trace (Server.startup w s)).
Proof.
  destruct (startup_trace_prefix w s) as [rest H].
  apply Forall_prefix with (l2 := rest). rewrite <- H. apply startup_calls_kind.
Qed.

Lemma shutdown_trace_kind w s :
  Forall (fun ev => is_shutdown_call ev = true) (Py.trace (Server.shutdown w s)).
Proof.
  destruct (shutdown_trace_prefix w s) as [rest H].
  apply Forall_prefix with (l2 := rest). rewrite <- H. apply shutdown_calls_kind.
Qed.

(** The calls of [run] are those of the statements before the [try],
    followed by calls of another kind. *)
Lemma run_trace_split w s :
  exists t2,
    Py.trace (Server.run w s) = Py.trace (Server.startup w s) ++ t2
    /\ Forall (fun ev => is_startup_call ev = false) t2.
Proof.
  destruct (Server.startup w s) as [[r s1] t1] eqn:Hs.
  destruct r as [[]| | |].
  2-4: exists []; rewrite run_startup_fails by (rewrite Hs; discriminate);
       rewrite Hs; cbn; now rewrite app_nil_r.
  assert (He : Forall (fun ev => is_startup_call ev = false) (engine_calls w)).
  { unfold engine_calls. destruct (Server.runtime_sets_ready w);
      now repeat constructor. }
  destruct (Server.runtime_run w) as [[]| |] eqn:Hr.
  3: { exists (engine_calls w). now rewrite (run_engine_hangs w s s1 t1 Hs Hr). }
  all: exists (engine_calls w
             ++ Py.trace (Server.shutdown w (engine_state w s1)));
    rewrite (run_engine_ends w s s1 t1 Hs) by (rewrite Hr; discriminate);
    split; [reflexivity|]; apply Forall_app; split; [exact He|];
    eapply Forall_impl; [|apply shutdown_trace_kind];
    intros ev Hev; now destruct ev.
Qed.

(** ** The handlers in the calls of [run] *)

Lemma filter_start_handler_calls alive xs :
  filter is_start (flat_map (handler_calls alive) xs)
  = map HandlerStart (filter (fun i => negb (alive i)) xs).
Proof.
  induction xs as [|x xs IH]; cbn [flat_map filter map]; [reflexivity|].
  rewrite filter_app, IH. unfold handler_calls.
  destruct (alive x); reflexivity.
Qed.

Lemma filter_ready_handler_calls alive xs :
  filter is_ready_result (flat_map (handler_calls alive) xs)
  = map HandlerReadyResult xs.
Proof.
  induction xs as [|x xs IH]; cbn [flat_map filter map]; [reflexivity|].
  rewrite filter_app, IH. unfold handler_calls.
  destruct (alive x); reflexivity.
Qed.

Lemma filter_start_startup_calls s :
  filter is_start (startup_calls s)
  = map HandlerStart
      (filter (fun i => negb (Server.handler_alive s i))
              (seq 0 (List.length (Server.conn_handlers s)))).
Proof.
  unfold startup_calls. rewrite !filter_app, filter_start_handler_calls.
  destruct (DHT.alive (Server.dht s)),
           (Py.truthy (Server.module_backends s)),
           (Server.checkpoint_saver s); reflexivity.
Qed.

Lemma filter_ready_startup_calls s :
  filter is_ready_result (startup_calls s)
  = map HandlerReadyResult (seq 0 (List.length (Server.conn_handlers s))).
Proof.
  unfold startup_calls. rewrite !filter_app, filter_ready_handler_calls.
  destruct (DHT.alive (Server.dht s)),
           (Py.truthy (Server.module_backends s)),
           (Server.checkpoint_saver s); reflexivity.
Qed.

(** In the calls written for the handlers, a start directly follows the
    liveness check of the same slot, which answered "not alive". *)
Lemma handler_calls_checked alive xs : forall pre i post,
  flat_map (handler_calls alive) xs = pre ++ HandlerStart i :: post ->
  exists pre', pre = pre' ++ [HandlerIsAlive i false].
Proof.
  induction xs as [|x xs IH]; intros pre i post H; cbn [flat_map] in H.
  - now destruct pre.
  - unfold handler_calls in H. destruct (alive x); cbn [app] in H.
    + destruct pre as [|a [|b pre]]; try discriminate.
      injection H as Ha Hb H. subst a b.
      destruct (IH pre i post H) as [pre' ->].
      now exists (HandlerIsAlive x true :: HandlerReadyResult x :: pre').
    + destruct pre as [|a [|b [|c pre]]]; try discriminate.
      * injection H as Ha Hi _. subst a i. now exists [].
      * injection H as Ha Hb Hc H. subst a b c.
        destruct (IH pre i post H) as [pre' ->].
        now exists (HandlerIsAlive x false :: HandlerStart x
                    :: HandlerReadyResult x :: pre').
Qed.

Lemma startup_calls_checked s pre i post :
  startup_calls s = pre ++ HandlerStart i :: post ->
  exists pre', pre = pre' ++ [HandlerIsAlive i false].
Proof.
  unfold startup_calls. rewrite !app_assoc. intros H.
  apply split_right in H.
  - destruct H as (q & -> & H). apply handler_calls_checked in H.
    destruct H as [pre' ->]. rewrite app_assoc. eauto.
  - destruct (DHT.alive (Server.dht s)),
             (Py.truthy (Server.module_backends s)),
             (Server.checkpoint_saver s); cbn; intuition discriminate.
Qed.

Lemma in_filter_prefix {X} (f : X -> bool) (x : X) (l1 l2 : list X) :
  In x l1 -> f x = true -> In x (filter f (l1 ++ l2)).
Proof.
  intros Hin Hf. apply filter_In. split; [|exact Hf].
  apply in_or_app. now left.
Qed.

Lemma NoDup_map_HandlerStart (l : list nat) :
  NoDup l -> NoDup (map HandlerStart l).
Proof.
  induction 1 as [|x l Hx _ IH]; cbn; constructor; [|exact IH].
  intros Hin. apply in_map_iff in Hin. destruct Hin as (y & [= ->] & Hy).
  now apply Hx.
Qed.

Lemma NoDup_prefix {X} (l1 l2 : list X) : NoDup (l1 ++ l2) -> NoDup l1.
Proof.
  induction l1 as [|x l1 IH]; cbn; intros H; [constructor|].
  inversion H as [|? ? Hn Hd]; subst. constructor.
  - intros Hin. apply Hn. apply in_or_app. now left.
  - now apply IH.
Qed.

(** C10. During [run], [start()] is called on a handler only directly
    after [is_alive()] answered false for it, so never on a handler that
    was alive when [run] began and never twice on the same handler; and the
    readiness futures are awaited in slot order, those of all the slots
    once the statements before the [try] have completed. *)
Theorem handler_started_only_if_not_alive (w : Server.env) (s : Server.t) :
  (forall pre i post,
      Py.trace (Server.run w s) = pre ++ HandlerStart i :: post ->
      (exists pre', pre = pre' ++ [HandlerIsAlive i false])
      /\ Server.handler_alive s i = false
      /\ ~ In (HandlerStart i) pre
      /\ ~ In (HandlerStart i) post)
  /\ (exists rest,
        map HandlerReadyResult (seq 0 (List.length (Server.conn_handlers s)))
        = filter is_ready_result (Py.trace (Server.run w s)) ++ rest
        /\ (forall u, Py.res (Server.startup w s) = Py.Done u -> rest = [])).
Proof.
  destruct (run_trace_split w s) as (t2 & Hrun & Ht2).
  destruct (startup_trace_prefix w s) as [rest Hpre].
  assert (Hnostart : ~ exists i, In (HandlerStart i) t2).
  { intros [i Hi]. rewrite Forall_forall in Ht2. now specialize (Ht2 _ Hi). }
  split.
  - intros pre i post H. rewrite Hrun in H.
    destruct (split_left _ _ _ _ _ H) as (q & Ht1 & ->).
    { intros Hin. apply Hnostart. now exists i. }
    assert (Hcalls : startup_calls s = pre ++ HandlerStart i :: (q ++ rest)).
    { rewrite Hpre, Ht1, <- app_assoc. reflexivity. }
    assert (Hnd : NoDup (filter is_start (startup_calls s))).
    { rewrite filter_start_startup_calls. apply NoDup_map_HandlerStart.
      apply NoDup_filter, seq_NoDup. }
    split; [now apply (startup_calls_checked s pre i (q ++ rest))|].
    split.
    + assert (Hin : In (HandlerStart i) (filter is_start (startup_calls s))).
      { rewrite Hcalls. apply filter_In. split; [apply in_elt|reflexivity]. }
      rewrite filter_start_startup_calls in Hin. apply in_map_iff in Hin.
      destruct Hin as (j & [= ->] & Hj). apply filter_In in Hj.
      now apply negb_true_iff.
    + rewrite Hcalls, filter_app in Hnd. cbn [filter is_start] in Hnd.
      apply NoDup_remove_2 in Hnd. split.
      * intros Hin. apply Hnd. apply in_or_app. left.
        apply filter_In. now split.
      * intros Hin. apply Hnd. apply in_or_app. right.
        apply filter_In. split; [|reflexivity].
        apply in_app_or in Hin. destruct Hin as [Hin|Hin].
        -- apply in_or_app. now left.
        -- destruct Hnostart. now exists i.
  - assert (Hf2 : filter is_ready_result t2 = []).
    { apply filter_none. eapply Forall_impl; [|exact Ht2].
      intros ev Hev. now destruct ev. }
    exists (filter is_ready_result rest). split.
    + rewrite Hrun, filter_app, Hf2, app_nil_r, <- filter_app, <- Hpre.
      symmetry. apply filter_ready_startup_calls.
    + intros u Hu. destruct (startup_done w s u Hu) as (Ht & _ & _).
      rewrite Ht in Hpre. 
      assert (rest = []) as ->; [|reflexivity].
      apply (f_equal (@List.length event)) in Hpre.
      rewrite length_app in Hpre. destruct rest; [reflexivity|cbn in Hpre; lia].
Qed.

(** ** [run] and [shutdown] *)

Lemma handler_started_only_if_not_alive_witness :
  (exists pre',
      [DhtIsAlive true; AnnouncerStart; HandlerIsAlive 0 false]
      = pre' ++ [HandlerIsAlive 0 false])
  /\ Server.handler_alive Sample.server 0 = false
  /\ map HandlerReadyResult [0; 1]
     = filter is_ready_result (Py.trace (Server.run Sample.calm Sample.server)).
Proof.
  destruct (handler_started_only_if_not_alive Sample.calm Sample.server)
    as [H (rest & Heq & Hrest)].
  destruct (H [DhtIsAlive true; AnnouncerStart; HandlerIsAlive 0 false] 0
              [HandlerReadyResult 0; HandlerIsAlive 1 false; HandlerStart 1;
               HandlerReadyResult 1; RuntimeRun; RuntimeReadySet; ReadyClear;
               HandlerTerminate 0; HandlerJoin 0; HandlerTerminate 1;
               HandlerJoin 1; AnnouncerStopSet; AnnouncerJoin; DhtShutdown;
               DhtJoin; RuntimeShutdown])
    as (H1 & H2 & _).
  - vm_compute. reflexivity.
  - split; [exact H1|]. split; [exact H2|].
    rewrite (Hrest tt) in Heq by (vm_compute; reflexivity).
    rewrite app_nil_r in Heq. exact Heq.
Defined.

(** [shutdown] begins by clearing [ready]. *)
Lemma shutdown_trace_head w s :
  exists rest, Py.trace (Server.shutdown w s) = ReadyClear :: rest.
Proof.
  pose proof (shutdown_obs w s) as Hobs. unfold Py.obs in Hobs.
  apply (f_equal snd) in Hobs. cbn [snd] in Hobs. rewrite Hobs.
  unfold shutdown_calls. cbn [app play answer].
  match goal with |- context [play ?a ?l] => destruct (play a l) as [r t] end.
  now exists t.
Qed.

(** C1, as the code has it.  When the statements of [run] before the [try]
    have completed and the engine's main loop returns or raises, [run] goes
    on with the whole of [shutdown] on the state the engine left: the calls
    of [shutdown] end the trace, [ready] is clear at the end, and the
    exception of the engine propagates when [shutdown] completes.  When one
    of the statements before the [try] raises, [run] ends with that
    exception and with no call of [shutdown]. *)
Theorem run_shutdown_after_engine (w : Server.env) (s : Server.t) :
  (forall s1 t1,
      Server.startup w s = (Py.Done tt, s1, t1) ->
      Server.runtime_run w <> Py.Hangs ->
      let sd := Server.shutdown w (engine_state w s1) in
      Py.trace (Server.run w s) = t1 ++ engine_calls w ++ Py.trace sd
      /\ Py.final (Server.run w s) = Py.final sd
      /\ Py.res (Server.run w s)
         = after_finally (result_of (Server.runtime_run w)) (Py.res sd)
      /\ In ReadyClear (Py.trace (Server.run w s))
      /\ Server.ready (Py.final (Server.run w s)) = false)
  /\ (forall e,
        Py.res (Server.startup w s) = Py.Raised e ->
        Server.run w s = Server.startup w s
        /\ Forall (fun ev => is_shutdown_call ev = false)
                  (Py.trace (Server.run w s))).
Proof.
  split.
  - intros s1 t1 Hs Hr sd.
    rewrite (run_engine_ends w s s1 t1 Hs Hr). fold sd.
    unfold Py.trace at 1, Py.final at 1 3, Py.res at 1. cbn [fst snd].
    repeat split.
    + apply in_or_app. right. apply in_or_app. right.
      destruct (shutdown_trace_head w (engine_state w s1)) as [rest H].
      fold sd in H. rewrite H. now left.
    + apply (shutdown_clears_ready w (engine_state w s1) I).
  - intros e He.
    assert (Hrun : Server.run w s = Server.startup w s).
    { apply run_startup_fails. intros u. rewrite He. discriminate. }
    split; [exact Hrun|]. rewrite Hrun.
    eapply Forall_impl; [|apply startup_trace_kind].
    intros ev Hev. now destruct ev.
Qed.

Lemma run_shutdown_after_engine_witness :
  Py.res (Server.run Sample.engine_faults Sample.server)
  = Py.Raised (Py.Foreign "EngineFault")
  /\ In ReadyClear (Py.trace (Server.run Sample.engine_faults Sample.server))
  /\ Forall (fun ev => is_shutdown_call ev = false)
            (Py.trace (Server.run Sample.handler_start_fails Sample.server)).
Proof.
  destruct (run_shutdown_after_engine Sample.engine_faults Sample.server)
    as [H _].
  destruct (H (Py.final (Server.startup Sample.engine_faults Sample.server))
              (Py.trace (Server.startup Sample.engine_faults Sample.server)))
    as (_ & _ & Hres & Hin & _).
  - vm_compute. reflexivity.
  - discriminate.
  - destruct (run_shutdown_after_engine Sample.handler_start_fails
                                        Sample.server) as [_ H'].
    destruct (H' (Py.Foreign "OSError")) as [_ Hall].
    + vm_compute. reflexivity.
    + split; [|split]; [rewrite Hres; vm_compute; reflexivity|exact Hin|exact Hall].
Defined.

(** C1 as stated fails: the handler in slot 0 cannot be started; [run]
    ends with that exception after the announcer thread was launched, and
    makes no call of [shutdown]. *)
Lemma run_startup_failure_skips_shutdown :
  Py.res (Server.run Sample.handler_start_fails Sample.server)
  = Py.Raised (Py.Foreign "OSError")
  /\ Py.trace (Server.run Sample.handler_start_fails Sample.server)
     = [DhtIsAlive true; AnnouncerStart; HandlerIsAlive 0 false; HandlerStart 0]
  /\ ~ In ReadyClear
          (Py.trace (Server.run Sample.handler_start_fails Sample.server))
  /\ ModuleAnnouncerThread.started
       (Server.dht_handler_thread
          (Py.final (Server.run Sample.handler_start_fails Sample.server)))
     = true.
Proof.
  assert (Ht : Py.trace (Server.run Sample.handler_start_fails Sample.server)
               = [DhtIsAlive true; AnnouncerStart; HandlerIsAlive 0 false;
                  HandlerStart 0]) by (vm_compute; reflexivity).
  split; [vm_compute; reflexivity|]. split; [exact Ht|].
  split; [|vm_compute; reflexivity].
  rewrite Ht. cbn. intuition discriminate.
Qed.

(** C5, as the code has it.  [shutdown] carries out its calls in the order
    written, up to the first one that does not return: when that call
    raises, its exception is the one [shutdown] raises, and the calls after
    it are not made; when every call returns, all of them are made. *)
Theorem shutdown_stops_at_first_failure (w : Server.env) (s : Server.t) :
  Py.obs (Server.shutdown w s) = play (answer w s) (shutdown_calls s)
  /\ (forall e,
        Py.res (Server.shutdown w s) = Py.Raised e ->
        exists pre ev rest,
          shutdown_calls s = pre ++ ev :: rest
          /\ Py.trace (Server.shutdown w s) = pre ++ [ev]
          /\ answer w s ev = Py.Raises e)
  /\ (Forall (fun ev => answer w s ev = Py.Returns tt) (shutdown_calls s) ->
      Py.res (Server.shutdown w s) = Py.Done tt
      /\ Py.trace (Server.shutdown w s) = shutdown_calls s).
Proof.
  pose proof (shutdown_obs w s) as Hobs. split; [exact Hobs|].
  unfold Py.obs in Hobs.
  assert (Hr : Py.res (Server.shutdown w s)
               = fst (play (answer w s) (shutdown_calls s)))
    by now rewrite <- Hobs.
  assert (Ht : Py.trace (Server.shutdown w s)
               = snd (play (answer w s) (shutdown_calls s)))
    by now rewrite <- Hobs.
  split.
  - intros e He. rewrite Hr in He.
    destruct (play_raised _ _ _ He) as (pre & ev & rest & H1 & H2 & H3 & _).
    exists pre, ev, rest. rewrite Ht. now repeat split.
  - intros Hall. rewrite Hr, Ht, (play_all_return _ _ Hall). now split.
Qed.

Lemma shutdown_stops_at_first_failure_witness :
  (exists pre ev rest,
      shutdown_calls Sample.serving = pre ++ ev :: rest
      /\ Py.trace (Server.shutdown Sample.terminate_fails Sample.serving)
         = pre ++ [ev]
      /\ answer Sample.terminate_fails Sample.serving ev
         = Py.Raises (Py.Foreign "OSError"))
  /\ Py.trace (Server.shutdown Sample.calm Sample.serving)
     = shutdown_calls Sample.serving.
Proof.
  split.
  - destruct (shutdown_stops_at_first_failure Sample.terminate_fails
                                              Sample.serving) as (_ & H & _).
    apply H. vm_compute. reflexivity.
  - destruct (shutdown_stops_at_first_failure Sample.calm Sample.serving)
      as (_ & _ & H).
    apply H. vm_compute. repeat constructor.
Defined.

(** C5 as stated fails: terminating the handler in slot 0 raises; the
    exception leaves [shutdown] at once, the other handler is not
    terminated, the announcer is not stopped and neither the DHT nor the
    Runtime is shut down. *)
Lemma shutdown_aborts_at_failing_step :
  Server.shutdown Sample.terminate_fails Sample.serving
  = (Py.Raised (Py.Foreign "OSError"),
     Server.with_runtime (Runtime.mk false) Sample.serving,
     [ReadyClear; HandlerTerminate 0])
  /\ In RuntimeShutdown (shutdown_calls Sample.serving)
  /\ ~ In RuntimeShutdown
          (Py.trace (Server.shutdown Sample.terminate_fails Sample.serving)).
Proof.
  assert (H : Server.shutdown Sample.terminate_fails Sample.serving
              = (Py.Raised (Py.Foreign "OSError"),
                 Server.with_runtime (Runtime.mk false) Sample.serving,
                 [ReadyClear; HandlerTerminate 0])) by (vm_compute; reflexivity).
  split; [exact H|]. split.
  - vm_compute. intuition.
  - rewrite H. cbn. intuition discriminate.
Qed.

(** ** Readiness *)



(** ** [run_in_background] and the server thread *)


Lemma after_ready_set_some (l : list event) :
  forall rest,
    after_ready_set l = Some rest ->
    exists pre, l = pre ++ RuntimeReadySet :: rest
                /\ ~ In RuntimeReadySet pre.
Proof.
  induction l as [|ev l IH]; intros rest H; [discriminate|].
  destruct ev; cbn in H;
    try (destruct (IH rest H) as (pre & -> & Hpre);
         eexists (_ :: pre); split; [reflexivity|];
         intros [Hin|Hin]; [discriminate|now apply Hpre]).
  injection H as <-. exists []. split; [reflexivity|]. intros [].
Qed.



Lemma thread_clears_ready_inv w s :
  Server.thread_clears_ready w s = true ->
  exists pre post,
    Py.trace (Server.run w s) = pre ++ RuntimeReadySet :: post
    /\ In ReadyClear post.
Proof.
  unfold Server.thread_clears_ready, Server.thread.
  destruct (after_ready_set (Py.trace (Server.run w s))) as [rest|] eqn:E;
    [|discriminate].
  intros H. destruct (after_ready_set_some _ _ E) as (pre & Hpre & _).
  exists pre, rest. split; [exact Hpre|].
  apply existsb_exists in H. destruct H as (ev & Hin & Hev).
  now destruct ev.
Qed.



(** What [wait] answers once the event is not set at entry. *)
Lemma ready_wait_eq w timeout s :
  Server.ready_wait w timeout s
  = (match Server.wait_result w s timeout with
     | Some b => Py.Done b
     | None => Py.Blocked
     end,
     match Server.wait_result w s timeout with
     | Some true => if Server.ready s then s else Server.when_ready w s
     | _ => s
     end,
     [ReadyWait timeout]).
Proof.
  unfold Server.ready_wait, Py.bind, Py.get, Py.emit, Py.when, Py.modify,
    Py.ret, Py.of_outcome.
  destruct (Server.wait_result w s timeout) as [[|]|];
    [destruct (Server.ready s)|..]; reflexivity.
Qed.

Lemma run_in_background_eq w timeout s :
  Server.started s = false ->
  Server.run_in_background w true timeout s
  = (match Server.wait_result w (Server.with_started true s) timeout with
     | Some true => Py.Done tt
     | Some false => Py.Raised Py.TimeoutError
     | None => Py.Blocked
     end,
     match Server.wait_result w (Server.with_started true s) timeout with
     | Some true => if Server.ready s then Server.with_started true s
                    else Server.when_ready w (Server.with_started true s)
     | _ => Server.with_started true s
     end,
     [ThreadStart; ReadyWait timeout]).
Proof.
  intros Hs. unfold Server.run_in_background, Server.start.
  unfold Py.bind at 1. unfold Py.bind at 1. unfold Py.get at 1.
  unfold Py.bind at 1. unfold Py.emit at 1. rewrite Hs.
  unfold Py.modify at 1. unfold Py.bind at 1.
  rewrite ready_wait_eq.
  change (Server.ready (Server.with_started true s)) with (Server.ready s).
  destruct (Server.wait_result w (Server.with_started true s) timeout)
    as [[|]|]; reflexivity.
Qed.

Lemma wait_result_unset w s timeout :
  Server.ready s = false ->
  Server.started s = true ->
  Server.wait_result w s timeout
  = match (if Server.thread_sets_ready w s then Server.ready_set_after w
           else None), timeout with
    | Some d, Some tmo =>
        if Qle_bool d tmo
        then Some (negb (Server.thread_clears_ready w s
                         && Server.ready_cleared_before_seen w))
        else Some false
    | Some d, None =>
        Some (negb (Server.thread_clears_ready w s
                    && Server.ready_cleared_before_seen w))
    | None, Some tmo => Some false
    | None, None => None
    end.
Proof. intros Hr Hs. unfold Server.wait_result. now rewrite Hr, Hs. Qed.



(** ** The announcer *)

Section AnnouncerFacts.
Variable w : ModuleAnnouncerThread.env.
Variable a : ModuleAnnouncerThread.t.

Lemma announce_returns k st :
  ModuleAnnouncerThread.declare_active_modules w k = Py.Returns st ->
  ModuleAnnouncerThread.announce w k a = (Py.Done tt, a, [announcement w a k]).
Proof.
  intros H. unfold ModuleAnnouncerThread.announce, Py.bind, Py.get, Py.call,
    Py.bind, Py.emit, Py.of_outcome, Py.ret. cbn. now rewrite H.
Qed.

Lemma announce_raises k e :
  ModuleAnnouncerThread.declare_active_modules w k = Py.Raises e ->
  ModuleAnnouncerThread.announce w k a = (Py.Raised e, a, [announcement w a k]).
Proof.
  intros H. unfold ModuleAnnouncerThread.announce, Py.bind, Py.get, Py.call,
    Py.bind, Py.emit, Py.of_outcome, Py.ret. cbn. now rewrite H.
Qed.

Lemma announce_trace k :
  Py.trace (ModuleAnnouncerThread.announce w k a) = [announcement w a k].
Proof.
  unfold ModuleAnnouncerThread.announce, Py.bind, Py.get, Py.call,
    Py.bind, Py.emit, Py.of_outcome, Py.ret. cbn.
  now destruct (ModuleAnnouncerThread.declare_active_modules w k).
Qed.

Lemma stop_wait_timeout k :
  ModuleAnnouncerThread.stop a = false ->
  ModuleAnnouncerThread.stop_set_during_wait w k = false ->
  ModuleAnnouncerThread.stop_wait w k a
  = (Py.Done false, a, [StopWait (ModuleAnnouncerThread.update_period a)]).
Proof.
  intros Hs Hk. unfold ModuleAnnouncerThread.stop_wait, Py.bind, Py.get,
    Py.emit, Py.ret. cbn. now rewrite Hs, Hk.
Qed.

(** While the announcements return and [stop] stays clear, the loop goes
    round. *)
Lemma loop_renews fuel : forall k,
  ModuleAnnouncerThread.stop a = false ->
  (forall j, k <= j < k + fuel ->
             ModuleAnnouncerThread.stop_set_during_wait w j = false
             /\ exists st, ModuleAnnouncerThread.declare_active_modules w (S j)
                           = Py.Returns st) ->
  ModuleAnnouncerThread.loop w fuel k a
  = (Py.OutOfFuel, a, renewals w a k fuel).
Proof.
  induction fuel as [|fuel IH]; intros k Hs H; [reflexivity|].
  destruct (H k ltac:(lia)) as [Hk [st Hst]].
  cbn [ModuleAnnouncerThread.loop]. unfold Py.bind at 1.
  rewrite (stop_wait_timeout k Hs Hk). unfold Py.bind at 1.
  rewrite (announce_returns _ _ Hst), IH; [reflexivity|exact Hs|].
  intros j Hj. apply H. lia.
Qed.

(** The first announcement that raises ends the loop. *)
Lemma loop_dies n e : forall k fuel,
  ModuleAnnouncerThread.stop a = false ->
  (forall j, k <= j < k + n ->
             ModuleAnnouncerThread.stop_set_during_wait w j = false
             /\ exists st, ModuleAnnouncerThread.declare_active_modules w (S j)
                           = Py.Returns st) ->
  ModuleAnnouncerThread.stop_set_during_wait w (k + n) = false ->
  ModuleAnnouncerThread.declare_active_modules w (S (k + n)) = Py.Raises e ->
  n < fuel ->
  ModuleAnnouncerThread.loop w fuel k a
  = (Py.Raised e, a, renewals w a k (S n)).
Proof.
  induction n as [|n IH]; intros k fuel Hs H Hw He Hf;
    (destruct fuel as [|fuel]; [lia|]);
    cbn [ModuleAnnouncerThread.loop]; unfold Py.bind at 1.
  - rewrite Nat.add_0_r in *. rewrite (stop_wait_timeout k Hs Hw).
    unfold Py.bind at 1. now rewrite (announce_raises _ _ He).
  - destruct (H k ltac:(lia)) as [Hk [st Hst]].
    rewrite (stop_wait_timeout k Hs Hk). unfold Py.bind at 1.
    rewrite (announce_returns _ _ Hst), (IH (S k) fuel); trivial.
    + intros j Hj. apply H. lia.
    + now replace (S k + n) with (k + S n) by lia.
    + now replace (S k + n) with (k + S n) by lia.
    + lia.
Qed.

Lemma run_trace_head fuel :
  exists rest,
    Py.trace (ModuleAnnouncerThread.run w fuel a) = announcement w a 0 :: rest.
Proof.
  unfold ModuleAnnouncerThread.run.
  destruct (trace_bind_prefix (ModuleAnnouncerThread.announce w 0)
              (fun _ => ModuleAnnouncerThread.loop w fuel 0) a) as [t2 H].
  rewrite H, announce_trace. now exists t2.
Qed.
End AnnouncerFacts.

(** C3, as the code has it.  While [stop] is not set: as long as
    [declare_active_modules] returns, whatever store status it reports, the
    announcer makes one more announcement after each period and goes on;
    the first announcement that raises ends the announcer's [run] with that
    exception, and no further announcement is made. *)
Theorem announcer_survives_reported_failures
        (w : ModuleAnnouncerThread.env) (a : ModuleAnnouncerThread.t) (n : nat)
        (Hstop : ModuleAnnouncerThread.stop a = false)
        (Hwait : forall j, j < n ->
                   ModuleAnnouncerThread.stop_set_during_wait w j = false)
        (Hret : forall k, k < n ->
                  exists st, ModuleAnnouncerThread.declare_active_modules w k
                             = Py.Returns st) :
  ((exists st, ModuleAnnouncerThread.declare_active_modules w n = Py.Returns st)
   -> ModuleAnnouncerThread.run w n a = (Py.OutOfFuel, a, attempts w a n))
  /\ (forall e fuel,
        ModuleAnnouncerThread.declare_active_modules w n = Py.Raises e ->
        n <= fuel ->
        ModuleAnnouncerThread.run w fuel a = (Py.Raised e, a, attempts w a n)).
Proof.
  unfold ModuleAnnouncerThread.run, attempts. split.
  - intros Hn.
    assert (H0 : exists st, ModuleAnnouncerThread.declare_active_modules w 0
                            = Py.Returns st).
    { destruct n; [exact Hn|apply Hret; lia]. }
    destruct H0 as [st0 H0]. unfold Py.bind.
    rewrite (announce_returns w a 0 st0 H0), loop_renews; trivial.
    intros j Hj. split; [apply Hwait; lia|].
    destruct (Nat.eq_dec (S j) n) as [<-|]; [exact Hn|apply Hret; lia].
  - intros e fuel He Hf. unfold Py.bind. destruct n as [|n].
    + now rewrite (announce_raises w a 0 e He).
    + destruct (Hret 0 ltac:(lia)) as [st0 H0].
      rewrite (announce_returns w a 0 st0 H0), (loop_dies w a n e 0 fuel);
        trivial; try lia.
      * intros j Hj. split; [apply Hwait; lia|apply Hret; lia].
      * apply Hwait. lia.
Qed.

Lemma announcer_survives_reported_failures_witness :
  ModuleAnnouncerThread.run SampleAnnouncer.rejecting 3
                            SampleAnnouncer.announcer
  = (Py.OutOfFuel, SampleAnnouncer.announcer,
     attempts SampleAnnouncer.rejecting SampleAnnouncer.announcer 3)
  /\ ModuleAnnouncerThread.run SampleAnnouncer.registry_down 3
                               SampleAnnouncer.announcer
     = (Py.Raised (Py.Foreign "RegistryError"), SampleAnnouncer.announcer,
        attempts SampleAnnouncer.registry_down SampleAnnouncer.announcer 0).
Proof.
  split.
  - destruct (announcer_survives_reported_failures
                SampleAnnouncer.rejecting SampleAnnouncer.announcer 3) as [H _].
    + reflexivity.
    + reflexivity.
    + intros k _. now eexists.
    + apply H. now eexists.
  - destruct (announcer_survives_reported_failures
                SampleAnnouncer.registry_down SampleAnnouncer.announcer 0)
      as [_ H].
    + reflexivity.
    + intros j Hj. inversion Hj.
    + intros k Hk. inversion Hk.
    + apply H; [reflexivity|]. repeat constructor.
Defined.

(** C3 as stated fails: with a registry whose put always raises, the
    announcer makes its first announcement and ends with the exception;
    however long it is given, there is no second announcement. *)
Lemma announcer_dies_when_put_raises :
  ModuleAnnouncerThread.run SampleAnnouncer.registry_down 3
                            SampleAnnouncer.announcer
  = (Py.Raised (Py.Foreign "RegistryError"), SampleAnnouncer.announcer,
     [DeclareActiveModules ["m.0"%string; "m.1"%string] (0 + 3)%Q]).
Proof. reflexivity. Qed.

(** ** The two threads together *)

Lemma run_trace_no_announcer_call w s :
  Forall (fun ev => is_announcer_call ev = false) (Py.trace (Server.run w s)).
Proof.
  destruct (Server.startup w s) as [[r s1] t1] eqn:Hs.
  assert (H1 : Forall (fun ev => is_announcer_call ev = false) t1).
  { pose proof (startup_trace_kind w s) as H. rewrite Hs in H.
    eapply Forall_impl; [|exact H]. intros ev Hev. now destruct ev. }
  destruct r as [[]| | |].
  2-4: rewrite run_startup_fails by (rewrite Hs; discriminate);
       now rewrite Hs.
  assert (He : Forall (fun ev => is_announcer_call ev = false) (engine_calls w)).
  { unfold engine_calls. destruct (Server.runtime_sets_ready w);
      now repeat constructor. }
  destruct (Server.runtime_run w) as [[]| |] eqn:Hr.
  3: { rewrite (run_engine_hangs w s s1 t1 Hs Hr). apply Forall_app. now split. }
  all: rewrite (run_engine_ends w s s1 t1 Hs) by (rewrite Hr; discriminate);
    apply Forall_app; split; [exact H1|]; apply Forall_app; split; [exact He|];
    eapply Forall_impl; [|apply shutdown_trace_kind];
    intros ev Hev; now destruct ev.
Qed.

Lemma first_hit_unique {X} (f : X -> bool) (l1 : list X) :
  forall x l2 l1' x' l2',
    l1 ++ x :: l2 = l1' ++ x' :: l2' ->
    f x = true -> f x' = true ->
    Forall (fun y => f y = false) l1 -> Forall (fun y => f y = false) l1' ->
    l1 = l1' /\ x = x'.
Proof.
  induction l1 as [|a l1 IH]; intros x l2 l1' x' l2' H Hx Hx' H1 H1'.
  - destruct l1' as [|b l1']; cbn in H; injection H as -> _; [now split|].
    inversion H1'; congruence.
  - destruct l1' as [|b l1']; cbn in H; injection H as -> H.
    + inversion H1; congruence.
    + inversion H1; inversion H1'; subst.
      destruct (IH _ _ _ _ _ H Hx Hx') as [-> ->]; trivial. now split.
Qed.

Lemma interleave_first_hit {X} (f : X -> bool) (l r m : list X) :
  interleave l r m ->
  forall d r', r = d :: r' -> f d = true ->
  Forall (fun y => f y = false) l ->
  exists m1 m2, m = m1 ++ d :: m2 /\ Forall (fun y => f y = false) m1.
Proof.
  induction 1 as [|a l r m _ IH|a l r m _ _]; intros d r' Hr Hd Hl.
  - discriminate.
  - inversion Hl; subst.
    destruct (IH d r' eq_refl Hd) as (m1 & m2 & -> & Hm1); trivial.
    exists (a :: m1), m2. split; [reflexivity|now constructor].
  - injection Hr as -> ->. exists [], m. now split.
Qed.

(** C4, as the code has it.  Whatever the scheduler does, the first call
    that the announcer thread makes is the announcement of all the block
    identifiers it was built with, expiring [expiration] after the DHT time
    then read; it is made on the announcer thread, after
    [Thread.start] has launched it, not inside that call.  A server just
    built gives its announcer its own blocks and the expiration asked
    for. *)
Theorem first_announcement_on_announcer_thread
        (w : Server.env) (aw : ModuleAnnouncerThread.env) (fuel : nat)
        (s : Server.t) :
  let a := Server.dht_handler_thread s in
  (exists rest,
      Py.trace (ModuleAnnouncerThread.run aw fuel a)
      = DeclareActiveModules
          (Py.keys (ModuleAnnouncerThread.module_backends a))
          (ModuleAnnouncerThread.get_dht_time aw 0
           + ModuleAnnouncerThread.expiration a)%Q
        :: rest)
  /\ (forall g pre ev post,
        joint_execution (Py.trace (Server.run w s))
                        (Py.trace (ModuleAnnouncerThread.run aw fuel a)) g ->
        g = pre ++ ev :: post ->
        is_announcer_call ev = true ->
        Forall (fun ev' => is_announcer_call ev' = false) pre ->
        ev = DeclareActiveModules
               (Py.keys (ModuleAnnouncerThread.module_backends a))
               (ModuleAnnouncerThread.get_dht_time aw 0
                + ModuleAnnouncerThread.expiration a)%Q
        /\ In AnnouncerStart pre)
  /\ (forall MAX dht backends num_handlers update_period expiration,
        let s' := Server.fresh MAX dht backends num_handlers update_period
                               expiration in
        ModuleAnnouncerThread.module_backends (Server.dht_handler_thread s')
        = Server.module_backends s'
        /\ ModuleAnnouncerThread.expiration (Server.dht_handler_thread s')
           = match expiration with
             | Some e => e
             | None => Py.max (2 * update_period) MAX
             end).
Proof.
  intros a. split; [apply run_trace_head|]. split; [|now split].
  intros g pre ev post (pre0 & post0 & m & Hsrv & Hil & ->) Hg Hev Hpre.
  destruct (run_trace_head aw a fuel) as [rest Hrest].
  pose proof (run_trace_no_announcer_call w s) as Hno. rewrite Hsrv in Hno.
  apply Forall_app in Hno. destruct Hno as [Hno0 Hno1].
  inversion Hno1 as [|? ? _ Hpost0]; subst.
  destruct (interleave_first_hit is_announcer_call _ _ _ Hil _ _ Hrest
              eq_refl Hpost0) as (m1 & m2 & -> & Hm1).
  assert (Hg' : (pre0 ++ AnnouncerStart :: m1) ++ announcement aw a 0 :: m2
                = pre ++ ev :: post).
  { rewrite <- Hg, <- app_assoc. reflexivity. }
  destruct (first_hit_unique is_announcer_call _ _ _ _ _ _ Hg' eq_refl Hev)
    as [<- <-]; trivial.
  - apply Forall_app. split; [exact Hno0|]. now constructor.
  - split; [reflexivity|]. apply in_elt.
Qed.

Lemma first_announcement_on_announcer_thread_witness :
  DeclareActiveModules ["m.0"%string; "m.1"%string] (0 + 3)%Q
  = DeclareActiveModules
      (Py.keys (ModuleAnnouncerThread.module_backends
                  (Server.dht_handler_thread Sample.server)))
      (ModuleAnnouncerThread.get_dht_time SampleAnnouncer.steady 0
       + ModuleAnnouncerThread.expiration
           (Server.dht_handler_thread Sample.server))%Q
  /\ In AnnouncerStart [DhtIsAlive true; AnnouncerStart; HandlerIsAlive 0 false;
                        HandlerStart 0].
Proof.
  destruct (first_announcement_on_announcer_thread
              Sample.handler_never_ready SampleAnnouncer.steady 0 Sample.server)
    as (_ & H & _).
  destruct (H ([DhtIsAlive true; AnnouncerStart; HandlerIsAlive 0 false;
                HandlerStart 0]
               ++ DeclareActiveModules ["m.0"%string; "m.1"%string] (0 + 3)%Q
               :: [HandlerReadyResult 0; HandlerIsAlive 1 false;
                   HandlerStart 1; HandlerReadyResult 1])
              [DhtIsAlive true; AnnouncerStart; HandlerIsAlive 0 false;
               HandlerStart 0]
              (DeclareActiveModules ["m.0"%string; "m.1"%string] (0 + 3)%Q)
              [HandlerReadyResult 0; HandlerIsAlive 1 false;
               HandlerStart 1; HandlerReadyResult 1]) as [Hev Hin].
  - exists [DhtIsAlive true],
      [HandlerIsAlive 0 false; HandlerStart 0; HandlerReadyResult 0;
       HandlerIsAlive 1 false; HandlerStart 1; HandlerReadyResult 1],
      [HandlerIsAlive 0 false; HandlerStart 0;
       DeclareActiveModules ["m.0"%string; "m.1"%string] (0 + 3)%Q;
       HandlerReadyResult 0; HandlerIsAlive 1 false; HandlerStart 1;
       HandlerReadyResult 1].
    split; [reflexivity|]. split; [|reflexivity].
    repeat first [apply interleave_nil | apply interleave_left
                 | apply interleave_right].
  - reflexivity.
  - reflexivity.
  - repeat constructor.
  - split; [exact Hev|exact Hin].
Defined.

(** C4 as stated fails: in this execution the handler in slot 0 has been
    started, the announcer thread having been launched, before any
    announcement is made. *)
Lemma handler_start_may_precede_announcement :
  exists g pre post,
    joint_execution
      (Py.trace (Server.run Sample.handler_never_ready Sample.server))
      (Py.trace (ModuleAnnouncerThread.run SampleAnnouncer.steady 0
                                           SampleAnnouncer.announcer))
      g
    /\ g = pre ++ HandlerStart 0 :: post
    /\ In AnnouncerStart pre
    /\ Forall (fun ev => is_announcer_call ev = false) pre
    /\ In (DeclareActiveModules ["m.0"%string; "m.1"%string] (0 + 3)%Q) post.
Proof.
  exists [DhtIsAlive true; AnnouncerStart; HandlerIsAlive 0 false;
          HandlerStart 0;
          DeclareActiveModules ["m.0"%string; "m.1"%string] (0 + 3)%Q;
          HandlerReadyResult 0; HandlerIsAlive 1 false; HandlerStart 1;
          HandlerReadyResult 1],
    [DhtIsAlive true; AnnouncerStart; HandlerIsAlive 0 false],
    [DeclareActiveModules ["m.0"%string; "m.1"%string] (0 + 3)%Q;
     HandlerReadyResult 0; HandlerIsAlive 1 false; HandlerStart 1;
     HandlerReadyResult 1].
  split.
  - exists [DhtIsAlive true],
      [HandlerIsAlive 0 false; HandlerStart 0; HandlerReadyResult 0;
       HandlerIsAlive 1 false; HandlerStart 1; HandlerReadyResult 1],
      [HandlerIsAlive 0 false; HandlerStart 0;
       DeclareActiveModules ["m.0"%string; "m.1"%string] (0 + 3)%Q;
       HandlerReadyResult 0; HandlerIsAlive 1 false; HandlerStart 1;
       HandlerReadyResult 1].
    split; [reflexivity|]. split; [|reflexivity].
    repeat first [apply interleave_nil | apply interleave_left
                 | apply interleave_right].
  - split; [reflexivity|]. split; [cbn; intuition|].
    split; [repeat constructor|now left].
Qed.

(** ** The default expiration *)

Section DefaultExpiration.
Variable MAX_DHT_TIME_DISCREPANCY_SECONDS : Q.

Lemma py_max_is_Qmax (a b : Q) : Py.max a b = Qmax a b.
Proof. reflexivity. Qed.

(** C8. For every lease period greater than zero, an announcer built
    without an explicit expiration gets the expiration
    max(2 * update_period, MAX_DHT_TIME_DISCREPANCY_SECONDS), which is at
    least twice the period and at least the maximal clock discrepancy. *)
Theorem default_expiration_is_max
        (backends : Py.dict TransformerBackend.t) (update_period : Q)
        (Hpos : (0 < update_period)%Q) :
  let a := ModuleAnnouncerThread.__init__
             MAX_DHT_TIME_DISCREPANCY_SECONDS backends update_period None in
  ModuleAnnouncerThread.expiration a
    = Qmax (2 * update_period) MAX_DHT_TIME_DISCREPANCY_SECONDS
  /\ (2 * update_period <= ModuleAnnouncerThread.expiration a)%Q
  /\ (MAX_DHT_TIME_DISCREPANCY_SECONDS <= ModuleAnnouncerThread.expiration a)%Q.
Proof.
  cbn zeta. cbn [ModuleAnnouncerThread.__init__ ModuleAnnouncerThread.expiration].
  rewrite py_max_is_Qmax. repeat split.
  - apply Q.le_max_l.
  - apply Q.le_max_r.
Qed.
End DefaultExpiration.

Lemma default_expiration_is_max_witness :
  (0 < 30)%Q /\
  (ModuleAnnouncerThread.expiration
     (ModuleAnnouncerThread.__init__ 3 [] 30 None) == 60)%Q.
Proof.
  split; [reflexivity|].
  destruct (@default_expiration_is_max 3 [] 30 eq_refl) as [H _].
  rewrite H. reflexivity.
Defined.

(** ** Inverting a computation that completed *)

Section Inversion.
Context {S E : Type}.

Lemma bind_done_inv {A B} (m : Py.M S E A) (f : A -> Py.M S E B) s b s2 t :
  Py.bind m f s = (Py.Done b, s2, t) ->
  exists a s1 t1 t2,
    m s = (Py.Done a, s1, t1) /\ f a s1 = (Py.Done b, s2, t2) /\ t = t1 ++ t2.
Proof.
  unfold Py.bind. destruct (m s) as [[[a| | |] s1] t1]; try discriminate.
  destruct (f a s1) as [[r s2'] t2] eqn:Hf. intros [= -> -> <-].
  now exists a, s1, t1, t2.
Qed.

Lemma bind_raised_inv {A B} (m : Py.M S E A) (f : A -> Py.M S E B) s e :
  Py.res (m s) = Py.Raised e -> Py.res (Py.bind m f s) = Py.Raised e.
Proof.
  unfold Py.bind, Py.res. destruct (m s) as [[[a| | |] s1] t1]; cbn;
    congruence.
Qed.

Lemma call_done_inv {A} (ev : E) (o : Py.outcome A) (s : S) a s1 t1 :
  Py.call ev o s = (Py.Done a, s1, t1) ->
  o = Py.Returns a /\ s1 = s /\ t1 = [ev].
Proof.
  unfold Py.call, Py.bind, Py.emit, Py.of_outcome. cbn.
  destruct o; intros [= <- <- <-]; now repeat split.
Qed.

Lemma assert_done_inv (c : bool) (s : S) u s1 (t1 : list E) :
  Py.assert c s = (Py.Done u, s1, t1) -> c = true /\ s1 = s /\ t1 = [].
Proof.
  unfold Py.assert. destruct c; cbn; intros [= <- <-]; now repeat split.
Qed.

Lemma for_each_done {X} (body : X -> Py.M S E unit) (step : X -> S -> S)
      (ev : X -> E) (ok : X -> Prop) (xs : list X) :
  (forall x s u s1 t1, body x s = (Py.Done u, s1, t1) ->
                       s1 = step x s /\ t1 = [ev x] /\ ok x) ->
  forall s u s1 t1,
    Py.for_each xs body s = (Py.Done u, s1, t1) ->
    s1 = fold_left (fun s x => step x s) xs s /\ t1 = map ev xs
    /\ Forall ok xs.
Proof.
  intros Hb. induction xs as [|x xs IH]; intros s u s1 t1 H;
    cbn [Py.for_each fold_left map] in *.
  - injection H as _ <- <-. split; [reflexivity|]. split; [reflexivity|].
    constructor.
  - apply bind_done_inv in H.
    destruct H as (u' & s' & t' & t'' & H1 & H2 & ->).
    destruct (Hb _ _ _ _ _ H1) as (-> & -> & Hx).
    destruct (IH _ _ _ _ H2) as (-> & -> & Hxs).
    split; [reflexivity|]. split; [reflexivity|]. now constructor.
Qed.
End Inversion.

(** ** Strings and dictionaries *)

Lemma append_inj_l (p s1 s2 : string) :
  (p ++ s1 = p ++ s2)%string -> s1 = s2.
Proof.
  induction p as [|c p IH]; cbn; [trivial|].
  intros H. injection H as H. now apply IH.
Qed.

Lemma to_int_not_nil (z : Z) :
  Z.to_int z <> Decimal.Pos Decimal.Nil /\ Z.to_int z <> Decimal.Neg Decimal.Nil.
Proof.
  split; intros H; pose proof (f_equal Z.of_int H) as H';
    rewrite of_to in H'; cbn in H'; subst z; discriminate H.
Qed.

Lemma str_inj (i j : Z) : Py.str i = Py.str j -> i = j.
Proof.
  unfold Py.str. intros H.
  apply (f_equal NilZero.int_of_string) in H.
  destruct (to_int_not_nil i) as [Hi1 Hi2], (to_int_not_nil j) as [Hj1 Hj2].
  rewrite !NilZero.isi in H by assumption.
  injection H as H. apply (f_equal Z.of_int) in H. now rewrite !of_to in H.
Qed.

Lemma module_uid_of_inj (prefix : string) (i j : Z) :
  Server.module_uid_of prefix i = Server.module_uid_of prefix j -> i = j.
Proof.
  unfold Server.module_uid_of. intros H.
  apply append_inj_l, append_inj_l in H. now apply str_inj.
Qed.

Lemma range2_NoDup (lo hi : Z) : NoDup (Py.range2 lo hi).
Proof.
  unfold Py.range2.
  induction (seq_NoDup (Z.to_nat (hi - lo)) 0) as [|k l Hk _ IH]; cbn;
    constructor; [|exact IH].
  intros Hin. apply in_map_iff in Hin. destruct Hin as (k' & Hk' & Hin).
  assert (k' = k) by lia. now subst k'.
Qed.

Lemma dict_set_new {V} (k : string) (v : V) (d : Py.dict V) :
  ~ In k (Py.keys d) -> Py.dict_set k v d = d ++ [(k, v)].
Proof.
  induction d as [|[k' v'] d IH]; cbn; intros Hn; [reflexivity|].
  destruct (String.eqb_spec k' k) as [->|_]; [now destruct Hn; left|].
  rewrite IH; [reflexivity|]. intros Hin. apply Hn. now right.
Qed.

(** Storing values under keys that are new and distinct appends them. *)
Lemma fold_dict_set {X V} (key : X -> string) (val : X -> V) (xs : list X) :
  forall d,
    NoDup (Py.keys d ++ map key xs) ->
    fold_left (fun d x => Py.dict_set (key x) (val x) d) xs d
    = d ++ map (fun x => (key x, val x)) xs.
Proof.
  induction xs as [|x xs IH]; intros d Hnd; cbn [fold_left map].
  - now rewrite app_nil_r.
  - rewrite dict_set_new.
    + rewrite IH.
      * now rewrite <- app_assoc.
      * unfold Py.keys in *. rewrite map_app, <- app_assoc. exact Hnd.
    + cbn [map] in Hnd. apply NoDup_remove_2 in Hnd. intros Hin. apply Hnd.
      apply in_or_app. now left.
Qed.

(** ** What the statements of [run] before the [try] keep *)

Lemma startup_keeps w s0 :
  always (fun s =>
            Server.module_backends s = Server.module_backends s0
            /\ Server.started s = Server.started s0
            /\ ModuleAnnouncerThread.module_backends
                 (Server.dht_handler_thread s)
               = ModuleAnnouncerThread.module_backends
                   (Server.dht_handler_thread s0)
            /\ List.length (Server.conn_handlers s)
               = List.length (Server.conn_handlers s0))
         (Server.startup w)
         (fun s =>
            Server.module_backends s = Server.module_backends s0
            /\ Server.started s = Server.started s0
            /\ ModuleAnnouncerThread.module_backends
                 (Server.dht_handler_thread s)
               = ModuleAnnouncerThread.module_backends
                   (Server.dht_handler_thread s0)
            /\ List.length (Server.conn_handlers s)
               = List.length (Server.conn_handlers s0)).
Proof.
  set (I := fun s : Server.t => _ /\ _ /\ _ /\ _).
  unfold Server.startup.
  apply always_bind with (Q := I); [| |auto].
  { unfold Server.start_dht. keep I. }
  intros _. apply always_bind with (Q := I); [apply always_get| |auto].
  intros self. apply always_bind with (Q := I); [| |auto].
  { apply always_when. intros s Hs. unfold Server.announcer_start.
    unfold Py.bind, Py.get, Py.emit, Py.raise, Py.modify, Py.final.
    cbn [fst snd].
    destruct (ModuleAnnouncerThread.started (Server.dht_handler_thread s));
      exact Hs. }
  intros _. apply always_bind with (Q := I); [| |auto].
  { destruct (Server.checkpoint_saver self);
      [apply always_call|apply always_ret]. }
  intros _. apply always_for_each. intros k s Hs.
  unfold Server.start_handler.
  unfold Py.bind, Py.get, Py.emit, Py.when, Py.call, Py.of_outcome, Py.modify,
    Py.ret, Py.final.
  cbn [fst snd].
  destruct (Server.handler_alive s k); cbn [negb fst snd].
  - destruct (Server.handler_ready_result w k) as [[]| |]; exact Hs.
  - assert (Hset : I (Server.set_handler_alive k true s)).
    { destruct Hs as (H1 & H2 & H3 & H4). repeat split; try assumption.
      unfold Server.set_handler_alive. cbn. now rewrite set_nth_length. }
    destruct (Server.handler_start w k) as [[]| |]; cbn [fst snd];
      try exact Hs.
    destruct (Server.handler_ready_result w k) as [[]| |]; exact Hset.
Qed.

Lemma startup_keeps_dht_alive w :
  always (fun s => DHT.alive (Server.dht s) = true) (Server.startup w)
         (fun s => DHT.alive (Server.dht s) = true).
Proof.
  unfold Server.startup.
  apply always_bind with (Q := fun s => DHT.alive (Server.dht s) = true);
    [| |auto].
  { intros s Hs. unfold Server.start_dht.
    unfold Py.bind, Py.get, Py.emit, Py.when, Py.final. cbn [fst snd].
    now rewrite Hs. }
  intros _. unfold Server.announcer_start, Server.start_handler.
  keep (fun s => DHT.alive (Server.dht s) = true).
Qed.

(** The server that a caller sees once [ready] is set. *)
Lemma when_ready_keeps w s :
  Server.ready (Server.when_ready w s) = true
  /\ Server.module_backends (Server.when_ready w s) = Server.module_backends s
  /\ Server.started (Server.when_ready w s) = Server.started s
  /\ ModuleAnnouncerThread.module_backends
       (Server.dht_handler_thread (Server.when_ready w s))
     = ModuleAnnouncerThread.module_backends (Server.dht_handler_thread s)
  /\ List.length (Server.conn_handlers (Server.when_ready w s))
     = List.length (Server.conn_handlers s)
  /\ (DHT.alive (Server.dht s) = true ->
      DHT.alive (Server.dht (Server.when_ready w s)) = true).
Proof.
  split; [reflexivity|].
  destruct (startup_keeps w s s) as (H1 & H2 & H3 & H4);
    [now repeat split|].
  unfold Server.when_ready.
  split; [exact H1|]. split; [exact H2|]. split; [exact H3|].
  split; [exact H4|]. intros Ha. now apply (startup_keeps_dht_alive w s).
Qed.

(** ** [create] *)

(** Building the [Server] object. *)
Lemma init_not_started {U} w MAX dht backends n up exp (u : U) :
  Server.__init__ w MAX dht backends n up exp false u
  = (Py.Done (Server.fresh MAX dht backends n up exp), u, []).
Proof. reflexivity. Qed.

Lemma init_started {U} w MAX dht backends n up exp (u : U) :
  let launched :=
    Server.with_started true (Server.fresh MAX dht backends n up exp) in
  Server.__init__ w MAX dht backends n up exp true u
  = (match Server.wait_result w launched None with
     | Some true => Py.Done (Server.when_ready w launched)
     | Some false => Py.Raised Py.TimeoutError
     | None => Py.Blocked
     end, u, [ThreadStart; ReadyWait None]).
Proof.
  intros launched. unfold Server.__init__, Py.run_on, Py.when.
  unfold Py.bind at 1.
  rewrite (run_in_background_eq w None
             (Server.fresh MAX dht backends n up exp) eq_refl).
  fold launched.
  destruct (Server.wait_result w launched None) as [[|]|]; reflexivity.
Qed.

(** [wait] without timeout on a launched server whose [ready] is clear. *)
Lemma wait_result_unbounded w s :
  Server.ready s = false -> Server.started s = true ->
  Server.wait_result w s None
  = if Server.thread_sets_ready w s
    then match Server.ready_set_after w with
         | Some _ =>
             Some (negb (Server.thread_clears_ready w s
                         && Server.ready_cleared_before_seen w))
         | None => None
         end
    else None.
Proof.
  intros Hr Hs. rewrite (wait_result_unset w s None Hr Hs).
  destruct (Server.thread_sets_ready w s); [|reflexivity].
  now destruct (Server.ready_set_after w).
Qed.

Lemma init_done {U} w MAX dht backends n up exp start (u u' : U) srv t :
  Server.__init__ w MAX dht backends n up exp start u = (Py.Done srv, u', t) ->
  let s0 := Server.fresh MAX dht backends n up exp in
  (start = false /\ srv = s0 /\ t = [])
  \/ (start = true
      /\ srv = Server.when_ready w (Server.with_started true s0)
      /\ t = [ThreadStart; ReadyWait None]
      /\ Server.thread_sets_ready w (Server.with_started true s0) = true
      /\ (exists d, Server.ready_set_after w = Some d)
      /\ (Server.thread_clears_ready w (Server.with_started true s0)
          && Server.ready_cleared_before_seen w)%bool = false).
Proof.
  destruct start.
  - rewrite init_started. cbv zeta.
    set (launched := Server.with_started true
                       (Server.fresh MAX dht backends n up exp)).
    rewrite (wait_result_unbounded w launched eq_refl eq_refl).
    destruct (Server.thread_sets_ready w launched) eqn:Hset; [|discriminate].
    destruct (Server.ready_set_after w) as [d|]; [|discriminate].
    destruct (Server.thread_clears_ready w launched
              && Server.ready_cleared_before_seen w)%bool eqn:Hseen;
      cbn [negb]; [discriminate|].
    intros [= <- _ <-]. right. repeat split. now exists d.
  - rewrite init_not_started. intros [= <- _ <-]. left. now repeat split.
Qed.

Section CreateFacts.
Variable MAX : Q.
Variable DTYPE_MAP : Py.dict string.
Variable cw : Server.create_env.
Variable w : Server.env.
Variable a : Server.create_args.

Lemma load_block_done i (s : Py.dict TransformerBackend.t) u s1 t1 :
  Server.load_block cw a i s = (Py.Done u, s1, t1) ->
  s1 = Py.dict_set (Server.module_uid_of (Server.prefix a) i)
                   (Server.backend_of a i) s
  /\ t1 = [LoadPretrainedBlock (Server.converted_model_name_or_path a) i]
  /\ Server.load_pretrained_block cw i = Py.Returns tt.
Proof.
  intros Hb. unfold Server.load_block in Hb. apply bind_done_inv in Hb.
  destruct Hb as (u1 & s' & t' & t'' & H1 & H2 & ->).
  apply call_done_inv in H1. destruct H1 as (Hr & -> & ->). destruct u1.
  unfold Py.modify in H2. injection H2 as _ <- <-. now repeat split.
Qed.

Lemma blocks_of_fold lo hi :
  fold_left (fun d i => Py.dict_set (Server.module_uid_of (Server.prefix a) i)
                                    (Server.backend_of a i) d)
            (Py.range2 lo hi) []
  = blocks_of a lo hi.
Proof.
  rewrite (fold_dict_set (Server.module_uid_of (Server.prefix a))
                         (Server.backend_of a)); [reflexivity|].
  cbn [Py.keys map app]. clear.
  induction (range2_NoDup lo hi) as [|i l Hi _ IH]; cbn; constructor;
    [|exact IH].
  intros Hin. apply in_map_iff in Hin. destruct Hin as (j & Hj & Hin).
  apply module_uid_of_inj in Hj. now subst j.
Qed.

(** What a call of [create] that returned a server has done. *)
Lemma create_done srv d t :
  Server.create_call MAX DTYPE_MAP cw w a = (Py.Done srv, d, t) ->
  exists lo hi t1,
    goes_well DTYPE_MAP cw a lo hi
    /\ d = blocks_of a lo hi
    /\ t = create_calls a lo hi ++ t1
    /\ let s0 := Server.fresh MAX (DHT.mk true) (blocks_of a lo hi)
                              (handlers_of a lo hi)
                              (Server.create_update_period a)
                              (Server.create_expiration a) in
       (Server.create_start a = false /\ srv = s0 /\ t1 = [])
       \/ (Server.create_start a = true
           /\ srv = Server.when_ready w (Server.with_started true s0)
           /\ t1 = [ThreadStart; ReadyWait None]
           /\ Server.thread_sets_ready w (Server.with_started true s0) = true
           /\ (exists delay, Server.ready_set_after w = Some delay)
           /\ (Server.thread_clears_ready w (Server.with_started true s0)
               && Server.ready_cleared_before_seen w)%bool = false).
Proof.
  unfold Server.create_call, Server.create. intros H.
  apply bind_done_inv in H. destruct H as (u1 & d1 & t1 & r1 & H1 & H & ->).
  assert (Hd1 : d1 = [] /\ t1 = preamble a
                /\ (Server.custom_module_path a = None
                    \/ Server.add_custom_models_from_file cw = Py.Returns tt)).
  { unfold preamble. destruct (Server.custom_module_path a) as [path|].
    - apply call_done_inv in H1. destruct H1 as (Hr & -> & ->). destruct u1.
      split; [reflexivity|]. split; [reflexivity|now right].
    - injection H1 as _ <- <-. split; [reflexivity|]. split; [reflexivity|].
      now left. }
  destruct Hd1 as (-> & -> & Hcustom). clear H1.
  apply bind_done_inv in H. destruct H as (u2 & d2 & t2 & r2 & H2 & H & ->).
  apply assert_done_inv in H2. destruct H2 as (Hxor & -> & ->).
  apply bind_done_inv in H. destruct H as (u3 & d3 & t3 & r3 & H3 & H & ->).
  apply call_done_inv in H3. destruct H3 as (Hdht & -> & ->). destruct u3.
  apply bind_done_inv in H. destruct H as (u4 & d4 & t4 & r4 & H4 & H & ->).
  injection H4 as _ <- <-.
  apply bind_done_inv in H. destruct H as (dt & d5 & t5 & r5 & H5 & H & ->).
  apply bind_done_inv in H. destruct H as (u6 & d6 & t6 & r6 & H6 & H & ->).
  apply assert_done_inv in H6. destruct H6 as (Hvalues & -> & ->).
  assert (Hd5 : d5 = [] /\ t5 = [] /\ dtype_ok DTYPE_MAP a = true).
  { unfold dtype_ok. destruct (Server.torch_dtype a) as [name|dty].
    - destruct (Py.dict_get name DTYPE_MAP); [|discriminate].
      injection H5 as <- <- <-. now repeat split.
    - injection H5 as <- <- <-. now repeat split. }
  destruct Hd5 as (-> & -> & Hdtype). clear H5.
  apply bind_done_inv in H. destruct H as (ix & d7 & t7 & r7 & H7 & H & ->).
  assert (Hix : exists lo hi, designated a lo hi /\ ix = Py.range2 lo hi
                              /\ d7 = [] /\ t7 = []).
  { unfold designated.
    destruct (Server.block_indices a) as [str|] eqn:Hbi.
    - destruct (Server.num_blocks a) as [nb|] eqn:Hnb; [discriminate Hxor|].
      destruct (Server.parse_block_indices str) as [[lo hi]|] eqn:Hp;
        [|discriminate].
      injection H7 as <- <- <-. exists lo, hi. split; [|now repeat split].
      left. now exists str.
    - destruct (Server.num_blocks a) as [nb|] eqn:Hnb; [|discriminate].
      injection H7 as <- <- <-. exists 0%Z, nb. split; [|now repeat split].
      right. now repeat split. }
  destruct Hix as (lo & hi & Hdes & -> & -> & ->). clear H7.
  apply bind_done_inv in H. destruct H as (u8 & d8 & t8 & r8 & H8 & H & ->).
  apply call_done_inv in H8. destruct H8 as (Hcfg & -> & ->). destruct u8.
  apply bind_done_inv in H. destruct H as (u9 & d9 & t9 & r9 & H9 & H & ->).
  apply (for_each_done (Server.load_block cw a)
           (fun i => Py.dict_set (Server.module_uid_of (Server.prefix a) i)
                                 (Server.backend_of a i))
           (LoadPretrainedBlock (Server.converted_model_name_or_path a))
           (fun i => Server.load_pretrained_block cw i = Py.Returns tt))
    in H9; [|apply load_block_done].
  destruct H9 as (-> & -> & Hloads). rewrite blocks_of_fold in H.
  apply bind_done_inv in H. destruct H as (bl & d10 & t10 & r10 & H10 & H & ->).
  injection H10 as <- <- <-.
  assert (Hd : d = blocks_of a lo hi).
  { unfold Server.__init__, Py.run_on, Py.bind, Py.ret in H.
    destruct (Py.when _ _ _) as [[[[]| | |] s1] tw]; cbn in H;
      try discriminate. now injection H as _ <- _. }
  apply init_done in H.
  fold (handlers_of a lo hi) in H.
  exists lo, hi, r10. split.
  { split; [exact Hcustom|]. split; [exact Hdes|]. split; [exact Hdht|].
    split; [exact Hdtype|]. split; [exact Hcfg|].
    intros i Hi. rewrite Forall_forall in Hloads. apply Hloads.
    unfold Py.range2. apply in_map_iff. exists (Z.to_nat (i - lo)).
    split; [lia|]. apply in_seq. lia. }
  split; [exact Hd|]. split.
  - unfold create_calls. rewrite <- !app_assoc. cbn [app]. reflexivity.
  - cbn zeta in *.
    destruct H as [(Hst & -> & ->)|(Hst & -> & -> & Hset & Hdelay & Hseen)];
      [left; now repeat split|right; repeat split; trivial].
Qed.
End CreateFacts.

Lemma keys_blocks_of a lo hi :
  Py.keys (blocks_of a lo hi)
  = map (Server.module_uid_of (Server.prefix a)) (Py.range2 lo hi).
Proof. unfold Py.keys, blocks_of. rewrite map_map. reflexivity. Qed.

Lemma keys_blocks_of_NoDup a lo hi : NoDup (Py.keys (blocks_of a lo hi)).
Proof.
  rewrite keys_blocks_of.
  induction (range2_NoDup lo hi) as [|i l Hi _ IH]; cbn; constructor;
    [|exact IH].
  intros Hin. apply in_map_iff in Hin. destruct Hin as (j & Hj & Hin).
  apply module_uid_of_inj in Hj. now subst j.
Qed.

Lemma create_done_backends MAX DTYPE_MAP cw w a srv d t :
  Server.create_call MAX DTYPE_MAP cw w a = (Py.Done srv, d, t) ->
  exists lo hi, designated a lo hi
                /\ Server.module_backends srv = blocks_of a lo hi
                /\ ModuleAnnouncerThread.module_backends
                     (Server.dht_handler_thread srv)
                   = blocks_of a lo hi.
Proof.
  intros H. destruct (create_done _ _ _ _ _ _ _ _ H)
    as (lo & hi & t1 & Hwell & _ & _ & Hsrv).
  exists lo, hi. split; [apply Hwell|].
  destruct Hsrv as [(_ & -> & _)|(_ & -> & _)]; [now split|].
  destruct (when_ready_keeps w
              (Server.with_started true
                 (Server.fresh MAX (DHT.mk true) (blocks_of a lo hi)
                    (handlers_of a lo hi) (Server.create_update_period a)
                    (Server.create_expiration a))))
    as (_ & Hb & _ & Ha & _).
  now split.
Qed.

(** ** [create]: the shard specification *)

(** X1.  A call of [create] that is given both [num_blocks] and
    [block_indices], or neither, returns no server and never builds the DHT;
    it raises [AssertionError], unless loading the custom modules failed
    first. *)
Theorem create_rejects_both_or_neither
        (MAX_DHT_TIME_DISCREPANCY_SECONDS : Q) (DTYPE_MAP : Py.dict string)
        (cw : Server.create_env) (w : Server.env) (a : Server.create_args)
        (Hform : Server.is_none (Server.block_indices a)
                 = Server.is_none (Server.num_blocks a)) :
  let call := Server.create_call MAX_DHT_TIME_DISCREPANCY_SECONDS DTYPE_MAP
                                 cw w a in
  (forall srv, Py.res call <> Py.Done srv)
  /\ ~ In (DhtInit true) (Py.trace call)
  /\ (Server.custom_module_path a = None
      \/ Server.add_custom_models_from_file cw = Py.Returns tt ->
      Py.res call = Py.Raised Py.AssertionError).
Proof.
  intros call. subst call. unfold Server.create_call, Server.create.
  rewrite Hform, Bool.eqb_reflx. cbn [negb Py.assert].
  unfold Py.bind, Py.raise, Py.res, Py.trace.
  destruct (Server.custom_module_path a) as [path|]; cbn.
  - destruct (Server.add_custom_models_from_file cw) as [[]|e|]; cbn;
      (split; [discriminate|]); (split; [intuition discriminate|]).
    + reflexivity.
    + intros [H|H]; discriminate.
    + intros [H|H]; discriminate.
  - split; [discriminate|]. split; [intuition|reflexivity].
Qed.

Lemma create_rejects_both_or_neither_witness :
  Py.res (Server.create_call 3 SampleCreate.dtype_map SampleCreate.loaders
            Sample.calm (SampleCreate.args (Some 2%Z) (Some "0:2"%string) false))
  = Py.Raised Py.AssertionError
  /\ Py.res (Server.create_call 3 SampleCreate.dtype_map SampleCreate.loaders
               Sample.calm (SampleCreate.args None None true))
     = Py.Raised Py.AssertionError.
Proof.
  split.
  - apply (create_rejects_both_or_neither 3 SampleCreate.dtype_map
             SampleCreate.loaders Sample.calm
             (SampleCreate.args (Some 2%Z) (Some "0:2"%string) false) eq_refl).
    now left.
  - apply (create_rejects_both_or_neither 3 SampleCreate.dtype_map
             SampleCreate.loaders Sample.calm
             (SampleCreate.args None None true) eq_refl).
    now left.
Defined.

Lemma dict_get_map {X V} (key : X -> string) (val : X -> V) (xs : list X) x :
  (forall y, In y xs -> key y = key x -> y = x) ->
  In x xs ->
  Py.dict_get (key x) (map (fun y => (key y, val y)) xs) = Some (val x).
Proof.
  induction xs as [|y xs IH]; intros Hinj Hin; [destruct Hin|].
  cbn [map Py.dict_get]. destruct (String.eqb_spec (key y) (key x)) as [E|N].
  - now rewrite (Hinj y (or_introl eq_refl) E).
  - destruct Hin as [->|Hin]; [now destruct N|].
    apply IH; [|exact Hin]. intros z Hz. apply Hinj. now right.
Qed.

Lemma dict_get_absent {V} (k : string) (d : Py.dict V) :
  ~ In k (Py.keys d) -> Py.dict_get k d = None.
Proof.
  induction d as [|[k' v] d IH]; cbn; intros Hn; [reflexivity|].
  destruct (String.eqb_spec k' k) as [->|_]; [destruct Hn; now left|].
  apply IH. intros Hin. apply Hn. now right.
Qed.

Lemma in_range2 (lo hi i : Z) : In i (Py.range2 lo hi) <-> (lo <= i < hi)%Z.
Proof.
  unfold Py.range2. rewrite in_map_iff. split.
  - intros (k & <- & Hk). apply in_seq in Hk. lia.
  - intros H. exists (Z.to_nat (i - lo)). split; [lia|]. apply in_seq. lia.
Qed.

(** X2.  The server that [create] returns hosts exactly the blocks of the
    designated range [range(lo, hi)]: their identifiers are
    [prefix.lo], ..., [prefix.(hi-1)] in this order, pairwise distinct;
    looking up [prefix.i] gives the backend built for block [i], and any
    index outside the range is not hosted.  The announcer is given the same
    dict. *)
Theorem create_hosts_designated_blocks
        (MAX_DHT_TIME_DISCREPANCY_SECONDS : Q) (DTYPE_MAP : Py.dict string)
        (cw : Server.create_env) (w : Server.env) (a : Server.create_args)
        (srv : Server.t) (d : Py.dict TransformerBackend.t) (t : list event)
        (Hcreate : Server.create_call MAX_DHT_TIME_DISCREPANCY_SECONDS
                                      DTYPE_MAP cw w a
                   = (Py.Done srv, d, t)) :
  exists lo hi,
    designated a lo hi
    /\ Py.keys (Server.module_backends srv)
       = map (Server.module_uid_of (Server.prefix a)) (Py.range2 lo hi)
    /\ NoDup (Py.keys (Server.module_backends srv))
    /\ List.length (Server.module_backends srv) = Z.to_nat (hi - lo)
    /\ (forall i, (lo <= i < hi)%Z ->
                  Py.dict_get (Server.module_uid_of (Server.prefix a) i)
                              (Server.module_backends srv)
                  = Some (Server.backend_of a i))
    /\ (forall i, ~ (lo <= i < hi)%Z ->
                  Py.dict_get (Server.module_uid_of (Server.prefix a) i)
                              (Server.module_backends srv)
                  = None)
    /\ ModuleAnnouncerThread.module_backends (Server.dht_handler_thread srv)
       = Server.module_backends srv.
Proof.
  destruct (create_done_backends _ _ _ _ _ _ _ _ Hcreate)
    as (lo & hi & Hdes & -> & ->).
  exists lo, hi. split; [exact Hdes|].
  split; [apply keys_blocks_of|]. split; [apply keys_blocks_of_NoDup|].
  split; [unfold blocks_of, Py.range2; now rewrite !length_map, length_seq|].
  split; [|split; [|reflexivity]].
  - intros i Hi. unfold blocks_of.
    apply (dict_get_map (Server.module_uid_of (Server.prefix a))
                        (Server.backend_of a)).
    + intros j _ Hj. now apply module_uid_of_inj in Hj.
    + now apply in_range2.
  - intros i Hi. apply dict_get_absent. rewrite keys_blocks_of.
    intros Hin. apply in_map_iff in Hin. destruct Hin as (j & Hj & Hin).
    apply module_uid_of_inj in Hj. subst j. now apply in_range2 in Hin.
Qed.

Lemma create_hosts_designated_blocks_witness :
  exists lo hi,
    designated (SampleCreate.args None (Some " 3 : 5 "%string) false) lo hi
    /\ Py.keys (blocks_of (SampleCreate.args None (Some " 3 : 5 "%string)
                                             false) 3 5)
       = map (Server.module_uid_of "m") (Py.range2 lo hi).
Proof.
  destruct (create_hosts_designated_blocks 3 SampleCreate.dtype_map
              SampleCreate.loaders Sample.calm
              (SampleCreate.args None (Some " 3 : 5 "%string) false)
              (Server.fresh 3 (DHT.mk true)
                 (blocks_of (SampleCreate.args None (Some " 3 : 5 "%string)
                                               false) 3 5)
                 8 30 None)
              (blocks_of (SampleCreate.args None (Some " 3 : 5 "%string)
                                            false) 3 5)
              [DhtInit true; DhtGetVisibleMaddrs; ConfigFromPretrained "bloom";
               LoadPretrainedBlock "bloom" 3; LoadPretrainedBlock "bloom" 4])
    as (lo & hi & Hdes & Hk & _).
  - vm_compute. reflexivity.
  - exists lo, hi. split; [exact Hdes|exact Hk].
Defined.

Section Forward.
Context {S E : Type}.

Lemma bind_step {A B} (m : Py.M S E A) (f : A -> Py.M S E B) s a s1 t1 r s2 t2 :
  m s = (Py.Done a, s1, t1) -> f a s1 = (r, s2, t2) ->
  Py.bind m f s = (r, s2, t1 ++ t2).
Proof. intros Hm Hf. unfold Py.bind. now rewrite Hm, Hf. Qed.

Lemma for_each_returns {X} (body : X -> Py.M S E unit) (step : X -> S -> S)
      (ev : X -> E) (xs : list X) :
  (forall x s, In x xs -> body x s = (Py.Done tt, step x s, [ev x])) ->
  forall s,
    Py.for_each xs body s
    = (Py.Done tt, fold_left (fun s x => step x s) xs s, map ev xs).
Proof.
  induction xs as [|x xs IH]; intros Hb s; cbn [Py.for_each fold_left map];
    [reflexivity|].
  unfold Py.bind at 1. rewrite (Hb x s (or_introl eq_refl)).
  rewrite IH; [reflexivity|]. intros y s' Hy. apply Hb. now right.
Qed.

(** The loop stops at the first element whose body raises. *)
Lemma for_each_raises {X} (body : X -> Py.M S E unit) (step : X -> S -> S)
      (ev : X -> E) (xs : list X) x (ys : list X) e :
  (forall y s, In y xs -> body y s = (Py.Done tt, step y s, [ev y])) ->
  (forall s, body x s = (Py.Raised e, s, [ev x])) ->
  forall s,
    Py.for_each (xs ++ x :: ys) body s
    = (Py.Raised e, fold_left (fun s y => step y s) xs s, map ev (xs ++ [x])).
Proof.
  intros Hb Hx. induction xs as [|y xs IH]; intros s;
    cbn [app Py.for_each fold_left map].
  - unfold Py.bind. now rewrite Hx.
  - unfold Py.bind at 1. rewrite (Hb y s (or_introl eq_refl)).
    rewrite IH; [reflexivity|]. intros z s' Hz. apply Hb. now right.
Qed.
End Forward.

Section CreateRuns.
Variable MAX : Q.
Variable DTYPE_MAP : Py.dict string.
Variable cw : Server.create_env.
Variable w : Server.env.
Variable a : Server.create_args.

Lemma load_block_returns i (d : Py.dict TransformerBackend.t) :
  Server.load_pretrained_block cw i = Py.Returns tt ->
  Server.load_block cw a i d
  = (Py.Done tt,
     Py.dict_set (Server.module_uid_of (Server.prefix a) i)
                 (Server.backend_of a i) d,
     [LoadPretrainedBlock (Server.converted_model_name_or_path a) i]).
Proof.
  intros H. unfold Server.load_block, Py.call, Py.bind, Py.emit, Py.of_outcome,
    Py.modify. now rewrite H.
Qed.

Lemma load_block_raises i e (d : Py.dict TransformerBackend.t) :
  Server.load_pretrained_block cw i = Py.Raises e ->
  Server.load_block cw a i d
  = (Py.Raised e, d,
     [LoadPretrainedBlock (Server.converted_model_name_or_path a) i]).
Proof.
  intros H. unfold Server.load_block, Py.call, Py.bind, Py.emit, Py.of_outcome,
    Py.modify. now rewrite H.
Qed.

(** The statements of [create] up to the loop, when nothing fails. *)
Lemma create_head (k : list Z -> Py.M (Py.dict TransformerBackend.t) event Server.t)
      lo hi :
  (Server.custom_module_path a = None
   \/ Server.add_custom_models_from_file cw = Py.Returns tt) ->
  Server.dht_init cw = Py.Returns tt ->
  dtype_ok DTYPE_MAP a = true ->
  designated a lo hi ->
  forall r d t,
    k (Py.range2 lo hi) [] = (r, d, t) ->
    (custom <- match Server.custom_module_path a with
               | Some path =>
                   Py.call (AddCustomModelsFromFile path)
                           (Server.add_custom_models_from_file cw)
               | None => Py.ret tt
               end ;;
     Py.assert (negb (Bool.eqb (Server.is_none (Server.block_indices a))
                               (Server.is_none (Server.num_blocks a)))) ;;
     Py.call (DhtInit true) (Server.dht_init cw) ;;
     Py.emit DhtGetVisibleMaddrs ;;
     torch_dtype <-
       match Server.torch_dtype a with
       | inl name =>
           match Py.dict_get name DTYPE_MAP with
           | Some d => Py.ret d
           | None => Py.raise Py.KeyError
           end
       | inr d => Py.ret d
       end ;;
     Py.assert (existsb (String.eqb torch_dtype) (Py.values DTYPE_MAP)) ;;
     block_indices <-
       match Server.block_indices a with
       | Some s =>
           match Server.parse_block_indices s with
           | Some (first_block_index, last_block_index) =>
               Py.ret (Py.range2 first_block_index last_block_index)
           | None => Py.raise Py.ValueError
           end
       | None =>
           match Server.num_blocks a with
           | Some n => Py.ret (Py.range n)
           | None => Py.raise Py.AssertionError
           end
       end ;;
     k block_indices) []
    = (r, d, preamble a ++ [DhtInit true; DhtGetVisibleMaddrs] ++ t).
Proof.
  intros Hc Hd Ht Hdes r d t Hk.
  eapply bind_step with (a := tt) (s1 := []) (t1 := preamble a).
  { unfold preamble. destruct (Server.custom_module_path a) as [path|];
      [|reflexivity].
    destruct Hc as [Hc|Hc]; [discriminate|].
    unfold Py.call, Py.bind, Py.emit, Py.of_outcome. now rewrite Hc. }
  change ([DhtInit true; DhtGetVisibleMaddrs] ++ t)
    with ([] ++ [DhtInit true] ++ [DhtGetVisibleMaddrs] ++ [] ++ [] ++ [] ++ t).
  eapply bind_step with (a := tt) (s1 := []).
  { destruct Hdes as [(str & -> & -> & _)|(-> & -> & _)]; reflexivity. }
  eapply bind_step with (a := tt) (s1 := []).
  { unfold Py.call, Py.bind, Py.emit, Py.of_outcome. now rewrite Hd. }
  eapply bind_step with (a := tt) (s1 := []); [reflexivity|].
  unfold dtype_ok in Ht.
  destruct (Server.torch_dtype a) as [name|dty].
  - destruct (Py.dict_get name DTYPE_MAP) as [dty|]; [|discriminate].
    eapply bind_step with (a := dty) (s1 := []); [reflexivity|].
    eapply bind_step with (a := tt) (s1 := []); [now rewrite Ht|].
    eapply bind_step with (s1 := []); [|exact Hk].
    destruct Hdes as [(str & Hb & Hn & Hp)|(Hb & Hn & Hl)].
    + now rewrite Hb, Hp.
    + rewrite Hb, Hn, Hl. reflexivity.
  - eapply bind_step with (a := dty) (s1 := []); [reflexivity|].
    eapply bind_step with (a := tt) (s1 := []); [now rewrite Ht|].
    eapply bind_step with (s1 := []); [|exact Hk].
    destruct Hdes as [(str & Hb & Hn & Hp)|(Hb & Hn & Hl)].
    + now rewrite Hb, Hp.
    + rewrite Hb, Hn, Hl. reflexivity.
Qed.

(** A call of [create] in which nothing fails: it ends the way building
    the [Server] object ends. *)
Lemma create_runs lo hi :
  (Server.custom_module_path a = None
   \/ Server.add_custom_models_from_file cw = Py.Returns tt) ->
  Server.dht_init cw = Py.Returns tt ->
  dtype_ok DTYPE_MAP a = true ->
  designated a lo hi ->
  Server.config_from_pretrained cw = Py.Returns tt ->
  (forall i, (lo <= i < hi)%Z ->
             Server.load_pretrained_block cw i = Py.Returns tt) ->
  let built := Server.__init__ w MAX (DHT.mk true) (blocks_of a lo hi)
                               (handlers_of a lo hi)
                               (Server.create_update_period a)
                               (Server.create_expiration a)
                               (Server.create_start a) (blocks_of a lo hi) in
  Server.create_call MAX DTYPE_MAP cw w a
  = (Py.res built, blocks_of a lo hi, create_calls a lo hi ++ Py.trace built).
Proof.
  intros Hc Hd Ht Hdes Hcfg Hload built.
  unfold Server.create_call, Server.create, create_calls.
  rewrite <- !app_assoc.
  change ([DhtInit true; DhtGetVisibleMaddrs;
           ConfigFromPretrained (Server.converted_model_name_or_path a)]
          ++ ?l)
    with ([DhtInit true; DhtGetVisibleMaddrs]
          ++ [ConfigFromPretrained (Server.converted_model_name_or_path a)]
          ++ l).
  apply (create_head _ lo hi Hc Hd Ht Hdes).
  eapply bind_step with (a := tt) (s1 := []).
  { unfold Py.call, Py.bind, Py.emit, Py.of_outcome. now rewrite Hcfg. }
  eapply bind_step with (a := tt).
  { apply (for_each_returns (Server.load_block cw a)
             (fun i => Py.dict_set (Server.module_uid_of (Server.prefix a) i)
                                   (Server.backend_of a i))
             (LoadPretrainedBlock (Server.converted_model_name_or_path a))).
    intros i d Hi. apply load_block_returns, Hload. now apply in_range2. }
  rewrite blocks_of_fold.
  change (?t = (Py.res built, blocks_of a lo hi, Py.trace built))
    with (t = (Py.res built, blocks_of a lo hi, [] ++ Py.trace built)).
  eapply bind_step; [reflexivity|].
  subst built.
  match goal with |- ?x = (Py.res ?y, _, _) => change x with y end.
  match goal with |- ?x = _ => destruct x as [[r d] t] eqn:E end.
  unfold Py.res, Py.trace. cbn [fst snd]. f_equal. f_equal.
  unfold Server.__init__, Py.run_on, Py.bind, Py.ret in E.
  destruct (Py.when _ _ _) as [[[[]| | |] s1] t1]; cbn in E;
    now injection E as _ <- _.
Qed.
End CreateRuns.

(** ** What a computation never calls *)

Section Emits.
Context {S E : Type}.
Variable P : E -> Prop.

Lemma emits_bind {A B} (m : Py.M S E A) (f : A -> Py.M S E B) :
  emits P m -> (forall a, emits P (f a)) -> emits P (Py.bind m f).
Proof.
  intros Hm Hf s. specialize (Hm s). unfold Py.bind.
  destruct (m s) as [[[a| | |] s1] t1]; unfold Py.trace in *; cbn in *;
    try exact Hm.
  specialize (Hf a s1). destruct (f a s1) as [[r s2] t2]. cbn in *.
  apply Forall_app. now split.
Qed.

Lemma emits_silent {A} (m : Py.M S E A) :
  (forall s, Py.trace (m s) = []) -> emits P m.
Proof. intros H s. rewrite H. constructor. Qed.

Lemma emits_emit (ev : E) : P ev -> emits P (@Py.emit S E ev).
Proof. intros H s. now repeat constructor. Qed.

Lemma emits_call {A} (ev : E) (o : Py.outcome A) :
  P ev -> emits P (@Py.call S E A ev o).
Proof. intros H s. unfold Py.call, Py.bind, Py.emit, Py.of_outcome, Py.trace.
       cbn. now repeat constructor. Qed.

Lemma emits_for_each {X} (xs : list X) (body : X -> Py.M S E unit) :
  (forall x, emits P (body x)) -> emits P (Py.for_each xs body).
Proof.
  intros H. induction xs as [|x xs IH]; cbn [Py.for_each].
  - now apply emits_silent.
  - apply emits_bind; auto.
Qed.

Lemma emits_run_on {S' A} (s0 : S') (m : Py.M S' E A) :
  emits P m -> emits P (Py.run_on (S := S) s0 m).
Proof.
  intros H s. specialize (H s0). unfold Py.run_on.
  destruct (m s0) as [[[a| | |] s1] t1]; exact H.
Qed.
End Emits.

Ltac silent :=
  apply emits_silent; intros ?;
  unfold Py.assert, Py.when, Py.ret, Py.raise, Py.get, Py.modify,
    Py.of_outcome;
  repeat match goal with
         | |- context [match ?x with _ => _ end] => destruct x
         end; reflexivity.

Lemma emits_weaken {S E A} (P Q : E -> Prop) (m : Py.M S E A) :
  (forall ev, P ev -> Q ev) -> emits P m -> emits Q m.
Proof. intros H Hm s. eapply Forall_impl; [exact H|apply Hm]. Qed.

Lemma create_emits MAX DTYPE_MAP cw w a :
  emits (fun ev => is_create_call ev = true \/ ev = ThreadStart
                   \/ ev = ReadyWait None)
        (Server.create MAX DTYPE_MAP cw w a).
Proof.
  unfold Server.create.
  apply emits_bind.
  { destruct (Server.custom_module_path a); [apply emits_call; now left|silent]. }
  intros _. apply emits_bind; [silent|].
  intros _. apply emits_bind; [apply emits_call; now left|].
  intros _. apply emits_bind; [apply emits_emit; now left|].
  intros _. apply emits_bind; [silent|].
  intros dty. apply emits_bind; [silent|].
  intros _. apply emits_bind; [silent|].
  intros ix. apply emits_bind; [apply emits_call; now left|].
  intros _. apply emits_bind.
  { apply emits_for_each. intros i. unfold Server.load_block.
    apply emits_bind; [apply emits_call; now left|]. intros _. silent. }
  intros _. apply emits_bind; [silent|].
  intros blocks. unfold Server.__init__.
  apply emits_bind; [|intros x; silent].
  apply emits_run_on. destruct (Server.create_start a); [|silent].
  cbn [Py.when]. unfold Server.run_in_background, Server.start,
    Server.ready_wait.
  apply emits_bind.
  - apply emits_bind; [silent|]. intros self.
    apply emits_bind; [apply emits_emit; right; now left|]. intros _. silent.
  - intros _. apply emits_bind; [|intros fired; silent].
    apply emits_bind; [silent|]. intros self.
    apply emits_bind; [apply emits_emit; right; now right|]. intros _.
    silent.
Qed.

(** X8.  Whatever its arguments and however it ends, [create] only makes
    its own calls (custom modules, DHT, configuration, blocks) and, when
    asked to start, [self.start()] and a wait on [ready] without timeout:
    it makes no call of the statements of [run], does not enter the engine,
    and makes no call of [shutdown].  So when [create] fails after it has
    built the DHT, the DHT is left running. *)
Theorem create_never_tears_down
        (MAX_DHT_TIME_DISCREPANCY_SECONDS : Q) (DTYPE_MAP : Py.dict string)
        (cw : Server.create_env) (w : Server.env) (a : Server.create_args) :
  Forall (fun ev => is_shutdown_call ev = false
                    /\ is_startup_call ev = false
                    /\ ev <> RuntimeRun)
         (Py.trace (Server.create_call MAX_DHT_TIME_DISCREPANCY_SECONDS
                                       DTYPE_MAP cw w a))
  /\ (Server.create_start a = false ->
      Forall (fun ev => is_create_call ev = true)
             (Py.trace (Server.create_call MAX_DHT_TIME_DISCREPANCY_SECONDS
                                           DTYPE_MAP cw w a))).
Proof.
  pose proof (create_emits MAX_DHT_TIME_DISCREPANCY_SECONDS DTYPE_MAP cw w a [])
    as H.
  fold (Server.create_call MAX_DHT_TIME_DISCREPANCY_SECONDS DTYPE_MAP cw w a)
    in H.
  split.
  - eapply Forall_impl; [|exact H].
    intros ev [Hev|[ -> | -> ]]; [destruct ev; try discriminate Hev| |];
      repeat split; discriminate.
  - intros Hstart. clear H. unfold Server.create_call.
    assert (H : emits (fun ev => is_create_call ev = true)
                      (Server.create MAX_DHT_TIME_DISCREPANCY_SECONDS DTYPE_MAP
                                     cw w a)); [|apply H].
    unfold Server.create. rewrite Hstart.
    apply emits_bind.
    { destruct (Server.custom_module_path a); [now apply emits_call|silent]. }
    intros _. apply emits_bind; [silent|].
    intros _. apply emits_bind; [now apply emits_call|].
    intros _. apply emits_bind; [now apply emits_emit|].
    intros _. apply emits_bind; [silent|].
    intros dty. apply emits_bind; [silent|].
    intros _. apply emits_bind; [silent|].
    intros ix. apply emits_bind; [now apply emits_call|].
    intros _. apply emits_bind.
    { apply emits_for_each. intros i. unfold Server.load_block.
      apply emits_bind; [now apply emits_call|]. intros _. silent. }
    intros _. apply emits_bind; [silent|].
    intros blocks. unfold Server.__init__.
    apply emits_bind; [|intros x; silent].
    apply emits_run_on. silent.
Qed.

Lemma create_never_tears_down_witness :
  Forall (fun ev => is_create_call ev = true)
         (Py.trace (Server.create_call 3 SampleCreate.dtype_map
                      SampleCreate.loaders Sample.calm
                      (SampleCreate.args (Some 2%Z) None false))).
Proof.
  apply (create_never_tears_down 3 SampleCreate.dtype_map SampleCreate.loaders
           Sample.calm (SampleCreate.args (Some 2%Z) None false)).
  reflexivity.
Defined.

(** ** [create]: what it builds and what it starts *)


Lemma fresh_handlers MAX dht backends n up exp :
  List.length (Server.conn_handlers (Server.fresh MAX dht backends n up exp))
  = Z.to_nat n
  /\ Forall (fun h => TransformerConnectionHandler.alive h = false)
            (Server.conn_handlers (Server.fresh MAX dht backends n up exp)).
Proof.
  cbn. unfold Py.range, Py.range2. rewrite !length_map, length_seq.
  split; [f_equal; lia|].
  apply Forall_forall. intros h Hin. apply in_map_iff in Hin.
  now destruct Hin as (z & <- & _).
Qed.

(** X3.  The handler pool of the server that [create] returns:
    [num_handlers] handlers when the argument is given (none when it is
    negative), four per hosted block otherwise, so none at all for an empty
    range; with [start=False] no handler is alive yet. *)
Theorem create_handler_pool
        (MAX_DHT_TIME_DISCREPANCY_SECONDS : Q) (DTYPE_MAP : Py.dict string)
        (cw : Server.create_env) (w : Server.env) (a : Server.create_args)
        (srv : Server.t) (d : Py.dict TransformerBackend.t) (t : list event)
        (Hcreate : Server.create_call MAX_DHT_TIME_DISCREPANCY_SECONDS
                                      DTYPE_MAP cw w a
                   = (Py.Done srv, d, t)) :
  List.length (Server.conn_handlers srv)
  = match Server.num_handlers a with
    | Some n => Z.to_nat n
    | None => 4 * List.length (Server.module_backends srv)
    end
  /\ (Server.create_start a = false ->
      Forall (fun h => TransformerConnectionHandler.alive h = false)
             (Server.conn_handlers srv))
  /\ (Server.num_handlers a = None -> Server.module_backends srv = [] ->
      Server.conn_handlers srv = []).
Proof.
  destruct (create_done _ _ _ _ _ _ _ _ Hcreate)
    as (lo & hi & t1 & _ & _ & _ & Hsrv).
  set (s0 := Server.fresh MAX_DHT_TIME_DISCREPANCY_SECONDS (DHT.mk true)
               (blocks_of a lo hi) (handlers_of a lo hi)
               (Server.create_update_period a) (Server.create_expiration a))
    in Hsrv.
  pose proof (fresh_handlers MAX_DHT_TIME_DISCREPANCY_SECONDS (DHT.mk true)
                (blocks_of a lo hi) (handlers_of a lo hi)
                (Server.create_update_period a) (Server.create_expiration a))
    as [Hlen Hall].
  fold s0 in Hlen, Hall.
  assert (Hh : List.length (Server.conn_handlers srv)
               = List.length (Server.conn_handlers s0)
               /\ Server.module_backends srv = blocks_of a lo hi
               /\ (Server.create_start a = false -> srv = s0)).
  { destruct Hsrv as [(_ & -> & _)|(Hst & -> & _)]; [now repeat split|].
    destruct (when_ready_keeps w (Server.with_started true s0))
      as (_ & Hb & _ & _ & Hl & _).
    split; [exact Hl|]. split; [exact Hb|]. congruence. }
  destruct Hh as (Hh & Hb & Hfresh). rewrite Hh, Hb.
  assert (Hn : List.length (Server.conn_handlers s0)
               = match Server.num_handlers a with
                 | Some n => Z.to_nat n
                 | None => 4 * List.length (blocks_of a lo hi)
                 end).
  { rewrite Hlen. unfold handlers_of.
    destruct (Server.num_handlers a); [reflexivity|lia]. }
  split; [exact Hn|]. split; [intros Hst; now rewrite (Hfresh Hst)|].
  intros Hnone Hempty. rewrite Hnone, Hempty in Hn. rewrite <- Hh in Hn.
  now apply length_zero_iff_nil.
Qed.

Lemma create_handler_pool_witness :
  List.length
    (Server.conn_handlers
       (Server.fresh 3 (DHT.mk true)
          (blocks_of (SampleCreate.args (Some 2%Z) None false) 0 2) 8 30 None))
  = 4 * List.length
          (Server.module_backends
             (Server.fresh 3 (DHT.mk true)
                (blocks_of (SampleCreate.args (Some 2%Z) None false) 0 2)
                8 30 None)).
Proof.
  apply (create_handler_pool 3 SampleCreate.dtype_map SampleCreate.loaders
           Sample.calm (SampleCreate.args (Some 2%Z) None false)
           (Server.fresh 3 (DHT.mk true)
              (blocks_of (SampleCreate.args (Some 2%Z) None false) 0 2)
              8 30 None)
           (blocks_of (SampleCreate.args (Some 2%Z) None false) 0 2)
           [DhtInit true; DhtGetVisibleMaddrs; ConfigFromPretrained "bloom";
            LoadPretrainedBlock "bloom" 0; LoadPretrainedBlock "bloom" 1]).
  vm_compute. reflexivity.
Defined.



(** ** [create]: the shard specification and what is started *)

(** C2, as the code has it.  A call of [create] that is given both forms
    of the shard specification, or neither, returns no server: it raises
    [AssertionError] before the DHT is built, unless loading the custom
    modules failed first.  A call that returns a server was given exactly
    one form; the server hosts one block for each index of the designated
    range [range(lo, hi)], under identifiers that are pairwise distinct;
    the range is empty when [hi <= lo], and the server then hosts
    nothing. *)
Theorem create_checks_shard_form
        (MAX_DHT_TIME_DISCREPANCY_SECONDS : Q) (DTYPE_MAP : Py.dict string)
        (cw : Server.create_env) (w : Server.env) (a : Server.create_args) :
  let call := Server.create_call MAX_DHT_TIME_DISCREPANCY_SECONDS DTYPE_MAP
                                 cw w a in
  (Server.is_none (Server.block_indices a)
   = Server.is_none (Server.num_blocks a) ->
   (forall srv, Py.res call <> Py.Done srv)
   /\ ~ In (DhtInit true) (Py.trace call)
   /\ (Server.custom_module_path a = None
       \/ Server.add_custom_models_from_file cw = Py.Returns tt ->
       Py.res call = Py.Raised Py.AssertionError))
  /\ (forall srv,
        Py.res call = Py.Done srv ->
        Server.is_none (Server.block_indices a)
        <> Server.is_none (Server.num_blocks a)
        /\ exists lo hi,
            designated a lo hi
            /\ Py.keys (Server.module_backends srv)
               = map (Server.module_uid_of (Server.prefix a))
                     (Py.range2 lo hi)
            /\ NoDup (Py.keys (Server.module_backends srv))
            /\ List.length (Server.module_backends srv) = Z.to_nat (hi - lo)
            /\ ((hi <= lo)%Z -> Server.module_backends srv = [])).
Proof.
  intros call. subst call. split.
  - intros Hform. unfold Server.create_call, Server.create.
    rewrite Hform, Bool.eqb_reflx. cbn [negb Py.assert].
    unfold Py.bind, Py.raise, Py.res, Py.trace.
    destruct (Server.custom_module_path a) as [path|]; cbn.
    + destruct (Server.add_custom_models_from_file cw) as [[]|e|]; cbn;
        (split; [discriminate|]); (split; [intuition discriminate|]).
      * reflexivity.
      * intros [H|H]; discriminate.
      * intros [H|H]; discriminate.
    + split; [discriminate|]. split; [intuition|reflexivity].
  - intros srv Hres.
    destruct (Server.create_call _ _ _ _ _) as [[r d] t] eqn:Hc.
    cbn in Hres. subst r.
    destruct (create_done_backends _ _ _ _ _ _ _ _ Hc)
      as (lo & hi & Hdes & Hb & _).
    split.
    + destruct Hdes as [(str & H1 & H2 & _)|(H1 & H2 & _)];
        rewrite H1, H2; discriminate.
    + exists lo, hi. rewrite Hb. split; [exact Hdes|].
      split; [apply keys_blocks_of|]. split; [apply keys_blocks_of_NoDup|].
      split; [unfold blocks_of, Py.range2;
              now rewrite !length_map, length_seq|].
      intros Hempty. unfold blocks_of, Py.range2.
      now replace (Z.to_nat (hi - lo)) with 0 by lia.
Qed.

Lemma create_checks_shard_form_witness :
  Py.res (Server.create_call 3 SampleCreate.dtype_map SampleCreate.loaders
            Sample.calm (SampleCreate.args (Some 2%Z) (Some "0:2"%string) false))
  = Py.Raised Py.AssertionError
  /\ (exists lo hi,
        designated (SampleCreate.args None (Some " 3 : 5 "%string) false) lo hi
        /\ Py.keys (blocks_of (SampleCreate.args None (Some " 3 : 5 "%string)
                                                 false) 3 5)
           = map (Server.module_uid_of "m") (Py.range2 lo hi)).
Proof.
  split.
  - destruct (create_checks_shard_form 3 SampleCreate.dtype_map
                SampleCreate.loaders Sample.calm
                (SampleCreate.args (Some 2%Z) (Some "0:2"%string) false))
      as [H _].
    destruct (H eq_refl) as (_ & _ & H'). apply H'. now left.
  - destruct (create_checks_shard_form 3 SampleCreate.dtype_map
                SampleCreate.loaders Sample.calm
                (SampleCreate.args None (Some " 3 : 5 "%string) false))
      as [_ H].
    destruct (H (Server.fresh 3 (DHT.mk true)
                   (blocks_of (SampleCreate.args None (Some " 3 : 5 "%string)
                                                 false) 3 5)
                   8 30 None))
      as (_ & lo & hi & Hdes & Hk & _).
    + vm_compute. reflexivity.
    + exists lo, hi. split; [exact Hdes|exact Hk].
Defined.

(** C2 as stated fails: [create] returns a server for a count of zero
    blocks, and for a range whose end is below its start; the server hosts
    no block. *)
Lemma create_returns_empty_server :
  (exists srv,
      Py.res (Server.create_call 3 SampleCreate.dtype_map SampleCreate.loaders
                Sample.calm (SampleCreate.args (Some 0%Z) None false))
      = Py.Done srv
      /\ Server.module_backends srv = [])
  /\ (exists srv,
        Py.res (Server.create_call 3 SampleCreate.dtype_map
                  SampleCreate.loaders Sample.calm
                  (SampleCreate.args None (Some "5:2"%string) false))
        = Py.Done srv
        /\ Server.module_backends srv = []).
Proof.
  split; eexists; (split; [vm_compute; reflexivity|reflexivity]).
Qed.




Lemma create_well MAX DTYPE_MAP cw w a lo hi :
  goes_well DTYPE_MAP cw a lo hi ->
  let built := Server.__init__ w MAX (DHT.mk true) (blocks_of a lo hi)
                               (handlers_of a lo hi)
                               (Server.create_update_period a)
                               (Server.create_expiration a)
                               (Server.create_start a) (blocks_of a lo hi) in
  Server.create_call MAX DTYPE_MAP cw w a
  = (Py.res built, blocks_of a lo hi, create_calls a lo hi ++ Py.trace built).
Proof.
  intros (Hc & Hdes & Hd & Ht & Hcfg & Hload). now apply create_runs.
Qed.




(** ** [create]: failures once the DHT is built *)

Section Forward2.
Context {S E : Type}.

Lemma bind_raised {A B} (m : Py.M S E A) (f : A -> Py.M S E B) s e s1 t1 :
  m s = (Py.Raised e, s1, t1) -> Py.bind m f s = (Py.Raised e, s1, t1).
Proof. intros H. unfold Py.bind. now rewrite H. Qed.
End Forward2.

Section CreateFails.
Variable MAX : Q.
Variable DTYPE_MAP : Py.dict string.
Variable cw : Server.create_env.
Variable w : Server.env.
Variable a : Server.create_args.

(** The statements of [create] up to the DHT. *)
Lemma create_upto_dht
      (k : Py.M (Py.dict TransformerBackend.t) event Server.t) :
  (Server.custom_module_path a = None
   \/ Server.add_custom_models_from_file cw = Py.Returns tt) ->
  Server.is_none (Server.block_indices a)
  <> Server.is_none (Server.num_blocks a) ->
  Server.dht_init cw = Py.Returns tt ->
  forall r d t,
    k [] = (r, d, t) ->
    (match Server.custom_module_path a with
     | Some path =>
         Py.call (AddCustomModelsFromFile path)
                 (Server.add_custom_models_from_file cw)
     | None => Py.ret tt
     end ;;
     Py.assert (negb (Bool.eqb (Server.is_none (Server.block_indices a))
                               (Server.is_none (Server.num_blocks a)))) ;;
     Py.call (DhtInit true) (Server.dht_init cw) ;;
     Py.emit DhtGetVisibleMaddrs ;;
     k) []
    = (r, d, preamble a ++ [DhtInit true; DhtGetVisibleMaddrs] ++ t).
Proof.
  intros Hc Hform Hd r d t Hk.
  eapply bind_step with (a := tt) (s1 := []) (t1 := preamble a).
  { unfold preamble. destruct (Server.custom_module_path a) as [path|];
      [|reflexivity].
    destruct Hc as [Hc|Hc]; [discriminate|].
    unfold Py.call, Py.bind, Py.emit, Py.of_outcome. now rewrite Hc. }
  change ([DhtInit true; DhtGetVisibleMaddrs] ++ t)
    with ([] ++ [DhtInit true] ++ [DhtGetVisibleMaddrs] ++ t).
  eapply bind_step with (a := tt) (s1 := []).
  { destruct (Server.is_none (Server.block_indices a)),
      (Server.is_none (Server.num_blocks a)); try reflexivity;
      now destruct Hform. }
  eapply bind_step with (a := tt) (s1 := []).
  { unfold Py.call, Py.bind, Py.emit, Py.of_outcome. now rewrite Hd. }
  eapply bind_step with (a := tt) (s1 := []); [reflexivity|exact Hk].
Qed.
End CreateFails.

(** A name of [DTYPE_MAP] passes the check on the values of the table. *)
Lemma dict_get_in_values (name : string) (DTYPE_MAP : Py.dict string) d :
  Py.dict_get name DTYPE_MAP = Some d ->
  existsb (String.eqb d) (Py.values DTYPE_MAP) = true.
Proof.
  unfold Py.values.
  induction DTYPE_MAP as [|[k v] m IH]; cbn [Py.dict_get map existsb snd];
    [discriminate|].
  destruct (String.eqb k name).
  - intros [= ->]. now rewrite String.eqb_refl.
  - intros H. rewrite (IH H). apply orb_true_r.
Qed.

(** What [create] does when a check that follows the DHT fails. *)
Lemma create_fails_at_check
      (MAX : Q) (DTYPE_MAP : Py.dict string)
      (cw : Server.create_env) (w : Server.env) (a : Server.create_args) :
  (Server.custom_module_path a = None
   \/ Server.add_custom_models_from_file cw = Py.Returns tt) ->
  Server.is_none (Server.block_indices a)
  <> Server.is_none (Server.num_blocks a) ->
  Server.dht_init cw = Py.Returns tt ->
  let call := Server.create_call MAX DTYPE_MAP cw w a in
  let built := preamble a ++ [DhtInit true; DhtGetVisibleMaddrs] in
  (exists rest, Py.trace call = built ++ rest)
  /\ (forall name,
        Server.torch_dtype a = inl name ->
        Py.dict_get name DTYPE_MAP = None ->
        call = (Py.Raised Py.KeyError, [], built))
  /\ (forall dtype,
        Server.torch_dtype a = inr dtype ->
        existsb (String.eqb dtype) (Py.values DTYPE_MAP) = false ->
        call = (Py.Raised Py.AssertionError, [], built))
  /\ (forall s,
        dtype_ok DTYPE_MAP a = true ->
        Server.block_indices a = Some s ->
        Server.parse_block_indices s = None ->
        call = (Py.Raised Py.ValueError, [], built)).
Proof.
  intros Hcustom Hform Hdht call built. subst call built.
  unfold Server.create_call, Server.create.
  split; [|split; [|split]].
  - match goal with
    | |- context [Py.emit DhtGetVisibleMaddrs ;; ?k] =>
        destruct (k []) as [[r d] t] eqn:Hk;
        rewrite (create_upto_dht cw a k Hcustom Hform Hdht r d t Hk)
    end.
    exists t. unfold Py.trace. cbn [snd]. now rewrite <- app_assoc.
  - intros name Hname Hget.
    rewrite <- (app_nil_r [DhtInit true; DhtGetVisibleMaddrs]).
    apply (create_upto_dht cw a _ Hcustom Hform Hdht).
    apply bind_raised. now rewrite Hname, Hget.
  - intros dtype Hobj Hvalues.
    rewrite <- (app_nil_r [DhtInit true; DhtGetVisibleMaddrs]).
    apply (create_upto_dht cw a _ Hcustom Hform Hdht).
    change (@nil event) with (@nil event ++ []).
    eapply bind_step with (a := dtype) (s1 := []); [now rewrite Hobj|].
    apply bind_raised. now rewrite Hvalues.
  - intros s Hdtype Hsome Hparse.
    rewrite <- (app_nil_r [DhtInit true; DhtGetVisibleMaddrs]).
    apply (create_upto_dht cw a _ Hcustom Hform Hdht).
    unfold dtype_ok in Hdtype.
    change (@nil event) with (@nil event ++ [] ++ []).
    destruct (Server.torch_dtype a) as [name|dty].
    + destruct (Py.dict_get name DTYPE_MAP) as [dty|]; [|discriminate].
      eapply bind_step with (a := dty) (s1 := []); [reflexivity|].
      eapply bind_step with (a := tt) (s1 := []); [now rewrite Hdtype|].
      apply bind_raised. now rewrite Hsome, Hparse.
    + eapply bind_step with (a := dty) (s1 := []); [reflexivity|].
      eapply bind_step with (a := tt) (s1 := []); [now rewrite Hdtype|].
      apply bind_raised. now rewrite Hsome, Hparse.
Qed.

Lemma built_loads_nothing a :
  (forall m, ~ In (ConfigFromPretrained m)
                  (preamble a ++ [DhtInit true; DhtGetVisibleMaddrs]))
  /\ (forall m i, ~ In (LoadPretrainedBlock m i)
                       (preamble a ++ [DhtInit true; DhtGetVisibleMaddrs])).
Proof.
  unfold preamble. split; [intros m Hin|intros m i Hin];
    destruct (Server.custom_module_path a); cbn in Hin;
    intuition discriminate.
Qed.

(** X7.  The checks that [create] makes after it has built the DHT.  With
    the custom modules loaded, exactly one shard form given and a DHT that
    comes up, the DHT has been built whatever follows.  A [torch_dtype]
    name that [DTYPE_MAP] does not have ends the call with [KeyError], a
    dtype object that is not among its values with [AssertionError], and
    an ASCII [block_indices] string that does not read as two integers
    around one colon with [ValueError]; each time no server is returned
    and neither the configuration nor any block has been loaded.  A name
    that [DTYPE_MAP] has always passes the dtype checks. *)
Theorem create_fails_after_dht_is_built
        (MAX_DHT_TIME_DISCREPANCY_SECONDS : Q) (DTYPE_MAP : Py.dict string)
        (cw : Server.create_env) (w : Server.env) (a : Server.create_args)
        (Hcustom : Server.custom_module_path a = None
                   \/ Server.add_custom_models_from_file cw = Py.Returns tt)
        (Hform : Server.is_none (Server.block_indices a)
                 <> Server.is_none (Server.num_blocks a))
        (Hdht : Server.dht_init cw = Py.Returns tt) :
  let call := Server.create_call MAX_DHT_TIME_DISCREPANCY_SECONDS DTYPE_MAP
                                 cw w a in
  let nothing_loaded :=
    (forall m, ~ In (ConfigFromPretrained m) (Py.trace call))
    /\ (forall m i, ~ In (LoadPretrainedBlock m i) (Py.trace call)) in
  In (DhtInit true) (Py.trace call)
  /\ (forall name,
        Server.torch_dtype a = inl name ->
        Py.dict_get name DTYPE_MAP = None ->
        Py.res call = Py.Raised Py.KeyError /\ nothing_loaded)
  /\ (forall dtype,
        Server.torch_dtype a = inr dtype ->
        existsb (String.eqb dtype) (Py.values DTYPE_MAP) = false ->
        Py.res call = Py.Raised Py.AssertionError /\ nothing_loaded)
  /\ (forall s,
        dtype_ok DTYPE_MAP a = true ->
        Server.block_indices a = Some s ->
        Py.is_ascii (list_ascii_of_string s) = true ->
        Server.parse_block_indices s = None ->
        Py.res call = Py.Raised Py.ValueError /\ nothing_loaded)
  /\ (forall name dtype,
        Server.torch_dtype a = inl name ->
        Py.dict_get name DTYPE_MAP = Some dtype ->
        dtype_ok DTYPE_MAP a = true).
Proof.
  intros call nothing_loaded. subst call nothing_loaded.
  destruct (create_fails_at_check MAX_DHT_TIME_DISCREPANCY_SECONDS DTYPE_MAP
              cw w a Hcustom Hform Hdht) as ([rest Hpre] & Hkey & Hassert & Hval).
  pose proof (built_loads_nothing a) as Hnone.
  split; [|split; [|split; [|split]]].
  - rewrite Hpre. apply in_or_app. left. apply in_or_app. right. now left.
  - intros name Hname Hget. rewrite (Hkey name Hname Hget).
    split; [reflexivity|exact Hnone].
  - intros dtype Hobj Hvalues. rewrite (Hassert dtype Hobj Hvalues).
    split; [reflexivity|exact Hnone].
  - intros s Hdtype Hsome _ Hparse. rewrite (Hval s Hdtype Hsome Hparse).
    split; [reflexivity|exact Hnone].
  - intros name dtype Hname Hget. unfold dtype_ok. rewrite Hname, Hget.
    now apply (dict_get_in_values name).
Qed.

Lemma create_fails_after_dht_is_built_witness :
  Py.res (Server.create_call 3 SampleCreate.dtype_map SampleCreate.loaders
            Sample.calm (SampleFailing.with_dtype (inl "int8"%string)))
  = Py.Raised Py.KeyError
  /\ Py.res (Server.create_call 3 SampleCreate.dtype_map SampleCreate.loaders
               Sample.calm (SampleCreate.args None (Some "0-2"%string) false))
     = Py.Raised Py.ValueError
  /\ In (DhtInit true)
        (Py.trace (Server.create_call 3 SampleCreate.dtype_map
                     SampleCreate.loaders Sample.calm
                     (SampleCreate.args None (Some "0-2"%string) false))).
Proof.
  split; [|split].
  - destruct (create_fails_after_dht_is_built 3 SampleCreate.dtype_map
                SampleCreate.loaders Sample.calm
                (SampleFailing.with_dtype (inl "int8"%string)))
      as (_ & H & _).
    + now left.
    + discriminate.
    + reflexivity.
    + now apply (H "int8"%string).
  - destruct (create_fails_after_dht_is_built 3 SampleCreate.dtype_map
                SampleCreate.loaders Sample.calm
                (SampleCreate.args None (Some "0-2"%string) false))
      as (_ & _ & _ & H & _).
    + now left.
    + discriminate.
    + reflexivity.
    + now apply (H "0-2"%string).
  - destruct (create_fails_after_dht_is_built 3 SampleCreate.dtype_map
                SampleCreate.loaders Sample.calm
                (SampleCreate.args None (Some "0-2"%string) false))
      as (H & _).
    + now left.
    + discriminate.
    + reflexivity.
    + exact H.
Defined.

Lemma map_seq_from {X} (m : nat) : forall (f : nat -> X) a,
  map f (seq a m) = map (fun k => f (a + k)) (seq 0 m).
Proof.
  induction m as [|m IH]; intros f a; cbn [seq map]; [reflexivity|].
  rewrite Nat.add_0_r. f_equal.
  rewrite (IH f (S a)), (IH (fun k => f (a + k)) 1).
  apply map_ext. intros k. f_equal. lia.
Qed.

Lemma range2_split (lo i hi : Z) :
  (lo <= i < hi)%Z ->
  Py.range2 lo hi = Py.range2 lo i ++ i :: Py.range2 (i + 1) hi.
Proof.
  intros H. unfold Py.range2.
  replace (Z.to_nat (hi - lo))
    with (Z.to_nat (i - lo) + S (Z.to_nat (hi - (i + 1)))) by lia.
  rewrite seq_app, map_app. cbn [seq map Nat.add]. f_equal. f_equal; [lia|].
  rewrite map_seq_from. apply map_ext. intros k. lia.
Qed.

Lemma range2_snoc (lo i : Z) :
  (lo <= i)%Z -> Py.range2 lo (i + 1) = Py.range2 lo i ++ [i].
Proof.
  intros H. rewrite (range2_split lo i (i + 1)) by lia. f_equal. f_equal.
  unfold Py.range2. now replace (i + 1 - (i + 1))%Z with 0%Z by lia.
Qed.

(** X9.  The loop of [create] over the block indices stops at the first
    block that cannot be loaded: its exception leaves [create], the blocks
    after it are not asked for, the local dict holds the blocks before it,
    and no server is built; the DHT started earlier is still there. *)
Theorem create_stops_at_first_missing_block
        (MAX_DHT_TIME_DISCREPANCY_SECONDS : Q) (DTYPE_MAP : Py.dict string)
        (cw : Server.create_env) (w : Server.env) (a : Server.create_args)
        (lo hi i : Z) (e : Py.exn)
        (Hcustom : Server.custom_module_path a = None
                   \/ Server.add_custom_models_from_file cw = Py.Returns tt)
        (Hdes : designated a lo hi)
        (Hdht : Server.dht_init cw = Py.Returns tt)
        (Hdtype : dtype_ok DTYPE_MAP a = true)
        (Hcfg : Server.config_from_pretrained cw = Py.Returns tt)
        (Hi : (lo <= i < hi)%Z)
        (Hbefore : forall j, (lo <= j < i)%Z ->
                             Server.load_pretrained_block cw j = Py.Returns tt)
        (Hfail : Server.load_pretrained_block cw i = Py.Raises e) :
  Server.create_call MAX_DHT_TIME_DISCREPANCY_SECONDS DTYPE_MAP cw w a
  = (Py.Raised e, blocks_of a lo i, create_calls a lo (i + 1))
  /\ ~ In (LoadPretrainedBlock (Server.converted_model_name_or_path a) (i + 1))
          (create_calls a lo (i + 1)).
Proof.
  split.
  - unfold Server.create_call, Server.create, create_calls.
    change ([DhtInit true; DhtGetVisibleMaddrs;
             ConfigFromPretrained (Server.converted_model_name_or_path a)]
            ++ ?l)
      with ([DhtInit true; DhtGetVisibleMaddrs]
            ++ [ConfigFromPretrained (Server.converted_model_name_or_path a)]
            ++ l).
    apply (create_head DTYPE_MAP cw a _ lo hi Hcustom Hdht Hdtype Hdes).
    eapply bind_step with (a := tt) (s1 := []).
    { unfold Py.call, Py.bind, Py.emit, Py.of_outcome. now rewrite Hcfg. }
    apply bind_raised.
    rewrite (range2_split lo i hi Hi), (range2_snoc lo i) by lia.
    rewrite <- (blocks_of_fold a lo i).
    apply (for_each_raises (Server.load_block cw a)
             (fun i => Py.dict_set (Server.module_uid_of (Server.prefix a) i)
                                   (Server.backend_of a i))
             (LoadPretrainedBlock (Server.converted_model_name_or_path a))).
    + intros j d Hj. apply load_block_returns, Hbefore. now apply in_range2.
    + intros d. now apply load_block_raises.
  - intros Hin. unfold create_calls, preamble in Hin.
    apply in_app_or in Hin. destruct Hin as [Hin|Hin].
    { destruct (Server.custom_module_path a); cbn in Hin;
        intuition discriminate. }
    apply in_app_or in Hin. destruct Hin as [Hin|Hin].
    { cbn in Hin. intuition discriminate. }
    apply in_map_iff in Hin. destruct Hin as (j & Hj & Hin).
    injection Hj as Hj. apply in_range2 in Hin. lia.
Qed.

Lemma create_stops_at_first_missing_block_witness :
  Server.create_call 3 SampleCreate.dtype_map SampleFailing.block_1_missing
    Sample.calm (SampleCreate.args (Some 3%Z) None true)
  = (Py.Raised (Py.Foreign "OSError"),
     blocks_of (SampleCreate.args (Some 3%Z) None true) 0 1,
     create_calls (SampleCreate.args (Some 3%Z) None true) 0 (1 + 1)).
Proof.
  apply (create_stops_at_first_missing_block 3 SampleCreate.dtype_map
           SampleFailing.block_1_missing Sample.calm
           (SampleCreate.args (Some 3%Z) None true) 0 3 1
           (Py.Foreign "OSError")).
  - now left.
  - right. now repeat split.
  - reflexivity.
  - reflexivity.
  - reflexivity.
  - lia.
  - intros j Hj. assert (j = 0%Z) as -> by lia. reflexivity.
  - reflexivity.
Defined.

(** ** Reading [block_indices] *)

Lemma list_ascii_of_string_app (s1 s2 : string) :
  list_ascii_of_string (s1 ++ s2)
  = list_ascii_of_string s1 ++ list_ascii_of_string s2.
Proof. induction s1 as [|c s1 IH]; cbn; [reflexivity|now rewrite IH]. Qed.

Lemma digits_uint (d : Decimal.uint) : forall acc b,
  d <> Decimal.Nil \/ b = true ->
  Py.digits acc b (list_ascii_of_string (NilEmpty.string_of_uint d))
  = Some (uint_value acc d).
Proof.
  induction d as [|d IH|d IH|d IH|d IH|d IH|d IH|d IH|d IH|d IH|d IH];
    intros acc b H;
    cbn [NilEmpty.string_of_uint list_ascii_of_string Py.digits uint_value].
  - destruct H as [H| ->]; [now destruct H|reflexivity].
  - change (Py.digit_of "0") with (Some 0%Z). apply IH. now right.
  - change (Py.digit_of "1") with (Some 1%Z). apply IH. now right.
  - change (Py.digit_of "2") with (Some 2%Z). apply IH. now right.
  - change (Py.digit_of "3") with (Some 3%Z). apply IH. now right.
  - change (Py.digit_of "4") with (Some 4%Z). apply IH. now right.
  - change (Py.digit_of "5") with (Some 5%Z). apply IH. now right.
  - change (Py.digit_of "6") with (Some 6%Z). apply IH. now right.
  - change (Py.digit_of "7") with (Some 7%Z). apply IH. now right.
  - change (Py.digit_of "8") with (Some 8%Z). apply IH. now right.
  - change (Py.digit_of "9") with (Some 9%Z). apply IH. now right.
Qed.

Lemma uint_value_pos (d : Decimal.uint) : forall p,
  uint_value (Z.pos p) d = Z.pos (Pos.of_uint_acc d p).
Proof.
  induction d as [|d IH|d IH|d IH|d IH|d IH|d IH|d IH|d IH|d IH|d IH];
    intros p; cbn [uint_value Pos.of_uint_acc]; [reflexivity|..];
    rewrite <- IH; f_equal; lia.
Qed.

Lemma uint_value_zero (d : Decimal.uint) :
  uint_value 0 d = Z.of_N (Pos.of_uint d).
Proof.
  induction d as [|d IH|d IH|d IH|d IH|d IH|d IH|d IH|d IH|d IH|d IH];
    cbn [uint_value Pos.of_uint]; [reflexivity|exact IH|..];
    cbn [Z.mul Z.add Z.of_N]; apply uint_value_pos.
Qed.

Lemma uint_chars_plain (d : Decimal.uint) :
  Forall plain (list_ascii_of_string (NilEmpty.string_of_uint d)).
Proof.
  induction d; cbn [NilEmpty.string_of_uint list_ascii_of_string];
    constructor; try assumption; split; (reflexivity || discriminate).
Qed.

Lemma str_chars_plain (z : Z) :
  Forall plain (list_ascii_of_string (Py.str z)).
Proof.
  unfold Py.str, NilZero.string_of_int, NilZero.string_of_uint.
  destruct (Z.to_int z) as [d|d]; cbn [list_ascii_of_string].
  - destruct d; try apply uint_chars_plain.
    repeat constructor; discriminate.
  - constructor; [split; [reflexivity|discriminate]|].
    destruct d; try apply uint_chars_plain.
    repeat constructor; discriminate.
Qed.

Lemma lstrip_plain (cs : list ascii) : Forall plain cs -> Py.lstrip cs = cs.
Proof.
  intros H. destruct H as [|c cs [Hc _] _]; cbn; [reflexivity|].
  now rewrite Hc.
Qed.

Lemma strip_plain (cs : list ascii) : Forall plain cs -> Py.strip cs = cs.
Proof.
  intros H. unfold Py.strip. rewrite (lstrip_plain cs H).
  rewrite lstrip_plain by now apply Forall_rev. apply rev_involutive.
Qed.

(** [int(str(z))] is [z]. *)
Lemma int_str (z : Z) : Py.int (list_ascii_of_string (Py.str z)) = Some z.
Proof.
  unfold Py.int. rewrite (strip_plain _ (str_chars_plain z)).
  unfold Py.str. destruct z as [|p|p]; [reflexivity| |];
    cbn [Z.to_int NilZero.string_of_int];
    pose proof (DecimalPos.Unsigned.to_uint_nonnil p) as Hnil;
    pose proof (DecimalPos.Unsigned.of_to p) as Hp;
    unfold NilZero.string_of_uint.
  - assert (Hd : Py.digits 0 false
                   (list_ascii_of_string
                      (NilEmpty.string_of_uint (Pos.to_uint p)))
                 = Some (Z.pos p)).
    { rewrite digits_uint by now left. now rewrite uint_value_zero, Hp. }
    destruct (Pos.to_uint p); [now destruct Hnil|..]; exact Hd.
  - assert (Hd : Py.digits 0 false
                   (list_ascii_of_string
                      (NilEmpty.string_of_uint (Pos.to_uint p)))
                 = Some (Z.pos p)).
    { rewrite digits_uint by now left. now rewrite uint_value_zero, Hp. }
    destruct (Pos.to_uint p); [now destruct Hnil|..];
      cbn [list_ascii_of_string]; now rewrite Hd.
Qed.

Lemma split_from_plain (sep : ascii) (xs : list ascii) :
  Forall (fun c => c <> sep) xs ->
  forall cur,
    (forall rest, Py.split_from sep cur (xs ++ sep :: rest)
                  = rev (rev xs ++ cur) :: Py.split_from sep [] rest)
    /\ Py.split_from sep cur xs = [rev (rev xs ++ cur)].
Proof.
  induction 1 as [|c xs Hc _ IH]; intros cur; cbn [app Py.split_from rev].
  - split; [|reflexivity]. intros rest. now rewrite Ascii.eqb_refl.
  - apply Ascii.eqb_neq in Hc. rewrite Hc.
    destruct (IH (c :: cur)) as [IH1 IH2].
    rewrite <- !app_assoc. cbn [app]. split; [exact IH1|exact IH2].
Qed.

(** [f"{lo}:{hi}"] is read back as [(lo, hi)]. *)
Lemma parse_block_indices_str (lo hi : Z) :
  Server.parse_block_indices (Py.str lo ++ ":" ++ Py.str hi) = Some (lo, hi).
Proof.
  unfold Server.parse_block_indices, Py.split.
  rewrite list_ascii_of_string_app. cbn [append list_ascii_of_string].
  assert (Hsep : forall z, Forall (fun c => c <> ":"%char)
                                  (list_ascii_of_string (Py.str z))).
  { intros z. eapply Forall_impl; [|apply str_chars_plain].
    now intros c [_ Hc]. }
  destruct (split_from_plain ":" _ (Hsep lo) []) as [-> _].
  destruct (split_from_plain ":" _ (Hsep hi) []) as [_ ->].
  rewrite !app_nil_r, !rev_involutive.
  rewrite !strip_plain by apply str_chars_plain.
  now rewrite !int_str.
Qed.

Lemma length_split_from (sep : ascii) (cs : list ascii) : forall cur,
  List.length (Py.split_from sep cur cs) = S (count_occ ascii_dec cs sep).
Proof.
  induction cs as [|c cs IH]; intros cur; cbn [Py.split_from]; [reflexivity|].
  destruct (Ascii.eqb_spec c sep) as [->|Hne].
  - rewrite count_occ_cons_eq by reflexivity. cbn [List.length]. now rewrite IH.
  - rewrite count_occ_cons_neq by exact Hne. apply IH.
Qed.

(** X11.  [block_indices] is accepted only with exactly one colon: a
    string without a colon, or with two or more, does not parse (and
    [create] raises [ValueError] for it). *)
Theorem block_indices_needs_one_colon (s : string)
        (Hcolons : count_occ ascii_dec (list_ascii_of_string s) ":"%char <> 1) :
  Server.parse_block_indices s = None.
Proof.
  unfold Server.parse_block_indices, Py.split.
  pose proof (length_split_from ":"%char (list_ascii_of_string s) []) as Hlen.
  destruct (Py.split_from ":"%char [] (list_ascii_of_string s))
    as [|p1 [|p2 [|p3 ps]]]; try reflexivity.
  cbn [List.length] in Hlen. injection Hlen as Hlen.
  now destruct Hcolons.
Qed.

Lemma block_indices_needs_one_colon_witness :
  Server.parse_block_indices "0:2:4"%string = None
  /\ Server.parse_block_indices "5"%string = None.
Proof.
  split.
  - apply block_indices_needs_one_colon. vm_compute. discriminate.
  - apply block_indices_needs_one_colon. vm_compute. discriminate.
Defined.

(** X10.  A [block_indices] string written as [f"{lo}:{hi}"] is read back
    as the pair [(lo, hi)], whatever the two integers, negative ones
    included; and the two forms of the shard specification agree: [create]
    called with [num_blocks=n] does exactly what it does when called with
    [block_indices=f"0:{n}"], all other arguments being the same (same
    result, same blocks, same calls in the same order). *)
Theorem create_count_is_range_from_zero
        (MAX_DHT_TIME_DISCREPANCY_SECONDS : Q) (DTYPE_MAP : Py.dict string)
        (cw : Server.create_env) (w : Server.env) (a : Server.create_args)
        (lo hi n : Z) :
  Server.parse_block_indices (Py.str lo ++ ":" ++ Py.str hi) = Some (lo, hi)
  /\ Server.create_call MAX_DHT_TIME_DISCREPANCY_SECONDS DTYPE_MAP cw w
                        (with_shard (Some n) None a)
     = Server.create_call MAX_DHT_TIME_DISCREPANCY_SECONDS DTYPE_MAP cw w
                          (with_shard None
                                      (Some (Py.str 0 ++ ":" ++ Py.str n)%string)
                                      a).
Proof.
  split; [apply parse_block_indices_str|].
  unfold Server.create_call, Server.create, with_shard.
  cbn [Server.block_indices Server.num_blocks].
  rewrite (parse_block_indices_str 0 n).
  reflexivity.
Qed.

(** ** [run]: the DHT and the announcer *)

Lemma startup_trace_head w s :
  exists rest,
    Py.trace (Server.startup w s)
    = DhtIsAlive (DHT.alive (Server.dht s))
      :: (if DHT.alive (Server.dht s) then [] else [DhtRunInBackground])
      ++ rest.
Proof.
  pose proof (startup_obs w s) as Hobs. unfold Py.obs in Hobs.
  apply (f_equal snd) in Hobs. cbn [snd] in Hobs. rewrite Hobs.
  unfold startup_calls. cbn [app play answer].
  destruct (DHT.alive (Server.dht s)); cbn [app play answer].
  - match goal with |- context [play ?a ?l] => destruct (play a l) as [r t] end.
    now exists t.
  - destruct (Server.dht_run_in_background w) as [[]|e|].
    + match goal with |- context [play ?a ?l] => destruct (play a l) as [r t]
      end.
      now exists t.
    + now exists [].
    + now exists [].
Qed.

Lemma run_trace_head_startup w s :
  exists rest,
    Py.trace (Server.run w s) = Py.trace (Server.startup w s) ++ rest.
Proof. destruct (run_trace_split w s) as (t2 & H & _). now exists t2. Qed.

Lemma startup_calls_dht_alive s :
  DHT.alive (Server.dht s) = true -> ~ In DhtRunInBackground (startup_calls s).
Proof.
  intros Ha Hin. unfold startup_calls in Hin. rewrite Ha in Hin.
  cbn [app] in Hin. destruct Hin as [Hin|Hin]; [discriminate|].
  apply in_app_or in Hin. destruct Hin as [Hin|Hin].
  { destruct (Py.truthy (Server.module_backends s)); cbn in Hin;
      intuition discriminate. }
  apply in_app_or in Hin. destruct Hin as [Hin|Hin].
  { destruct (Server.checkpoint_saver s); cbn in Hin; intuition discriminate. }
  apply in_flat_map in Hin. destruct Hin as (i & _ & Hin).
  unfold handler_calls in Hin.
  destruct (Server.handler_alive s i); cbn in Hin; intuition discriminate.
Qed.

Lemma run_no_dht_start w s :
  DHT.alive (Server.dht s) = true ->
  ~ In DhtRunInBackground (Py.trace (Server.run w s)).
Proof.
  intros Ha Hin. destruct (run_trace_split w s) as (t2 & Hrun & Ht2).
  rewrite Hrun in Hin. apply in_app_or in Hin. destruct Hin as [Hin|Hin].
  - destruct (startup_trace_prefix w s) as [rest Hpre].
    apply (startup_calls_dht_alive s Ha). rewrite Hpre.
    apply in_or_app. now left.
  - rewrite Forall_forall in Ht2. now specialize (Ht2 _ Hin).
Qed.

(** X12.  [run] first asks the DHT whether it is alive and starts it only
    when it is not: a DHT that is alive is never started again, one that is
    not is started before anything else, and when that fails [run] ends
    with the exception, having started nothing.  In particular the server
    that [create] returns never restarts its DHT in [run]. *)
Theorem run_starts_dht_only_if_down (w : Server.env) (s : Server.t) :
  (exists rest,
      Py.trace (Server.run w s)
      = DhtIsAlive (DHT.alive (Server.dht s)) :: rest)
  /\ (DHT.alive (Server.dht s) = true ->
      ~ In DhtRunInBackground (Py.trace (Server.run w s)))
  /\ (DHT.alive (Server.dht s) = false ->
      (exists rest,
          Py.trace (Server.run w s)
          = DhtIsAlive false :: DhtRunInBackground :: rest)
      /\ forall e,
          Server.dht_run_in_background w = Py.Raises e ->
          Server.run w s
          = (Py.Raised e, s, [DhtIsAlive false; DhtRunInBackground]))
  /\ (forall MAX DTYPE_MAP cw w0 a d t,
        Server.create_call MAX DTYPE_MAP cw w0 a = (Py.Done s, d, t) ->
        ~ In DhtRunInBackground (Py.trace (Server.run w s))).
Proof.
  destruct (startup_trace_head w s) as [r1 H1].
  destruct (run_trace_head_startup w s) as [r2 H2].
  split; [|split; [|split]].
  - rewrite H2, H1. cbn [app]. now eexists.
  - apply run_no_dht_start.
  - intros Ha. split.
    + rewrite H2, H1, Ha. cbn [app]. now eexists.
    + intros e He.
      assert (Hs : Server.startup w s
                   = (Py.Raised e, s, [DhtIsAlive false; DhtRunInBackground])).
      { unfold Server.startup, Server.start_dht.
        unfold Py.bind at 1. unfold Py.bind at 1. unfold Py.get at 1.
        unfold Py.bind at 1. unfold Py.emit at 1.
        rewrite Ha. cbn [negb Py.when].
        unfold Py.bind at 1. unfold Py.call, Py.bind, Py.emit, Py.of_outcome.
        now rewrite He. }
      rewrite run_startup_fails; [exact Hs|]. rewrite Hs. discriminate.
  - intros MAX DTYPE_MAP cw w0 a d t Hc. apply run_no_dht_start.
    destruct (create_done _ _ _ _ _ _ _ _ Hc)
      as (lo & hi & t1 & _ & _ & _ & [(_ & -> & _)|(_ & -> & _)]);
      [reflexivity|].
    now apply when_ready_keeps.
Qed.

Lemma run_starts_dht_only_if_down_witness :
  ~ In DhtRunInBackground (Py.trace (Server.run Sample.calm Sample.server)).
Proof.
  apply (run_starts_dht_only_if_down Sample.calm Sample.server). reflexivity.
Defined.

Lemma startup_calls_no_blocks s :
  Server.module_backends s = [] ->
  Forall (fun ev => on_announcer ev = false) (startup_calls s).
Proof.
  intros Hb. unfold startup_calls. rewrite Hb. cbn [Py.truthy].
  apply Forall_app; split; [|apply Forall_app; split;
                             [|apply Forall_app; split;
                               [|apply Forall_app; split]]].
  - now repeat constructor.
  - destruct (DHT.alive (Server.dht s)); now repeat constructor.
  - constructor.
  - destruct (Server.checkpoint_saver s); now repeat constructor.
  - apply Forall_flat_map, Forall_forall. intros i _. unfold handler_calls.
    destruct (Server.handler_alive s i); now repeat constructor.
Qed.

Lemma shutdown_calls_no_blocks s :
  Server.module_backends s = [] ->
  Forall (fun ev => on_announcer ev = false) (shutdown_calls s).
Proof.
  intros Hb. unfold shutdown_calls. rewrite Hb. cbn [Py.truthy].
  apply Forall_app; split; [|apply Forall_app; split;
                             [|apply Forall_app; split;
                               [|apply Forall_app; split]]].
  - now repeat constructor.
  - apply Forall_flat_map, Forall_forall. intros i _. now repeat constructor.
  - constructor.
  - destruct (Server.checkpoint_saver s); now repeat constructor.
  - now repeat constructor.
Qed.

Lemma shutdown_calls_join s :
  In AnnouncerJoin (shutdown_calls s) ->
  Py.truthy (Server.module_backends s) = true.
Proof.
  intros Hin. destruct (Server.module_backends s) as [|b bs] eqn:Hb;
    [|reflexivity].
  pose proof (shutdown_calls_no_blocks s Hb) as H.
  rewrite Forall_forall in H. now specialize (H _ Hin).
Qed.

Lemma engine_state_backends w s :
  Server.module_backends (engine_state w s) = Server.module_backends s.
Proof. unfold engine_state. now destruct (Server.runtime_sets_ready w). Qed.

(** How the trace of [run] is made up, whatever happens. *)
Lemma run_cases w s :
  (Server.run w s = Server.startup w s
   /\ forall u, Py.res (Server.startup w s) <> Py.Done u)
  \/ (exists s1,
         Server.startup w s = (Py.Done tt, s1, startup_calls s)
         /\ Forall (fun ev => answer w s ev = Py.Returns tt) (startup_calls s)
         /\ Server.module_backends s1 = Server.module_backends s
         /\ (Py.trace (Server.run w s) = startup_calls s ++ engine_calls w
             \/ Py.trace (Server.run w s)
                = startup_calls s ++ engine_calls w
                  ++ Py.trace (Server.shutdown w (engine_state w s1)))).
Proof.
  destruct (Server.startup w s) as [[r s1] t1] eqn:Hs.
  destruct r as [[]| | |].
  2-4: left; split; [|cbn; discriminate];
       rewrite run_startup_fails by (rewrite Hs; cbn; discriminate);
       exact Hs.
  right. exists s1.
  destruct (startup_done w s tt) as (Ht & Hall & Hst);
    [now rewrite Hs|].
  rewrite Hs in Ht, Hst. cbn in Ht, Hst. subst t1.
  split; [reflexivity|]. split; [exact Hall|].
  split; [apply Hst|].
  destruct (Server.runtime_run w) as [[]| |] eqn:Hr.
  3: { left. now rewrite (run_engine_hangs w s s1 _ Hs Hr). }
  all: right; rewrite (run_engine_ends w s s1 _ Hs) by (rewrite Hr; discriminate);
    reflexivity.
Qed.

Lemma run_no_blocks w s :
  Server.module_backends s = [] ->
  Forall (fun ev => on_announcer ev = false) (Py.trace (Server.run w s)).
Proof.
  intros Hb.
  destruct (run_cases w s) as [[Hrun _]|(s1 & Hs & _ & Hb1 & Ht)].
  - rewrite Hrun. destruct (startup_trace_prefix w s) as [rest Hpre].
    apply Forall_prefix with (l2 := rest). rewrite <- Hpre.
    now apply startup_calls_no_blocks.
  - assert (He : Forall (fun ev => on_announcer ev = false) (engine_calls w)).
    { unfold engine_calls. destruct (Server.runtime_sets_ready w);
        now repeat constructor. }
    destruct Ht as [-> | ->]; apply Forall_app;
      (split; [now apply startup_calls_no_blocks|]); [exact He|].
    apply Forall_app. split; [exact He|].
    destruct (shutdown_trace_prefix w (engine_state w s1)) as [rest Hpre].
    apply Forall_prefix with (l2 := rest). rewrite <- Hpre.
    apply shutdown_calls_no_blocks.
    now rewrite engine_state_backends, Hb1.
Qed.

(** X13.  The announcer is guarded by the hosted blocks.  A server that
    hosts no block never starts, stops or joins its announcer, neither in
    [run] nor in [shutdown].  And whenever [run] joins the announcer, it
    has started it before, in the same [run]: the join made from [run]
    never meets a thread that was not started. *)
Theorem announcer_guarded_by_blocks (w : Server.env) (s : Server.t) :
  (Server.module_backends s = [] ->
   Forall (fun ev => on_announcer ev = false) (Py.trace (Server.run w s))
   /\ Forall (fun ev => on_announcer ev = false)
             (Py.trace (Server.shutdown w s)))
  /\ (forall pre post,
        Py.trace (Server.run w s) = pre ++ AnnouncerJoin :: post ->
        In AnnouncerStart pre
        /\ ModuleAnnouncerThread.started (Server.dht_handler_thread s) = false).
Proof.
  assert (Hstartup : forall l, Forall (fun ev => is_startup_call ev = true) l ->
                               ~ In AnnouncerJoin l).
  { intros l Hl Hin. rewrite Forall_forall in Hl. now specialize (Hl _ Hin). }
  assert (Hengine : ~ In AnnouncerJoin (engine_calls w)).
  { unfold engine_calls. destruct (Server.runtime_sets_ready w); cbn;
      intuition discriminate. }
  split.
  - intros Hb. split; [now apply run_no_blocks|].
    destruct (shutdown_trace_prefix w s) as [rest Hpre].
    apply Forall_prefix with (l2 := rest). rewrite <- Hpre.
    now apply shutdown_calls_no_blocks.
  - intros pre post Htrace.
    destruct (run_cases w s) as [[Hrun _]|(s1 & Hs & Hall & Hb1 & Ht)].
    + exfalso. apply (Hstartup (Py.trace (Server.run w s))).
      * rewrite Hrun. apply startup_trace_kind.
      * rewrite Htrace. apply in_elt.
    + destruct Ht as [Ht|Ht]; rewrite Ht in Htrace.
      * exfalso.
        assert (Hin : In AnnouncerJoin (startup_calls s ++ engine_calls w))
          by (rewrite Htrace; apply in_elt).
        apply in_app_or in Hin. destruct Hin as [Hin|Hin]; [|now apply Hengine].
        now apply (Hstartup _ (startup_calls_kind s)).
      * destruct (split_right _ _ _ _ _ Htrace
                    (Hstartup _ (startup_calls_kind s))) as (q & -> & Hq).
        assert (Hin : In AnnouncerJoin
                         (Py.trace (Server.shutdown w (engine_state w s1)))).
        { assert (H : In AnnouncerJoin (q ++ AnnouncerJoin :: post))
            by apply in_elt.
          rewrite <- Hq in H. apply in_app_or in H.
          destruct H as [H|H]; [now destruct (Hengine H)|exact H]. }
        destruct (shutdown_trace_prefix w (engine_state w s1)) as [rest Hpre].
        assert (Htruthy : Py.truthy (Server.module_backends s) = true).
        { rewrite <- Hb1, <- (engine_state_backends w s1).
          apply shutdown_calls_join. rewrite Hpre. apply in_or_app. now left. }
        assert (Hstart : In AnnouncerStart (startup_calls s)).
        { unfold startup_calls. rewrite Htruthy.
          apply in_or_app. right. apply in_or_app. right.
          apply in_or_app. left. now left. }
        split; [apply in_or_app; now left|].
        rewrite Forall_forall in Hall. specialize (Hall _ Hstart).
        cbn in Hall.
        now destruct (ModuleAnnouncerThread.started
                        (Server.dht_handler_thread s)).
Qed.

Lemma announcer_guarded_by_blocks_witness :
  In AnnouncerStart [DhtIsAlive true; AnnouncerStart; HandlerIsAlive 0 false;
                     HandlerStart 0; HandlerReadyResult 0;
                     HandlerIsAlive 1 false; HandlerStart 1;
                     HandlerReadyResult 1; RuntimeRun; RuntimeReadySet;
                     ReadyClear; HandlerTerminate 0; HandlerJoin 0;
                     HandlerTerminate 1; HandlerJoin 1; AnnouncerStopSet]
  /\ ModuleAnnouncerThread.started (Server.dht_handler_thread Sample.server)
     = false.
Proof.
  apply (announcer_guarded_by_blocks Sample.calm Sample.server)
    with (post := [DhtShutdown; DhtJoin; RuntimeShutdown]).
  vm_compute. reflexivity.
Defined.

(** ** [shutdown] before [run] *)

Lemma play_barrier (ans : event -> Py.outcome unit) (ev : event)
      (post : list event) :
  (forall u, ans ev <> Py.Returns u) ->
  forall pre,
    (forall u, fst (play ans (pre ++ ev :: post)) <> Py.Done u)
    /\ exists rest, pre ++ [ev] = snd (play ans (pre ++ ev :: post)) ++ rest.
Proof.
  intros Hev. induction pre as [|x pre [IH1 [rest IH2]]]; cbn [app play].
  - destruct (ans ev) as [u|e|] eqn:E; [now destruct (Hev u)| |];
      (split; [discriminate|now exists []]).
  - destruct (ans x) as [u|e|].
    + destruct (play ans (pre ++ ev :: post)) as [r t]. cbn [fst snd] in *.
      split; [exact IH1|]. exists rest. cbn [app]. now rewrite IH2.
    + split; [discriminate|]. exists (pre ++ [ev]). reflexivity.
    + split; [discriminate|]. exists (pre ++ [ev]). reflexivity.
Qed.

Lemma play_raises_at (ans : event -> Py.outcome unit) (ev : event)
      (post : list event) e :
  ans ev = Py.Raises e ->
  forall pre,
    Forall (fun x => ans x = Py.Returns tt) pre ->
    play ans (pre ++ ev :: post) = (Py.Raised e, pre ++ [ev]).
Proof.
  intros Hev. induction pre as [|x pre IH]; intros Hpre; cbn [app play].
  - now rewrite Hev.
  - inversion Hpre as [|? ? Hx Hrest]; subst. rewrite Hx, (IH Hrest).
    reflexivity.
Qed.

Lemma shutdown_calls_with_blocks s :
  Server.module_backends s <> [] ->
  exists post,
    shutdown_calls s = before_announcer_join s ++ AnnouncerJoin :: post.
Proof.
  intros Hb. unfold shutdown_calls, before_announcer_join.
  destruct (Server.module_backends s); [now destruct Hb|]. cbn [Py.truthy].
  eexists. rewrite <- !app_assoc. cbn [app]. reflexivity.
Qed.

(** X14.  [shutdown] called on a server that hosts blocks and whose
    announcer was never started (a server that was built but whose [run]
    did not get to start it) cannot complete: joining the announcer raises
    [RuntimeError] at the latest, so the DHT and the Runtime are never shut
    down by this call.  When the handlers terminate and join without
    failure, the call makes exactly the calls up to that join and raises
    [RuntimeError]. *)
Theorem shutdown_before_run_raises (w : Server.env) (s : Server.t)
        (Hnew : ModuleAnnouncerThread.started (Server.dht_handler_thread s)
                = false)
        (Hblocks : Server.module_backends s <> []) :
  (forall u, Py.res (Server.shutdown w s) <> Py.Done u)
  /\ ~ In DhtShutdown (Py.trace (Server.shutdown w s))
  /\ ~ In RuntimeShutdown (Py.trace (Server.shutdown w s))
  /\ ((forall i, i < List.length (Server.conn_handlers s) ->
                 Server.handler_terminate w i = Py.Returns tt
                 /\ Server.handler_join w i = Py.Returns tt) ->
      Py.obs (Server.shutdown w s)
      = (Py.Raised Py.RuntimeError,
         before_announcer_join s ++ [AnnouncerJoin])).
Proof.
  destruct (shutdown_calls_with_blocks s Hblocks) as [post Hcalls].
  pose proof (shutdown_obs w s) as Hobs. rewrite Hcalls in Hobs.
  assert (Hjoin : answer w s AnnouncerJoin = Py.Raises Py.RuntimeError).
  { cbn. now rewrite Hnew. }
  destruct (play_barrier (answer w s) AnnouncerJoin post) with
    (pre := before_announcer_join s) as [Hres [rest Hrest]].
  { intros u. rewrite Hjoin. discriminate. }
  unfold Py.obs in Hobs.
  assert (Hr : Py.res (Server.shutdown w s)
               = fst (play (answer w s)
                           (before_announcer_join s ++ AnnouncerJoin :: post)))
    by now rewrite <- Hobs.
  assert (Ht : Py.trace (Server.shutdown w s)
               = snd (play (answer w s)
                           (before_announcer_join s ++ AnnouncerJoin :: post)))
    by now rewrite <- Hobs.
  assert (Hnot : forall ev, In ev (before_announcer_join s ++ [AnnouncerJoin]) ->
                            ev <> DhtShutdown /\ ev <> RuntimeShutdown).
  { intros ev Hin. unfold before_announcer_join in Hin.
    rewrite <- !app_assoc in Hin. cbn [app] in Hin.
    destruct Hin as [<-|Hin]; [split; discriminate|].
    apply in_app_or in Hin. destruct Hin as [Hin|Hin].
    - apply in_flat_map in Hin. destruct Hin as (i & _ & [<-|[<-|[]]]);
        split; discriminate.
    - destruct Hin as [<-|[<-|[]]]; split; discriminate. }
  split; [now rewrite Hr|]. split; [|split].
  - intros Hin. rewrite Ht in Hin.
    destruct (Hnot DhtShutdown) as [H _]; [|now apply H].
    rewrite Hrest. apply in_or_app. now left.
  - intros Hin. rewrite Ht in Hin.
    destruct (Hnot RuntimeShutdown) as [_ H]; [|now apply H].
    rewrite Hrest. apply in_or_app. now left.
  - intros Hh. unfold Py.obs. rewrite Hr, Ht.
    rewrite (play_raises_at (answer w s) AnnouncerJoin post Py.RuntimeError
               Hjoin); [reflexivity|].
    unfold before_announcer_join.
    apply Forall_app. split; [now repeat constructor|].
    apply Forall_app. split; [|now repeat constructor].
    apply Forall_flat_map, Forall_forall. intros i Hi. apply in_seq in Hi.
    destruct (Hh i ltac:(lia)) as [H1 H2]. now repeat constructor.
Qed.

Lemma shutdown_before_run_raises_witness :
  Py.obs (Server.shutdown Sample.calm Sample.server)
  = (Py.Raised Py.RuntimeError,
     before_announcer_join Sample.server ++ [AnnouncerJoin]).
Proof.
  apply (shutdown_before_run_raises Sample.calm Sample.server).
  - reflexivity.
  - discriminate.
  - intros i _. split; reflexivity.
Defined.

(** ** [run_in_background] without a bound *)

(** X15.  [run_in_background(await_ready=False)] launches the thread and
    returns at once, without looking at [ready].  A second call, whatever
    its arguments, raises [RuntimeError] when it tries to launch the thread
    again, before any wait.  With [await_ready=True] and no timeout, on a
    server whose [ready] is clear, the call stays blocked when the thread
    never sets [ready] while the caller waits; it returns when the thread
    sets [ready] and the caller reads it set; and it raises [TimeoutError],
    although there is no timeout, when the thread sets [ready] and clears
    it again before the woken caller has read it. *)
Theorem run_in_background_unbounded (w : Server.env) (s : Server.t) :
  (Server.started s = false ->
   forall timeout,
     Py.obs (Server.run_in_background w false timeout s)
     = (Py.Done tt, [ThreadStart])
     /\ Server.started
          (Py.final (Server.run_in_background w false timeout s))
        = true)
  /\ (Server.started s = true ->
      forall await_ready timeout,
        Py.obs (Server.run_in_background w await_ready timeout s)
        = (Py.Raised Py.RuntimeError, [ThreadStart]))
  /\ (Server.started s = false -> Server.ready s = false ->
      Py.obs (Server.run_in_background w true None s)
      = (if Server.thread_sets_ready w (Server.with_started true s)
         then match Server.ready_set_after w with
              | Some _ =>
                  if (Server.thread_clears_ready w
                        (Server.with_started true s)
                      && Server.ready_cleared_before_seen w)%bool
                  then Py.Raised Py.TimeoutError
                  else Py.Done tt
              | None => Py.Blocked
              end
         else Py.Blocked,
         [ThreadStart; ReadyWait None])).
Proof.
  split; [|split].
  - intros Hs timeout. unfold Server.run_in_background, Server.start.
    unfold Py.bind, Py.get, Py.emit, Py.raise, Py.modify, Py.ret.
    now rewrite Hs.
  - intros Hs await_ready timeout.
    unfold Server.run_in_background, Server.start.
    unfold Py.bind, Py.get, Py.emit, Py.raise, Py.modify, Py.ret.
    now rewrite Hs.
  - intros Hs Hr. rewrite (run_in_background_eq w None s Hs).
    rewrite (wait_result_unbounded w (Server.with_started true s) Hr eq_refl).
    unfold Py.obs, Py.res, Py.trace. cbn [fst snd]. f_equal.
    destruct (Server.thread_sets_ready w (Server.with_started true s));
      [|reflexivity].
    destruct (Server.ready_set_after w); [|reflexivity].
    now destruct (Server.thread_clears_ready w (Server.with_started true s)
                  && Server.ready_cleared_before_seen w)%bool.
Qed.

Lemma run_in_background_unbounded_witness :
  Py.obs (Server.run_in_background Sample.calm false None Sample.server)
  = (Py.Done tt, [ThreadStart])
  /\ Py.obs (Server.run_in_background Sample.calm true (Some 5%Q)
                                      (Server.with_started true Sample.server))
     = (Py.Raised Py.RuntimeError, [ThreadStart])
  /\ Py.obs (Server.run_in_background Sample.ready_missed true None
                                      Sample.server)
     = (Py.Raised Py.TimeoutError, [ThreadStart; ReadyWait None]).
Proof.
  split; [|split].
  - now apply (run_in_background_unbounded Sample.calm Sample.server).
  - now apply (run_in_background_unbounded Sample.calm
                 (Server.with_started true Sample.server)).
  - destruct (run_in_background_unbounded Sample.ready_missed Sample.server)
      as (_ & _ & H).
    rewrite (H eq_refl eq_refl). vm_compute. reflexivity.
Defined.

(** ** Stopping the announcer *)

Section AnnouncerStops.
Variable w : ModuleAnnouncerThread.env.
Variable a : ModuleAnnouncerThread.t.

Lemma stop_wait_set_before k :
  ModuleAnnouncerThread.stop a = true ->
  ModuleAnnouncerThread.stop_wait w k a
  = (Py.Done true, a, [StopWait (ModuleAnnouncerThread.update_period a)]).
Proof.
  intros Hs. unfold ModuleAnnouncerThread.stop_wait, Py.bind, Py.get,
    Py.emit, Py.ret. cbn. now rewrite Hs.
Qed.

Lemma stop_wait_set_during k :
  ModuleAnnouncerThread.stop a = false ->
  ModuleAnnouncerThread.stop_set_during_wait w k = true ->
  ModuleAnnouncerThread.stop_wait w k a
  = (Py.Done true, ModuleAnnouncerThread.set_stop a,
     [StopWait (ModuleAnnouncerThread.update_period a)]).
Proof.
  intros Hs Hk. unfold ModuleAnnouncerThread.stop_wait, Py.bind, Py.get,
    Py.emit, Py.ret, Py.modify. cbn. now rewrite Hs, Hk.
Qed.

(** The loop ends at the first wait during which [stop] is set. *)
Lemma loop_stops n : forall k fuel,
  ModuleAnnouncerThread.stop a = false ->
  (forall j, k <= j < k + n ->
             ModuleAnnouncerThread.stop_set_during_wait w j = false
             /\ exists st, ModuleAnnouncerThread.declare_active_modules w (S j)
                           = Py.Returns st) ->
  ModuleAnnouncerThread.stop_set_during_wait w (k + n) = true ->
  n < fuel ->
  ModuleAnnouncerThread.loop w fuel k a
  = (Py.Done tt, ModuleAnnouncerThread.set_stop a,
     renewals w a k n ++ [StopWait (ModuleAnnouncerThread.update_period a)]).
Proof.
  induction n as [|n IH]; intros k fuel Hs H Hw Hf;
    (destruct fuel as [|fuel]; [lia|]);
    cbn [ModuleAnnouncerThread.loop]; unfold Py.bind at 1.
  - rewrite Nat.add_0_r in Hw. now rewrite (stop_wait_set_during k Hs Hw).
  - destruct (H k ltac:(lia)) as [Hk [st Hst]].
    rewrite (stop_wait_timeout w a k Hs Hk). unfold Py.bind at 1.
    rewrite (announce_returns w a _ _ Hst), (IH (S k) fuel); trivial.
    + intros j Hj. apply H. lia.
    + now replace (S k + n) with (k + S n) by lia.
    + lia.
Qed.
End AnnouncerStops.

(** X16.  Stopping the announcer.  When [stop] gets set during the wait
    that follows the announcement number [n], the announcer's [run] returns
    from that wait: it has made the announcements 0 to [n], one per period,
    and makes no other.  An announcer whose [stop] is already set when it
    runs still makes its first announcement, then returns from its first
    wait. *)
Theorem announcer_stops_when_asked
        (w : ModuleAnnouncerThread.env) (a : ModuleAnnouncerThread.t)
        (n fuel : nat)
        (Hfuel : n < fuel)
        (Hret : forall k, k <= n ->
                  exists st, ModuleAnnouncerThread.declare_active_modules w k
                             = Py.Returns st) :
  (ModuleAnnouncerThread.stop a = false ->
   (forall j, j < n -> ModuleAnnouncerThread.stop_set_during_wait w j = false) ->
   ModuleAnnouncerThread.stop_set_during_wait w n = true ->
   ModuleAnnouncerThread.run w fuel a
   = (Py.Done tt, ModuleAnnouncerThread.set_stop a,
      attempts w a n ++ [StopWait (ModuleAnnouncerThread.update_period a)]))
  /\ (ModuleAnnouncerThread.stop a = true ->
      ModuleAnnouncerThread.run w fuel a
      = (Py.Done tt, a,
         [announcement w a 0;
          StopWait (ModuleAnnouncerThread.update_period a)])).
Proof.
  destruct (Hret 0 ltac:(lia)) as [st0 H0].
  unfold ModuleAnnouncerThread.run, attempts. split.
  - intros Hs Hwait Hn. unfold Py.bind.
    rewrite (announce_returns w a 0 st0 H0),
      (loop_stops w a n 0 fuel Hs); trivial.
    intros j Hj. split; [apply Hwait; lia|apply Hret; lia].
  - intros Hs. unfold Py.bind. rewrite (announce_returns w a 0 st0 H0).
    destruct fuel as [|fuel]; [lia|]. cbn [ModuleAnnouncerThread.loop].
    unfold Py.bind. now rewrite (stop_wait_set_before w a 0 Hs).
Qed.

Lemma announcer_stops_when_asked_witness :
  ModuleAnnouncerThread.run SampleStop.stopped_in_third_wait 5
                            SampleAnnouncer.announcer
  = (Py.Done tt, ModuleAnnouncerThread.set_stop SampleAnnouncer.announcer,
     attempts SampleStop.stopped_in_third_wait SampleAnnouncer.announcer 2
     ++ [StopWait (ModuleAnnouncerThread.update_period
                     SampleAnnouncer.announcer)]).
Proof.
  apply (announcer_stops_when_asked SampleStop.stopped_in_third_wait
           SampleAnnouncer.announcer 2 5).
  - lia.
  - intros k _. now eexists.
  - reflexivity.
  - intros j Hj. destruct j as [|[|j]]; [reflexivity|reflexivity|lia].
  - reflexivity.
Defined.

(** ** What the announcer announces *)

Lemma announce_lease w a k s :
  same_lease a s ->
  Forall (is_lease_call w a) (Py.trace (ModuleAnnouncerThread.announce w k s))
  /\ same_lease a (Py.final (ModuleAnnouncerThread.announce w k s)).
Proof.
  intros (Hb & Hp & He).
  unfold ModuleAnnouncerThread.announce, Py.bind, Py.get, Py.call,
    Py.bind, Py.emit, Py.of_outcome, Py.ret, Py.trace, Py.final.
  cbn. rewrite Hb, He.
  destruct (ModuleAnnouncerThread.declare_active_modules w k); cbn;
    (split; [|now repeat split]);
    (constructor; [left; now exists k|constructor]).
Qed.

Lemma stop_wait_lease w a k s :
  same_lease a s ->
  Forall (is_lease_call w a) (Py.trace (ModuleAnnouncerThread.stop_wait w k s))
  /\ same_lease a (Py.final (ModuleAnnouncerThread.stop_wait w k s))
  /\ exists b, Py.res (ModuleAnnouncerThread.stop_wait w k s) = Py.Done b.
Proof.
  intros (Hb & Hp & He).
  unfold ModuleAnnouncerThread.stop_wait, Py.bind, Py.get, Py.emit, Py.ret,
    Py.modify, Py.trace, Py.final, Py.res.
  cbn. rewrite Hp.
  destruct (ModuleAnnouncerThread.stop s);
    [|destruct (ModuleAnnouncerThread.stop_set_during_wait w k)]; cbn;
    (split; [constructor; [now right|constructor]|]);
    (split; [now repeat split|now eexists]).
Qed.

Lemma loop_lease w a fuel : forall k s,
  same_lease a s ->
  Forall (is_lease_call w a) (Py.trace (ModuleAnnouncerThread.loop w fuel k s)).
Proof.
  induction fuel as [|fuel IH]; intros k s Hs; cbn [ModuleAnnouncerThread.loop];
    [constructor|].
  destruct (stop_wait_lease w a k s Hs) as (Ht & Hf & [b Hr]).
  unfold Py.bind at 1.
  destruct (ModuleAnnouncerThread.stop_wait w k s) as [[r s1] t1].
  unfold Py.trace, Py.final, Py.res in *. cbn [fst snd] in *. subst r.
  destruct b; [cbn; now rewrite app_nil_r|].
  destruct (announce_lease w a (S k) s1 Hf) as [Ht2 Hf2].
  unfold Py.bind.
  destruct (ModuleAnnouncerThread.announce w (S k) s1) as [[r2 s2] t2].
  unfold Py.trace, Py.final in *. cbn [fst snd] in *.
  destruct r2 as [[]| | |]; cbn [snd];
    try (apply Forall_app; now split).
  specialize (IH (S k) s2 Hf2).
  destruct (ModuleAnnouncerThread.loop w fuel (S k) s2) as [[r3 s3] t3].
  cbn [snd] in *. apply Forall_app. split; [exact Ht|].
  apply Forall_app. now split.
Qed.

(** X17.  However long it runs and whatever the registry answers, the
    announcer only ever announces the identifiers of the blocks it was
    built with, each time expiring [expiration] after the DHT time it has
    just read, and only ever waits for [update_period]; the first call is
    the announcement number 0, made before any wait. *)
Theorem announcer_announces_only_its_blocks
        (w : ModuleAnnouncerThread.env) (a : ModuleAnnouncerThread.t)
        (fuel : nat) :
  Forall (is_lease_call w a) (Py.trace (ModuleAnnouncerThread.run w fuel a))
  /\ (exists rest,
         Py.trace (ModuleAnnouncerThread.run w fuel a)
         = DeclareActiveModules
             (Py.keys (ModuleAnnouncerThread.module_backends a))
             (ModuleAnnouncerThread.get_dht_time w 0
              + ModuleAnnouncerThread.expiration a)%Q
           :: rest)
  /\ forall uids expiration_time,
       In (DeclareActiveModules uids expiration_time)
          (Py.trace (ModuleAnnouncerThread.run w fuel a)) ->
       uids = Py.keys (ModuleAnnouncerThread.module_backends a)
       /\ exists k, expiration_time
                    = (ModuleAnnouncerThread.get_dht_time w k
                       + ModuleAnnouncerThread.expiration a)%Q.
Proof.
  assert (Hself : same_lease a a) by now repeat split.
  assert (Hall : Forall (is_lease_call w a)
                        (Py.trace (ModuleAnnouncerThread.run w fuel a))).
  { unfold ModuleAnnouncerThread.run.
    destruct (announce_lease w a 0 a Hself) as [Ht Hf].
    unfold Py.bind.
    destruct (ModuleAnnouncerThread.announce w 0 a) as [[r s1] t1].
    unfold Py.trace, Py.final in *. cbn [fst snd] in *.
    destruct r as [[]| | |]; cbn [snd]; try exact Ht.
    pose proof (loop_lease w a fuel 0 s1 Hf) as Hl.
    destruct (ModuleAnnouncerThread.loop w fuel 0 s1) as [[r3 s3] t3].
    cbn [snd] in *. apply Forall_app. now split. }
  split; [exact Hall|]. split; [apply run_trace_head|].
  intros uids expiration_time Hin. rewrite Forall_forall in Hall.
  destruct (Hall _ Hin) as [[k Hk]|Hk]; [|discriminate].
  unfold announcement in Hk. injection Hk as -> ->. split; [reflexivity|].
  now exists k.
Qed.

Lemma announcer_announces_only_its_blocks_witness :
  ["m.0"%string; "m.1"%string]
  = Py.keys (ModuleAnnouncerThread.module_backends SampleAnnouncer.announcer)
  /\ exists k,
      (1 + 3)%Q
      = (ModuleAnnouncerThread.get_dht_time SampleAnnouncer.steady k
         + ModuleAnnouncerThread.expiration SampleAnnouncer.announcer)%Q.
Proof.
  apply (announcer_announces_only_its_blocks SampleAnnouncer.steady
           SampleAnnouncer.announcer 1).
  right. right. left. reflexivity.
Defined.

(** ** The checkpoint saver *)

Lemma run_keeps_saver w c :
  always (fun s => Server.checkpoint_saver s = c) (Server.run w)
         (fun s => Server.checkpoint_saver s = c).
Proof.
  unfold Server.run.
  apply always_bind with (Q := fun s => Server.checkpoint_saver s = c);
    [| |auto].
  - unfold Server.startup, Server.start_dht, Server.announcer_start,
      Server.start_handler.
    keep (fun s => Server.checkpoint_saver s = c).
  - intros _. apply always_try_finally.
    + unfold Server.runtime_run_call.
      keep (fun s => Server.checkpoint_saver s = c).
    + unfold Server.shutdown, Server.ready_clear, Server.terminate_handler,
        Server.announcer_join_call.
      keep (fun s => Server.checkpoint_saver s = c).
Qed.

Lemma startup_calls_no_saver s :
  Server.checkpoint_saver s = None ->
  Forall (fun ev => on_checkpoint_saver ev = false) (startup_calls s).
Proof.
  intros Hc. unfold startup_calls. rewrite Hc.
  apply Forall_app; split; [|apply Forall_app; split;
                             [|apply Forall_app; split;
                               [|apply Forall_app; split]]].
  - now repeat constructor.
  - destruct (DHT.alive (Server.dht s)); now repeat constructor.
  - destruct (Py.truthy (Server.module_backends s)); now repeat constructor.
  - constructor.
  - apply Forall_flat_map, Forall_forall. intros i _. unfold handler_calls.
    destruct (Server.handler_alive s i); now repeat constructor.
Qed.

Lemma shutdown_calls_no_saver s :
  Server.checkpoint_saver s = None ->
  Forall (fun ev => on_checkpoint_saver ev = false) (shutdown_calls s).
Proof.
  intros Hc. unfold shutdown_calls. rewrite Hc.
  apply Forall_app; split; [|apply Forall_app; split;
                             [|apply Forall_app; split;
                               [|apply Forall_app; split]]].
  - now repeat constructor.
  - apply Forall_flat_map, Forall_forall. intros i _. now repeat constructor.
  - destruct (Py.truthy (Server.module_backends s)); now repeat constructor.
  - constructor.
  - now repeat constructor.
Qed.

(** X18.  The checkpoint saver is never used.  [__init__] sets
    [checkpoint_saver] to [None] and nothing assigns it afterwards: on a
    server whose [checkpoint_saver] is [None], [run] and [shutdown] make no
    call on a checkpoint saver, and the attribute is still [None] when
    [run] ends, however it ends. *)
Theorem checkpoint_saver_never_used (w : Server.env) (s : Server.t)
        (Hnone : Server.checkpoint_saver s = None) :
  Forall (fun ev => on_checkpoint_saver ev = false) (Py.trace (Server.run w s))
  /\ Forall (fun ev => on_checkpoint_saver ev = false)
            (Py.trace (Server.shutdown w s))
  /\ Server.checkpoint_saver (Py.final (Server.run w s)) = None
  /\ forall MAX dht backends n update_period expiration,
       Server.checkpoint_saver
         (Server.fresh MAX dht backends n update_period expiration)
       = None.
Proof.
  split; [|split; [|split; [|reflexivity]]].
  - destruct (run_cases w s) as [[Hrun _]|(s1 & Hs & _ & _ & Ht)].
    + rewrite Hrun. destruct (startup_trace_prefix w s) as [rest Hpre].
      apply Forall_prefix with (l2 := rest). rewrite <- Hpre.
      now apply startup_calls_no_saver.
    + assert (He : Forall (fun ev => on_checkpoint_saver ev = false)
                          (engine_calls w)).
      { unfold engine_calls. destruct (Server.runtime_sets_ready w);
          now repeat constructor. }
      assert (Hc1 : Server.checkpoint_saver (engine_state w s1) = None).
      { destruct (startup_done w s tt) as (_ & _ & Hst); [now rewrite Hs|].
        rewrite Hs in Hst. destruct Hst as (_ & _ & Hc & _). cbn in Hc.
        unfold engine_state. destruct (Server.runtime_sets_ready w); cbn;
          congruence. }
      destruct Ht as [-> | ->]; apply Forall_app;
        (split; [now apply startup_calls_no_saver|]); [exact He|].
      apply Forall_app. split; [exact He|].
      destruct (shutdown_trace_prefix w (engine_state w s1)) as [rest Hpre].
      apply Forall_prefix with (l2 := rest). rewrite <- Hpre.
      now apply shutdown_calls_no_saver.
  - destruct (shutdown_trace_prefix w s) as [rest Hpre].
    apply Forall_prefix with (l2 := rest). rewrite <- Hpre.
    now apply shutdown_calls_no_saver.
  - now apply (run_keeps_saver w None s).
Qed.

Lemma checkpoint_saver_never_used_witness :
  Server.checkpoint_saver (Py.final (Server.run Sample.calm Sample.server))
  = None.
Proof.
  apply (checkpoint_saver_never_used Sample.calm Sample.server). reflexivity.
Defined.

(** ** An empty range *)

Lemma range2_empty (lo hi : Z) : (hi <= lo)%Z -> Py.range2 lo hi = [].
Proof.
  intros H. unfold Py.range2. now replace (Z.to_nat (hi - lo)) with 0 by lia.
Qed.

Lemma startup_keeps_saver w c :
  always (fun s => Server.checkpoint_saver s = c) (Server.startup w)
         (fun s => Server.checkpoint_saver s = c).
Proof.
  unfold Server.startup, Server.start_dht, Server.announcer_start,
    Server.start_handler.
  keep (fun s => Server.checkpoint_saver s = c).
Qed.

(** [run] on a server without blocks, handlers and saver whose DHT is
    alive. *)
Lemma run_bare_server w s :
  Server.module_backends s = [] ->
  Server.conn_handlers s = [] ->
  Server.checkpoint_saver s = None ->
  DHT.alive (Server.dht s) = true ->
  exists rest, Py.trace (Server.run w s) = DhtIsAlive true :: RuntimeRun :: rest.
Proof.
  intros Hb Hh Hc Ha.
  assert (Hcalls : startup_calls s = [DhtIsAlive true]).
  { unfold startup_calls. now rewrite Hb, Hh, Hc, Ha. }
  destruct (run_cases w s) as [[_ Hfail]|(s1 & _ & _ & _ & Ht)].
  - exfalso. apply (Hfail tt).
    pose proof (startup_obs w s) as Hobs. rewrite Hcalls in Hobs.
    change (play (answer w s) [DhtIsAlive true])
      with (Py.Done tt, [DhtIsAlive true]) in Hobs.
    unfold Py.obs in Hobs. now injection Hobs as Hres _.
  - rewrite Hcalls in Ht. unfold engine_calls in Ht.
    destruct Ht as [-> | ->]; cbn [app]; now eexists.
Qed.

(** X19.  [create] accepts an empty range.  With [num_blocks=0], or with
    [block_indices="lo:hi"] where [hi <= lo], a call in which nothing fails
    before the object is built asks for no block and builds the server;
    with [start=False] it returns it at once, with [start=True] it goes on
    to launch the thread and to wait on [ready].  Whenever the call
    returns a server, that server hosts nothing, and with [num_handlers]
    left out it has no handler either; [run] on that server never touches
    the announcer, and with no handler it goes straight from the DHT check
    into the engine. *)
Theorem create_accepts_empty_range
        (MAX_DHT_TIME_DISCREPANCY_SECONDS : Q) (DTYPE_MAP : Py.dict string)
        (cw : Server.create_env) (w : Server.env) (a : Server.create_args)
        (lo hi : Z)
        (Hwell : goes_well DTYPE_MAP cw a lo hi)
        (Hempty : (hi <= lo)%Z) :
  let call := Server.create_call MAX_DHT_TIME_DISCREPANCY_SECONDS DTYPE_MAP
                                 cw w a in
  Py.trace call
  = preamble a
    ++ [DhtInit true; DhtGetVisibleMaddrs;
        ConfigFromPretrained (Server.converted_model_name_or_path a)]
    ++ (if Server.create_start a then [ThreadStart; ReadyWait None] else [])
  /\ (Server.create_start a = false -> exists srv, Py.res call = Py.Done srv)
  /\ forall srv,
       Py.res call = Py.Done srv ->
       Server.module_backends srv = []
       /\ (Server.num_handlers a = None -> Server.conn_handlers srv = [])
       /\ forall w',
            Forall (fun ev => on_announcer ev = false)
                   (Py.trace (Server.run w' srv))
            /\ (Server.num_handlers a = None ->
                exists rest,
                  Py.trace (Server.run w' srv)
                  = DhtIsAlive true :: RuntimeRun :: rest).
Proof.
  intros call. subst call.
  assert (Hb : blocks_of a lo hi = []).
  { unfold blocks_of. now rewrite (range2_empty lo hi Hempty). }
  assert (Hh : Server.num_handlers a = None -> handlers_of a lo hi = 0%Z).
  { intros Hn. unfold handlers_of. now rewrite Hn, Hb. }
  set (s0 := Server.fresh MAX_DHT_TIME_DISCREPANCY_SECONDS (DHT.mk true)
               (blocks_of a lo hi) (handlers_of a lo hi)
               (Server.create_update_period a) (Server.create_expiration a)).
  assert (Hsrv : forall srv,
             srv = s0 \/ srv = Server.when_ready w (Server.with_started true s0) ->
             Server.module_backends srv = []
             /\ (Server.num_handlers a = None -> Server.conn_handlers srv = [])
             /\ Server.checkpoint_saver srv = None
             /\ DHT.alive (Server.dht srv) = true).
  { intros srv [-> | ->].
    - split; [exact Hb|]. split; [|now split].
      intros Hn. unfold s0. cbn. now rewrite (Hh Hn).
    - destruct (when_ready_keeps w (Server.with_started true s0))
        as (_ & Hmb & _ & _ & Hlen & Halive).
      split; [rewrite Hmb; exact Hb|]. split; [|split].
      + intros Hn. apply length_zero_iff_nil. rewrite Hlen.
        unfold s0. cbn. now rewrite (Hh Hn).
      + now apply (startup_keeps_saver w None (Server.with_started true s0)).
      + now apply Halive. }
  rewrite (create_well MAX_DHT_TIME_DISCREPANCY_SECONDS _ _ w _ _ _ Hwell).
  fold s0. unfold create_calls, Py.res, Py.trace. cbn [fst snd].
  rewrite (range2_empty lo hi Hempty). cbn [map]. rewrite app_nil_r.
  assert (Hrun : forall srv,
             srv = s0 \/ srv = Server.when_ready w (Server.with_started true s0) ->
             Server.module_backends srv = []
             /\ (Server.num_handlers a = None -> Server.conn_handlers srv = [])
             /\ forall w',
                 Forall (fun ev => on_announcer ev = false)
                        (Py.trace (Server.run w' srv))
                 /\ (Server.num_handlers a = None ->
                     exists rest,
                       Py.trace (Server.run w' srv)
                       = DhtIsAlive true :: RuntimeRun :: rest)).
  { intros srv Hcase. destruct (Hsrv srv Hcase) as (Hmb & Hch & Hcs & Hal).
    split; [exact Hmb|]. split; [exact Hch|]. intros w'.
    split; [now apply run_no_blocks|]. intros Hn.
    now apply run_bare_server; [|apply Hch| |]. }
  destruct (Server.create_start a).
  - rewrite init_started. cbv zeta. fold s0. cbn [fst snd].
    rewrite <- app_assoc.
    split; [reflexivity|]. split; [discriminate|].
    intros srv Hres. apply Hrun. right.
    destruct (Server.wait_result w (Server.with_started true s0) None)
      as [[|]|]; [|discriminate..].
    now injection Hres as <-.
  - rewrite init_not_started. fold s0. cbn [fst snd].
    rewrite <- app_assoc.
    split; [reflexivity|]. split; [intros _; now exists s0|].
    intros srv Hres. apply Hrun. left. now injection Hres as <-.
Qed.

Lemma create_accepts_empty_range_witness :
  Py.trace (Server.create_call 3 SampleCreate.dtype_map SampleCreate.loaders
              Sample.calm (SampleCreate.args None (Some "5:2"%string) false))
  = [DhtInit true; DhtGetVisibleMaddrs; ConfigFromPretrained "bloom"]
  /\ exists srv,
      Py.res (Server.create_call 3 SampleCreate.dtype_map SampleCreate.loaders
                Sample.calm (SampleCreate.args None (Some "5:2"%string) false))
      = Py.Done srv
      /\ Server.module_backends srv = [].
Proof.
  destruct (create_accepts_empty_range 3 SampleCreate.dtype_map
              SampleCreate.loaders Sample.calm
              (SampleCreate.args None (Some "5:2"%string) false) 5 2)
    as (Ht & Hret & Hsrv).
  - split; [now left|]. split; [left; now exists "5:2"%string|].
    split; [reflexivity|]. split; [reflexivity|]. split; [reflexivity|].
    intros i _. reflexivity.
  - lia.
  - split; [exact Ht|]. destruct (Hret eq_refl) as [srv Hres].
    exists srv. split; [exact Hres|]. now apply (Hsrv srv Hres).
Defined.
